(** * Proxy-Scanner: the SOCKS5 validation engine, embedded in Rocq

    A shallow embedding of the three scripts of the repository:
    [socks5_tester.py] and [socks5_scanner.py], which probe proxies, and
    [socks5_collector.py], which writes the candidate file the tester
    reads; and the properties of the validation engine that its
    specification states.

    Python values are modelled by [pyval], result dictionaries by
    [gmap string pyval], exceptions by an error monad [res].  Strings are
    Rocq strings (sequences of 8-bit characters); code points above 255 are
    outside the model.  The network, the file system and the clock are
    explicit inputs of every function that reads them. *)

From Stdlib Require Import ZArith List String Ascii Lia Bool Permutation Sorted.
From stdpp Require Import base strings gmap list pretty.

Open Scope string_scope.
Open Scope Z_scope.

#[local] Set Warnings "-register-all".

(* ===================================================================== *)
(** ** Python primitives used by the scripts *)
(* ===================================================================== *)

Module Py.

(** *** Exceptions *)

(** The exception classes that the modelled operations raise.  All of them
    derive from [Exception]. *)
Inductive exn_class :=
| ValueError | TypeError | AttributeError | KeyError | ZeroDivisionError
| SocketTimeout | ConnectionRefusedError | OSError
| ReqConnectTimeout | ReqReadTimeout | ReqProxyError | ReqSSLError
| ReqConnectionError | ReqOther | OtherException.

Record exn := Exn { exn_cls : exn_class; exn_msg : string }.

(** [isinstance(e, requests.exceptions.Timeout)] *)
Definition is_req_Timeout (e : exn) : bool :=
  match exn_cls e with
  | ReqConnectTimeout | ReqReadTimeout => true
  | _ => false
  end.

(** [isinstance(e, requests.exceptions.ProxyError)] *)
Definition is_req_ProxyError (e : exn) : bool :=
  match exn_cls e with
  | ReqProxyError => true
  | _ => false
  end.

(** [isinstance(e, requests.exceptions.ConnectionError)] *)
Definition is_req_ConnectionError (e : exn) : bool :=
  match exn_cls e with
  | ReqConnectTimeout | ReqProxyError | ReqSSLError | ReqConnectionError => true
  | _ => false
  end.

(** The outcome of a Python computation: a value, or a raised exception. *)
Inductive res (A : Type) : Type :=
| Ok (a : A)
| Raise (e : exn).
Arguments Ok {A} a.
Arguments Raise {A} e.

Definition bind {A B} (c : res A) (k : A -> res B) : res B :=
  match c with
  | Ok a => k a
  | Raise e => Raise e
  end.

(** [try: c  except: h] with a handler that sees the exception. *)
Definition try_except {A} (c : res A) (h : exn -> res A) : res A :=
  match c with
  | Ok a => Ok a
  | Raise e => h e
  end.

Definition raise {A} (c : exn_class) (msg : string) : res A :=
  Raise (Exn c msg).

#[global] Instance res_bind : MBind res := fun A B k c => bind c k.
#[global] Instance res_ret : MRet res := fun A a => Ok a.

(** *** Characters and strings *)

Definition is_digit (c : ascii) : bool :=
  let n := nat_of_ascii c in (48 <=? n)%nat && (n <=? 57)%nat.

Definition digit_val (c : ascii) : Z := Z.of_nat (nat_of_ascii c) - 48.

(** [str.isspace] on the code points up to 255, as [str.strip] uses it:
    TAB, LF, VT, FF, CR, FS, GS, RS, US, space, NEL and the no-break
    space. *)
Definition is_space (c : ascii) : bool :=
  let n := nat_of_ascii c in
  ((9 <=? n)%nat && (n <=? 13)%nat) || ((28 <=? n)%nat && (n <=? 32)%nat) ||
  (n =? 133)%nat || (n =? 160)%nat.

Definition is_empty (s : string) : bool :=
  match s with
  | EmptyString => true
  | String _ _ => false
  end.

Fixpoint lstrip (s : string) : string :=
  match s with
  | EmptyString => EmptyString
  | String c r => if is_space c then lstrip r else s
  end.

Fixpoint rstrip (s : string) : string :=
  match s with
  | EmptyString => EmptyString
  | String c r =>
      let r' := rstrip r in
      if is_space c && is_empty r' then EmptyString else String c r'
  end.

(** [s.strip()] *)
Definition strip (s : string) : string := rstrip (lstrip s).

(** [s.startswith(p)] *)
Fixpoint startswith (p s : string) : bool :=
  match p, s with
  | EmptyString, _ => true
  | String a p', String b s' => Ascii.eqb a b && startswith p' s'
  | String _ _, EmptyString => false
  end.

(** [p in s] for two strings: [p] occurs as a contiguous substring. *)
Fixpoint contains (p s : string) : bool :=
  startswith p s ||
  match s with
  | EmptyString => false
  | String _ s' => contains p s'
  end.

(** [s.split(sep)] for a one-character separator: never empty, one more
    piece than there are separators. *)
Fixpoint split (sep : ascii) (s : string) : list string :=
  match s with
  | EmptyString => [EmptyString]
  | String c r =>
      if Ascii.eqb c sep then EmptyString :: split sep r
      else match split sep r with
           | h :: t => String c h :: t
           | [] => [String c EmptyString]
           end
  end.

(** [s[:n]] *)
Fixpoint take_str (n : nat) (s : string) : string :=
  match n, s with
  | O, _ => EmptyString
  | _, EmptyString => EmptyString
  | S n', String c r => String c (take_str n' r)
  end.

(** *** [int(s)] in base 10 *)

(** The white space [int] drops around a literal: TAB, LF, VT, FF, CR and
    the space, and of the other code points up to 255 NEL and the no-break
    space.  The separators FS, GS, RS and US, which [str.strip] drops,
    are not among them: [int] raises on them. *)
Definition is_int_space (c : ascii) : bool :=
  let n := nat_of_ascii c in
  ((9 <=? n)%nat && (n <=? 13)%nat) || (n =? 32)%nat ||
  (n =? 133)%nat || (n =? 160)%nat.

Fixpoint lstrip_where (space : ascii -> bool) (s : string) : string :=
  match s with
  | EmptyString => EmptyString
  | String c r => if space c then lstrip_where space r else s
  end.

Fixpoint rstrip_where (space : ascii -> bool) (s : string) : string :=
  match s with
  | EmptyString => EmptyString
  | String c r =>
      let r' := rstrip_where space r in
      if space c && is_empty r' then EmptyString else String c r'
  end.

(** Digits after the first one: a single underscore is allowed between two
    digits.  [after_us] records that the previous character was an
    underscore, which a digit must follow. *)
Fixpoint int_digits (s : string) (acc : Z) (after_us : bool) : option Z :=
  match s with
  | EmptyString => if after_us then None else Some acc
  | String c r =>
      if is_digit c then int_digits r (10 * acc + digit_val c) false
      else if Ascii.eqb c "_" && negb after_us then int_digits r acc true
      else None
  end.

Definition int_unsigned (s : string) : option Z :=
  match s with
  | EmptyString => None
  | String c r => if is_digit c then int_digits r (digit_val c) false else None
  end.

(** The first pass of the interpreter over the digits: it runs over the
    leading digits and underscores and counts the digits (leading zeros
    count, underscores do not).  [None] is a misplaced underscore (in
    front, doubled, or at the end of the run).  [prev_us] records that the
    previous character was an underscore; the pass starts as if it were,
    since a literal may not start with one. *)
Fixpoint scan_digits (s : string) (prev_us : bool) (digits : nat) : option nat :=
  match s with
  | EmptyString => if prev_us then None else Some digits
  | String c r =>
      if is_digit c then scan_digits r false (S digits)
      else if Ascii.eqb c "_" then
        (if prev_us then None else scan_digits r true digits)
      else if prev_us then None else Some digits
  end.

(** [sys.get_int_max_str_digits()], 4300 unless configured otherwise. *)
Definition int_max_str_digits : nat := 4300.

(** [int(s)]: surrounding white space is dropped, one sign is allowed, then
    decimal digits (leading zeros included).  A run of more digits than the
    limit raises [ValueError] before the rest of the literal is looked at;
    anything else that is not a literal raises [ValueError] too. *)
Definition int (s : string) : res Z :=
  let t := rstrip_where is_int_space (lstrip_where is_int_space s) in
  let invalid := raise ValueError "invalid literal for int() with base 10" in
  let '(sign, u) :=
    match t with
    | String "-" u => (-1, u)
    | String "+" u => (1, u)
    | _ => (1, t)
    end in
  match scan_digits u true 0 with
  | None => invalid
  | Some digits =>
      if (digits <=? int_max_str_digits)%nat then
        match int_unsigned u with
        | Some n => Ok (sign * n)
        | None => invalid
        end
      else raise ValueError "Exceeds the limit (4300 digits) for integer string conversion"
  end.

(** *** Dynamically typed values *)

(** The values the scripts handle: what [json.loads] produces (numbers are
    integers in this model) and what the scripts store in their result
    dictionaries.  A JSON object is an association list with distinct
    keys, in insertion order. *)
Inductive pyval :=
| PNone
| PBool (b : bool)
| PInt (n : Z)
| PStr (s : string)
| PList (l : list pyval)
| PDict (kv : list (string * pyval)).

(** Truth value of an object, as [if x:] and [x or y] test it. *)
Definition truthy (v : pyval) : bool :=
  match v with
  | PNone => false
  | PBool b => b
  | PInt n => negb (n =? 0)
  | PStr s => negb (is_empty s)
  | PList l => match l with [] => false | _ => true end
  | PDict kv => match kv with [] => false | _ => true end
  end.

(** [a or b] (both operands already evaluated) *)
Definition py_or (a b : pyval) : pyval := if truthy a then a else b.

Fixpoint assoc (k : string) (kv : list (string * pyval)) : option pyval :=
  match kv with
  | [] => None
  | (k', v) :: r => if String.eqb k k' then Some v else assoc k r
  end.

(** [d.get(k, default)]: only a dict has the method. *)
Definition get (d : pyval) (k : string) (default : pyval) : res pyval :=
  match d with
  | PDict kv => Ok (match assoc k kv with Some v => v | None => default end)
  | _ => raise AttributeError "object has no attribute 'get'"
  end.

(** [a == b].  [bool] is a subclass of [int]; dicts compare as maps. *)
Fixpoint py_eq (a b : pyval) {struct a} : bool :=
  match a, b with
  | PNone, PNone => true
  | PBool x, PBool y => Bool.eqb x y
  | PBool x, PInt y => (if x then 1 else 0) =? y
  | PInt x, PBool y => x =? (if y then 1 else 0)
  | PInt x, PInt y => x =? y
  | PStr x, PStr y => String.eqb x y
  | PList la, PList lb =>
      (fix go (la lb : list pyval) {struct la} : bool :=
         match la, lb with
         | [], [] => true
         | x :: xs, y :: ys => py_eq x y && go xs ys
         | _, _ => false
         end) la lb
  | PDict da, PDict db =>
      Nat.eqb (length da) (length db) &&
      (fix go (da : list (string * pyval)) {struct da} : bool :=
         match da with
         | [] => true
         | (k, v) :: r =>
             match assoc k db with
             | Some v' => py_eq v v'
             | None => false
             end && go r
         end) da
  | _, _ => false
  end.

(** [x in c] *)
Definition py_in (x c : pyval) : res bool :=
  match c with
  | PStr s =>
      match x with
      | PStr p => Ok (contains p s)
      | _ => raise TypeError "'in <string>' requires string as left operand"
      end
  | PList l => Ok (existsb (py_eq x) l)
  | PDict kv =>
      match x with
      | PList _ | PDict _ => raise TypeError "unhashable type"
      | _ => Ok (existsb (fun p => py_eq x (PStr (fst p))) kv)
      end
  | _ => raise TypeError "argument is not iterable"
  end.

(** [x not in c] *)
Definition py_not_in (x c : pyval) : res bool :=
  bind (py_in x c) (fun b => Ok (negb b)).

(** The integer an [int] or a [bool] stands for in a comparison. *)
Definition as_number (v : pyval) : option Z :=
  match v with
  | PInt n => Some n
  | PBool b => Some (if b then 1 else 0)
  | _ => None
  end.

(** [a < b].  Numbers compare by value, strings and lists
    lexicographically; any other pair raises [TypeError]. *)
Fixpoint py_lt (a b : pyval) {struct a} : res bool :=
  match a, b with
  | PStr x, PStr y => Ok (String.ltb x y)
  | PList la, PList lb =>
      (fix go (la lb : list pyval) {struct la} : res bool :=
         match la, lb with
         | [], [] => Ok false
         | [], _ :: _ => Ok true
         | _ :: _, [] => Ok false
         | x :: xs, y :: ys => if py_eq x y then go xs ys else py_lt x y
         end) la lb
  | _, _ =>
      match as_number a, as_number b with
      | Some x, Some y => Ok (x <? y)
      | _, _ => raise TypeError "'<' not supported between these instances"
      end
  end.

(** [l.sort(key=key)]: the stable sort, which only asks [<] of two keys.
    An element goes in front of the first element of the sorted rest that is
    not smaller than it, so equal keys keep their order.  With two or more
    elements every key takes part in a comparison, and a comparison that
    raises ends the sort with that exception. *)
Section Sort.
Context {A : Type} (key : A -> pyval).

Fixpoint insert_by_key (x : A) (l : list A) : res (list A) :=
  match l with
  | [] => Ok [x]
  | y :: r =>
      b ← py_lt (key y) (key x);
      if b : bool then r' ← insert_by_key x r; mret (y :: r')
      else Ok (x :: y :: r)
  end.

Fixpoint sort_by_key (l : list A) : res (list A) :=
  match l with
  | [] => Ok []
  | x :: r => r' ← sort_by_key r; insert_by_key x r'
  end.
End Sort.

(** [as_completed(futures)] for [n] submitted futures: every future is
    yielded exactly once, in the order in which the calls finish.  [order]
    gives that order as far as it goes: an index out of range or given
    before is passed over, and the futures [order] leaves out finish after
    the others, in the order of submission.  So every [order] stands for a
    possible run, and a permutation of the indices stands for itself. *)
Fixpoint completions (n : nat) (order done : list nat) : list nat :=
  match order with
  | [] => List.filter (fun i => negb (existsb (Nat.eqb i) done)) (seq 0 n)
  | i :: rest =>
      if (i <? n)%nat && negb (existsb (Nat.eqb i) done)
      then i :: completions n rest (i :: done)
      else completions n rest done
  end.

Definition as_completed (n : nat) (order : list nat) : list nat :=
  completions n order [].

(** [for item in v]: the items a [for] loop over [v] visits. *)
Definition py_iter (v : pyval) : res (list pyval) :=
  match v with
  | PList l => Ok l
  | PDict kv => Ok (List.map (fun p => PStr (fst p)) kv)
  | PStr s => Ok (List.map (fun c => PStr (String c EmptyString)) (list_ascii_of_string s))
  | _ => raise TypeError "object is not iterable"
  end.

(** [s.split(sep)] as a method call on an arbitrary object. *)
Definition py_split (v : pyval) (sep : ascii) : res (list string) :=
  match v with
  | PStr s => Ok (split sep s)
  | _ => raise AttributeError "object has no attribute 'split'"
  end.

(** *** HTTP responses, as [requests] hands them to the scripts *)

Record response := Response {
  status_code : Z;
  text : string;            (* response.text *)
  json : res pyval          (* response.json(): the decoded body, or the decoding error *)
}.

(** [requests.get(url, proxies=..., timeout=...)]: the network, seen from
    one call site.  The arguments are the URL, the proxy URL the request is
    tunnelled through (if any) and the timeout in seconds. *)
Definition network := string -> option string -> Z -> res response.

(** *** Result dictionaries and the statements that fill them *)

(** A result dictionary of the scripts. *)
Abbreviation dict := (gmap string pyval).

(** A block of statements working on one mutable object of type [S] (a
    result dictionary, the set of collected candidates): it ends with a
    value or an exception, and the updates made before an exception stay. *)
Definition M (S A : Type) : Type := S -> res A * S.

Definition ret_st {S A} (a : A) : M S A := fun d => (Ok a, d).

Definition bind_st {S A B} (c : M S A) (k : A -> M S B) : M S B :=
  fun d =>
    match c d with
    | (Ok a, d') => k a d'
    | (Raise e, d') => (Raise e, d')
    end.

#[global] Instance M_bind {S} : MBind (M S) := fun A B k c => bind_st c k.
#[global] Instance M_ret {S} : MRet (M S) := fun A a => ret_st a.

(** An operation that may raise and does not touch the object. *)
Definition lift {S A} (c : res A) : M S A := fun d => (c, d).

(** [try: c  except <any Exception>: h] inside such a block. *)
Definition mtry {S A} (c : M S A) (h : exn -> M S A) : M S A :=
  fun d =>
    match c d with
    | (Ok a, d') => (Ok a, d')
    | (Raise e, d') => h e d'
    end.

(** [for x in l: body(x)] *)
Fixpoint for_each {S A} (l : list A) (body : A -> M S unit) : M S unit :=
  match l with
  | [] => ret_st tt
  | x :: r => bind_st (body x) (fun _ => for_each r body)
  end.

(** [result[k] = v] *)
Definition setitem (k : string) (v : pyval) : M dict unit :=
  fun d => (Ok tt, <[k := v]> d).

(** [result[k]] *)
Definition getitem (k : string) : M dict pyval :=
  fun d =>
    match d !! k with
    | Some v => (Ok v, d)
    | None => (raise KeyError k, d)
    end.

(** [all_proxies.add(x)] *)
Definition set_add (x : string) : M (gset string) unit :=
  fun st => (Ok tt, {[x]} ∪ st).

(** [d.get(k, default)] and [d[k]] on a result dictionary *)
Definition dict_get (d : dict) (k : string) (default : pyval) : pyval :=
  match d !! k with
  | Some v => v
  | None => default
  end.

Definition dict_item (d : dict) (k : string) : res pyval :=
  match d !! k with
  | Some v => Ok v
  | None => raise KeyError k
  end.

(** Truth value of a dictionary: non-empty. *)
Definition dict_truthy (d : dict) : bool :=
  negb (bool_decide (d = ∅)).

(** [str(n)] for an integer, as an f-string prints it *)
Definition str_int (n : Z) : string := pretty n.

(** [str(v)], as an f-string formats a value.  The text of a list or a
    dict is built from the [repr] of its items, which is taken as the
    parameter [container_repr]. *)
Definition py_str (container_repr : pyval -> string) (v : pyval) : string :=
  match v with
  | PNone => "None"
  | PBool b => if b then "True" else "False"
  | PInt n => str_int n
  | PStr s => s
  | PList _ | PDict _ => container_repr v
  end.

End Py.

(* ===================================================================== *)
(** ** socks5_tester.py *)
(* ===================================================================== *)

Module Tester.
Import Py.

(** Configuration constants of the script. *)
Definition TEST_TIMEOUT : Z := 10.
Definition MAX_WORKERS : Z := 50.
Definition TEST_URL : string := "http://httpbin.org/ip".

(** What one probe sees of the outside world: the network behind its
    proxy, the value of [round((time.time() - start_time) * 1000)] at the
    moment it is read, and [datetime.now().isoformat()]. *)
Record probe_env := ProbeEnv {
  requests_get : network;
  elapsed_ms : Z;
  now_iso : string
}.

(** *** get_my_real_ip *)

Definition ip_services : list string :=
  [ "https://api.ipify.org?format=json";
    "https://ipinfo.io/json";
    "https://api.ip.sb/ip";
    "http://ip-api.com/json" ].

(** The value assigned to [MY_REAL_IP] from a response with status 200
    (lines 66-73); [Raise] when the assignment itself fails. *)
Definition ip_from_response (service : string) (response : response) : res pyval :=
  if contains "json" service then
    try_except
      (data ← json response;
       a ← get data "ip" PNone;
       b ← get data "query" PNone;
       c ← get data "origin" PNone;
       mret (py_or (py_or a b) c))
      (fun _ => Ok (PStr (strip (text response))))
  else Ok (PStr (strip (text response))).

(** Lines 63-73 and 78-79, one turn of the loop up to the test of line 75:
    the value the turn assigns to [MY_REAL_IP], or [None] when it assigns
    nothing (status other than 200, or an exception, which means
    [continue]). *)
Definition query (net : network) (service : string) : option pyval :=
  match net service None 10 with
  | Raise _ => None
  | Ok response =>
      if status_code response =? 200 then
        match ip_from_response service response with
        | Ok v => Some v
        | Raise _ => None
        end
      else None
  end.

(** The [for service in ip_services] loop.  [g] is the global
    [MY_REAL_IP] on entry; the result is the returned value and the global
    on exit. *)
Fixpoint get_my_real_ip_loop (net : network) (services : list string) (g : pyval)
  : pyval * pyval :=
  match services with
  | [] => (PNone, g)
  | service :: rest =>
      match query net service with
      | Some v => if truthy v then (v, v) else get_my_real_ip_loop net rest v
      | None => get_my_real_ip_loop net rest g
      end
  end.

Definition get_my_real_ip (net : network) (g : pyval) : pyval * pyval :=
  get_my_real_ip_loop net ip_services g.

(** *** load_proxies *)

Definition newline : ascii := "010"%char.

(** The test of lines 96 and 109, on a stripped line. *)
Definition keep_line (line : string) : bool :=
  negb (is_empty line) && contains ":" line && negb (startswith "#" line).

(** The loop body of lines 94-97 and 107-110 over a sequence of lines. *)
Definition append_lines (lines : list string) : list string :=
  List.filter keep_line (List.map strip lines).

(** [INPUT_URL] is a configuration value ([None] in the script as
    shipped).  [file] is what reading [INPUT_FILE] gives: [None] when the
    file does not exist, else the sequence of its lines, or the exception
    that opening or decoding it raises (lines 106-110 stand outside any
    [try], so that exception leaves the function). *)
Definition load_proxies (INPUT_URL : option string) (net : network)
    (file : option (res (list string))) : res (list string) :=
  let from_file :=
    match file with
    | Some reading => lines ← reading; mret (append_lines lines)
    | None => Ok []
    end in
  match INPUT_URL with
  | Some url =>
      if is_empty url then from_file
      else
        match net url None 30 with
        | Ok response =>
            if status_code response =? 200
            then Ok (append_lines (split newline (strip (text response))))
            else from_file
        | Raise _ => from_file
        end
  | None => from_file
  end.

(** *** test_socks5_proxy *)

(** Lines 124-136: the split of the candidate into its fields.  [None] is
    the early [return None], also taken when [int(port)] raises. *)
Definition parse_parts (proxy : string) : option (string * Z * pyval * pyval) :=
  match
    (match split ":" proxy with
     | [ip; port] =>
         p ← int port; mret (Some (ip, p, PNone, PNone))
     | [ip; port; user; password] =>
         p ← int port; mret (Some (ip, p, PStr user, PStr password))
     | _ => Ok None
     end)
  with
  | Ok r => r
  | Raise _ => None
  end.

(** Lines 138-150: the result dictionary before the probe. *)
Definition initial_result (proxy ip : string) (port : Z) (user password : pyval)
    (tested_at : string) : dict :=
  <["tested_at" := PStr tested_at]>
  (<["error" := PNone]>
  (<["exit_ip" := PNone]>
  (<["anonymous" := PNone]>
  (<["latency" := PNone]>
  (<["working" := PBool false]>
  (<["password" := password]>
  (<["user" := user]>
  (<["port" := PInt port]>
  (<["ip" := PStr ip]>
  (<["proxy" := PStr proxy]> ∅)))))))))).

(** [str(v)] for the credentials put into the proxy URL; they are strings
    whenever they are truthy. *)
Definition cred_str (v : pyval) : string :=
  match v with
  | PStr s => s
  | _ => ""
  end.

(** Lines 156-159 *)
Definition proxy_url (ip : string) (port : Z) (user password : pyval) : string :=
  if truthy user && truthy password
  then "socks5h://" ++ cred_str user ++ ":" ++ cred_str password ++ "@"
       ++ ip ++ ":" ++ str_int port
  else "socks5h://" ++ ip ++ ":" ++ str_int port.

(** Lines 179-184, the body of the inner [try]. *)
Definition read_exit_ip (MY_REAL_IP : pyval) (response : response) : M dict unit :=
  data ← lift (json response);
  origin ← lift (get data "origin" (PStr ""));
  pieces ← lift (py_split origin ",");
  setitem "exit_ip" (PStr (strip (hd "" pieces)));;
  exit_ip ← getitem "exit_ip";
  if truthy MY_REAL_IP && truthy exit_ip then
    b ← lift (py_not_in MY_REAL_IP exit_ip);
    setitem "anonymous" (PBool b)
  else mret tt.

(** Lines 155-190, the body of the outer [try].  The value is [true] when
    [return result] is reached and [false] when control falls out of
    the [try] statement. *)
Definition probe (MY_REAL_IP : pyval) (env : probe_env)
    (ip : string) (port : Z) (user password : pyval) : M dict bool :=
  response ← lift (requests_get env TEST_URL
                     (Some (proxy_url ip port user password)) TEST_TIMEOUT);
  if status_code response =? 200 then
    setitem "working" (PBool true);;
    setitem "latency" (PInt (elapsed_ms env));;
    mtry (read_exit_ip MY_REAL_IP response) (fun _ => mret tt);;
    mret true
  else
    setitem "error" (PStr ("HTTP " ++ str_int (status_code response)));;
    mret false.

(** Lines 192-199, the handlers of the outer [try], in their order. *)
Definition on_error (e : exn) : M dict bool :=
  (if is_req_Timeout e then setitem "error" (PStr "Timeout")
   else if is_req_ProxyError e then setitem "error" (PStr "Proxy error")
   else if is_req_ConnectionError e then setitem "error" (PStr "Connection error")
   else setitem "error" (PStr (take_str 50 (exn_msg e))));;
  mret false.

(** The local [result] when the function ends, next to what it returns. *)
Definition test_socks5_proxy_run (MY_REAL_IP : pyval) (env : probe_env)
    (proxy : string) : res (option dict) * option dict :=
  match parse_parts proxy with
  | None => (Ok None, None)
  | Some (ip, port, user, password) =>
      let result := initial_result proxy ip port user password (now_iso env) in
      match mtry (probe MY_REAL_IP env ip port user password) on_error result with
      | (Ok true, result') => (Ok (Some result'), Some result')
      | (Ok false, result') => (Ok None, Some result')
      | (Raise e, result') => (Raise e, Some result')
      end
  end.

(** [test_socks5_proxy(proxy)]: a result dictionary, or [None]. *)
Definition test_socks5_proxy (MY_REAL_IP : pyval) (env : probe_env)
    (proxy : string) : res (option dict) :=
  fst (test_socks5_proxy_run MY_REAL_IP env proxy).

(** *** test_all_proxies *)

(** Lines 214-217: one future per entry of [proxies], in submission order.
    The call for entry [i] runs in the world [world i]. *)
Definition submit_all (MY_REAL_IP : pyval) (world : nat -> probe_env)
    (proxies : list string) : list (res (option dict)) :=
  imap (fun i proxy => test_socks5_proxy MY_REAL_IP (world i) proxy) proxies.

(** Lines 229-231 for one completed future: [future.result()] re-raises
    what the call raised; a truthy result whose ['working'] is truthy is
    appended. *)
Definition collect (working : list dict) (future : res (option dict))
  : res (list dict) :=
  result ← future;
  match result with
  | None => Ok working
  | Some d =>
      if dict_truthy d then
        w ← dict_item d "working";
        if truthy w then Ok (working ++ [d])%list else Ok working
      else Ok working
  end.

(** The body of the [for future in as_completed(...)] loop, run over a
    sequence of indices of futures.  [test_all_proxies] runs it over the
    sequence that [as_completed] yields. *)
Fixpoint drain (futures : list (res (option dict))) (order : list nat)
    (working : list dict) : res (list dict) :=
  match order with
  | [] => Ok working
  | i :: rest =>
      match futures !! i with
      | Some future => w ← collect working future; drain futures rest w
      | None => drain futures rest working
      end
  end.

(** [test_all_proxies(proxies)]: the loop runs over the futures as
    [as_completed] yields them.  The percentage printed on line 237
    divides by [len(proxies)]. *)
Definition test_all_proxies (MY_REAL_IP : pyval) (world : nat -> probe_env)
    (order : list nat) (proxies : list string) : res (list dict) :=
  working ← drain (submit_all MY_REAL_IP world proxies)
              (as_completed (length proxies) order) [];
  if Nat.eqb (length proxies) 0 then raise ZeroDivisionError "division by zero"
  else Ok working.

(** *** save_results *)

(** [lambda x: x.get('latency', 9999)] *)
Definition latency_key (x : dict) : pyval :=
  dict_get x "latency" (PInt 9999).

(** Lines 262-267: the list [working] after the call, which sorts it in
    place.  The files written from it are in [save_results_files]. *)
Definition save_results (working : list dict) : res (list dict) :=
  match working with
  | [] => Ok []
  | _ => sort_by_key latency_key working
  end.

(** *** main *)

Definition INPUT_URL : option string := None.

Definition wants_help (argv : list string) : bool :=
  match argv with
  | _ :: a :: _ => existsb (String.eqb a) ["-h"; "--help"; "help"]
  | _ => false
  end.

(** [main()] without its files: the list [working] as the sort of
    [save_results] leaves it.  [file] is what reading the input file
    gives, [world] and [order] the behaviour of the probes and their
    completion order.  [run] below is [main] with the files it writes. *)
Definition main (argv : list string) (net : network) (file : option (res (list string)))
    (world : nat -> probe_env) (order : list nat) : res (list dict) :=
  if wants_help argv then Ok []
  else
    let MY_REAL_IP := snd (get_my_real_ip net PNone) in
    proxies ← load_proxies INPUT_URL net file;
    match proxies with
    | [] => Ok []
    | _ =>
        working ← test_all_proxies MY_REAL_IP world order proxies;
        save_results working
    end.

(** *** generate_telegram_url *)

(** [urllib.parse.quote(s)] with its default [safe='/']: the string is
    encoded as UTF-8, and every byte other than a letter, a digit, one of
    [_.-~] or [/] is written as [%XX] with upper-case hexadecimal digits. *)
Definition is_always_safe (c : ascii) : bool :=
  let n := nat_of_ascii c in
  ((48 <=? n)%nat && (n <=? 57)%nat) || ((65 <=? n)%nat && (n <=? 90)%nat) ||
  ((97 <=? n)%nat && (n <=? 122)%nat) ||
  (n =? 95)%nat || (n =? 46)%nat || (n =? 45)%nat || (n =? 126)%nat.

Definition hex_char (n : nat) : ascii :=
  if (n <? 10)%nat then ascii_of_nat (48 + n) else ascii_of_nat (55 + n).

Definition percent_byte (b : nat) : string :=
  String "%" (String (hex_char (b / 16)) (String (hex_char (b mod 16)) EmptyString)).

(** The UTF-8 bytes of a code point below 256. *)
Definition utf8_bytes (c : ascii) : list nat :=
  let n := nat_of_ascii c in
  if (n <? 128)%nat then [n] else [(192 + n / 64)%nat; (128 + n mod 64)%nat].

Definition quote_char (c : ascii) : string :=
  if is_always_safe c || Ascii.eqb c "/" then String c EmptyString
  else String.concat EmptyString (List.map percent_byte (utf8_bytes c)).

Fixpoint quote (s : string) : string :=
  match s with
  | EmptyString => EmptyString
  | String c r => quote_char c ++ quote r
  end.

(** [quote(v)] on an arbitrary object: anything but a string is refused. *)
Definition py_quote (v : pyval) : res string :=
  match v with
  | PStr s => Ok (quote s)
  | _ => raise TypeError "quote_from_bytes() expected bytes"
  end.

Section Output.
Variable container_repr : pyval -> string.

(** Lines 241-256 *)
Definition generate_telegram_url (proxy_result : dict) : res string :=
  ip ← dict_item proxy_result "ip";
  port ← dict_item proxy_result "port";
  let user := dict_get proxy_result "user" PNone in
  let password := dict_get proxy_result "password" PNone in
  if truthy user && truthy password then
    u ← py_quote user;
    pw ← py_quote password;
    mret ("https://t.me/socks?server=" ++ py_str container_repr ip
          ++ "&port=" ++ py_str container_repr port
          ++ "&user=" ++ u ++ "&pass=" ++ pw)
  else
    mret ("https://t.me/socks?server=" ++ py_str container_repr ip
          ++ "&port=" ++ py_str container_repr port).

(** Lines 276-280: the line of [OUTPUT_WORKING] written for one result,
    without its newline. *)
Definition working_line (p : dict) : res string :=
  if truthy (dict_get p "user" PNone) && truthy (dict_get p "password" PNone) then
    ip ← dict_item p "ip";
    port ← dict_item p "port";
    user ← dict_item p "user";
    password ← dict_item p "password";
    mret (py_str container_repr ip ++ ":" ++ py_str container_repr port ++ ":"
          ++ py_str container_repr user ++ ":" ++ py_str container_repr password)
  else
    ip ← dict_item p "ip";
    port ← dict_item p "port";
    mret (py_str container_repr ip ++ ":" ++ py_str container_repr port).

(** *** print_summary *)

(** [v < n], [v <= n], [v >= n] against an integer literal. *)
Definition compare_int (op : Z -> Z -> bool) (v : pyval) (n : Z) : res bool :=
  match as_number v with
  | Some x => Ok (op x n)
  | None => raise TypeError "comparison not supported between these instances"
  end.

(** [[p for p in l if test(p)]] with a test that may raise. *)
Fixpoint select (test : dict -> res bool) (l : list dict) : res (list dict) :=
  match l with
  | [] => Ok []
  | p :: rest =>
      b ← test p;
      r ← select test rest;
      mret (if b : bool then p :: r else r)
  end.

(** Line 324: [[p['latency'] for p in working if p.get('latency')]] *)
Definition latencies (working : list dict) : list pyval :=
  List.map (fun p => dict_get p "latency" PNone)
    (List.filter (fun p => truthy (dict_get p "latency" PNone)) working).

(** The numbers [sum] adds up; anything that is not a number makes the
    addition raise. *)
Fixpoint numbers (l : list pyval) : res (list Z) :=
  match l with
  | [] => Ok []
  | v :: rest =>
      match as_number v with
      | Some x => r ← numbers rest; mret (x :: r)
      | None => raise TypeError "unsupported operand type(s) for +"
      end
  end.

Definition sum_of (l : list Z) : Z := fold_right Z.add 0 l.
Definition min_of (x : Z) (l : list Z) : Z := fold_left Z.min l x.
Definition max_of (x : Z) (l : list Z) : Z := fold_left Z.max l x.

(** [for p in l: ... p['ip'] ... p['port'] ...]: the entries shown, which
    need both keys. *)
Fixpoint shown (l : list dict) : res (list dict) :=
  match l with
  | [] => Ok []
  | p :: rest =>
      _ ← dict_item p "ip";
      _ ← dict_item p "port";
      r ← shown rest;
      mret (p :: r)
  end.

Fixpoint telegram_urls (l : list dict) : res (list string) :=
  match l with
  | [] => Ok []
  | p :: rest =>
      url ← generate_telegram_url p;
      r ← telegram_urls rest;
      mret (url :: r)
  end.

(** What [print_summary] prints about a non-empty list. *)
Record summary := Summary {
  total_working : nat;
  anonymous_count : nat;
  average : option Z;        (* sum(latencies)//len(latencies) *)
  fastest : option Z;        (* min(latencies) *)
  slowest : option Z;        (* max(latencies) *)
  fast : list dict;
  medium : list dict;
  slow : list dict;
  top5 : list dict;
  samples : list string
}.

(** Lines 319-355.  [None] is the early [return] for an empty list. *)
Definition print_summary (working : list dict) : res (option summary) :=
  match working with
  | [] => Ok None
  | _ =>
      let anonymous :=
        List.filter (fun p => py_eq (dict_get p "anonymous" PNone) (PBool true)) working in
      nums ← numbers (latencies working);
      let stats :=
        match nums with
        | [] => (None, None, None)
        | x :: r =>
            (Some (sum_of nums / Z.of_nat (length nums)),
             Some (min_of x r), Some (max_of x r))
        end in
      fast ← select (fun p => compare_int Z.ltb (latency_key p) 1000) working;
      medium ← select (fun p =>
                  lo ← compare_int Z.geb (latency_key p) 1000;
                  if lo : bool then compare_int Z.ltb (latency_key p) 3000
                  else mret false) working;
      slow ← select (fun p => compare_int Z.geb (latency_key p) 3000) working;
      top ← shown (firstn 5 working);
      urls ← telegram_urls (firstn 3 working);
      mret (Some (Summary (length working) (length anonymous)
                    (fst (fst stats)) (snd (fst stats)) (snd stats)
                    fast medium slow top urls))
  end.
(** *** The files and the report of a run *)

(** The file system, as [save_results] writes to it: what
    [open(path, 'w')] does, what the [n]-th [f.write] on the file of that
    path does, what the writes of [json.dump] into it do, and what closing
    the file at the end of its [with] statement does (buffered text may
    reach the device only then). *)
Record disk := Disk {
  open_write : string -> res unit;
  write : string -> nat -> res unit;
  dump : string -> res unit;
  close : string -> res unit
}.

(** [with open(path, 'w') as f: body].  When [open] raises, nothing else
    happens.  Else the file is closed when the body ends, with a value or
    with an exception; an exception of the closing takes the place of
    either. *)
Definition with_open {A} (d : disk) (path : string) (body : res A) : res A :=
  open_write d path;;
  match body with
  | Ok a => close d path;; Ok a
  | Raise e =>
      match close d path with
      | Ok _ => Raise e
      | Raise e' => Raise e'
      end
  end.

Definition OUTPUT_WORKING : string := "socks5_working.txt".
Definition OUTPUT_TELEGRAM : string := "socks5_telegram.txt".
Definition OUTPUT_JSON : string := "socks5_tested_results.json".

(** [k] calls of [f.write] in a row, from the [n]-th write on the file
    on: the header lines, whose text is not kept. *)
Fixpoint write_times (d : disk) (path : string) (n k : nat) : res unit :=
  match k with
  | O => Ok tt
  | S k' => write d path n;; write_times d path (S n) k'
  end.

(** [for p in working: ... f.write(...)]: for each result in turn its
    texts are made, which may raise, and then written one by one.  The
    value is what was written. *)
Fixpoint write_results (d : disk) (path : string) (n : nat)
    (texts_of : dict -> res (list string)) (working : list dict) : res (list string) :=
  match working with
  | [] => Ok []
  | p :: rest =>
      texts ← texts_of p;
      write_times d path n (length texts);;
      written ← write_results d path (n + length texts) texts_of rest;
      mret (texts ++ written)%list
  end.

(** Lines 276-280: the text written to [OUTPUT_WORKING] for one result. *)
Definition working_texts (p : dict) : res (list string) :=
  line ← working_line p;
  mret [line ++ String newline ""].

(** Lines 292-297: the two texts written to [OUTPUT_TELEGRAM] for one
    result, the comment line and the link. *)
Definition telegram_texts (p : dict) : res (list string) :=
  telegram_url ← generate_telegram_url p;
  let latency := dict_get p "latency" (PStr "?") in
  let anon := if truthy (dict_get p "anonymous" PNone)
              then "Anonymous" else "Transparent" in
  ip ← dict_item p "ip";
  port ← dict_item p "port";
  mret [ "# " ++ py_str container_repr ip ++ ":" ++ py_str container_repr port
         ++ " - " ++ py_str container_repr latency ++ "ms - " ++ anon
         ++ String newline "";
         telegram_url ++ String newline (String newline "") ].

(** Lines 301-306: the document of [OUTPUT_JSON]. *)
Record json_report := JsonReport {
  updated_at : string;             (* 'updated_at' *)
  total_working_count : nat;       (* 'total_working' *)
  your_ip : pyval;                 (* 'your_ip' *)
  proxies_listed : list dict       (* 'proxies' *)
}.

(** What [save_results] leaves behind. *)
Record saved := Saved {
  sorted_results : list dict;      (* the list [working] after the sort *)
  working_file : list string;      (* the texts of [OUTPUT_WORKING] after its header *)
  telegram_file : list string;     (* the texts of [OUTPUT_TELEGRAM] after its header *)
  json_file : json_report
}.

(** [save_results(working)], lines 258-311, with the file system [d];
    [now] is [datetime.now().isoformat()].  [None] is the early [return]
    for an empty list, before any file is opened.  Each of the two text
    files starts with four header lines. *)
Definition save_results_files (d : disk) (MY_REAL_IP : pyval) (now : string)
    (working : list dict) : res (option saved) :=
  match working with
  | [] => Ok None
  | _ =>
      sorted ← sort_by_key latency_key working;
      lines ← with_open d OUTPUT_WORKING
                (write_times d OUTPUT_WORKING 0 4;;
                 write_results d OUTPUT_WORKING 4 working_texts sorted);
      links ← with_open d OUTPUT_TELEGRAM
                (write_times d OUTPUT_TELEGRAM 0 4;;
                 write_results d OUTPUT_TELEGRAM 4 telegram_texts sorted);
      let document := JsonReport now (length sorted) MY_REAL_IP sorted in
      with_open d OUTPUT_JSON (dump d OUTPUT_JSON);;
      mret (Some (Saved sorted lines links document))
  end.

(** Steps 3 to 5 of [main] on the loaded candidates: the files written and
    the summary printed.  [save_results] sorts the list [working] in
    place, so [print_summary] reads the sorted list. *)
Definition report (d : disk) (MY_REAL_IP : pyval) (now : string)
    (world : nat -> probe_env) (order : list nat) (proxies : list string)
  : res (option saved * option summary) :=
  working ← test_all_proxies MY_REAL_IP world order proxies;
  files ← save_results_files d MY_REAL_IP now working;
  let after :=
    match files with
    | Some s => sorted_results s
    | None => working
    end in
  printed ← print_summary after;
  mret (files, printed).

(** [main()] with its files: [None] when it returns after [show_usage],
    else what [save_results] wrote and [print_summary] printed. *)
Definition run (argv : list string) (net : network) (file : option (res (list string)))
    (d : disk) (now : string) (world : nat -> probe_env) (order : list nat)
  : res (option (option saved * option summary)) :=
  if wants_help argv then Ok None
  else
    let MY_REAL_IP := snd (get_my_real_ip net PNone) in
    proxies ← load_proxies INPUT_URL net file;
    match proxies with
    | [] => Ok None
    | _ =>
        outcome ← report d MY_REAL_IP now world order proxies;
        mret (Some outcome)
    end.
End Output.

End Tester.

(* ===================================================================== *)
(** ** socks5_scanner.py *)
(* ===================================================================== *)

Module Scanner.
Import Py.

Definition TEST_TIMEOUT : Z := 5.
Definition MAX_WORKERS : Z := 100.
Definition TEST_URL : string := "http://httpbin.org/ip".
Definition CHECK_ANONYMITY : bool := true.

Definition PROXY_SOURCES : list string :=
  [ "https://api.proxyscrape.com/v2/?request=getproxies&protocol=socks5&timeout=10000&country=all";
    "https://www.proxy-list.download/api/v1/get?type=socks5";
    "https://openproxylist.xyz/socks5.txt";
    "https://raw.githubusercontent.com/TheSpeedX/SOCKS-List/master/socks5.txt";
    "https://raw.githubusercontent.com/ShiftyTR/Proxy-List/master/socks5.txt";
    "https://raw.githubusercontent.com/monosans/proxy-list/main/proxies/socks5.txt";
    "https://raw.githubusercontent.com/hookzof/socks5_list/master/proxy.txt";
    "https://raw.githubusercontent.com/jetkai/proxy-list/main/online-proxies/txt/proxies-socks5.txt";
    "https://raw.githubusercontent.com/roosterkid/openproxylist/main/SOCKS5_RAW.txt";
    "https://raw.githubusercontent.com/MuRongPIG/Proxy-Master/main/socks5.txt";
    "https://raw.githubusercontent.com/prxchk/proxy-list/main/socks5.txt";
    "https://raw.githubusercontent.com/STARTER8128/ProxyList/refs/heads/main/SOCKS5.txt";
    "https://raw.githubusercontent.com/zloi-user/hideip.me/main/socks5.txt";
    "https://raw.githubusercontent.com/Anonym0usWork1221/Free-Proxies/main/proxy_files/socks5_proxies.txt";
    "https://raw.githubusercontent.com/ErcinDedeworker/Proxy-List/main/socks5.txt" ].

(** *** get_my_real_ip *)

(** One service, no status check; [g] is the global on entry, the result
    the returned value and the global on exit. *)
Definition get_my_real_ip (net : network) (g : pyval) : pyval * pyval :=
  match
    (response ← net "https://api.ipify.org?format=json" None 10;
     data ← json response;
     get data "ip" PNone)
  with
  | Ok v => (v, v)
  | Raise _ => (PNone, g)
  end.

(** *** extract_proxies_from_text *)

(** The pattern [(\d{1,3}\.\d{1,3}\.\d{1,3}\.\d{1,3}):(\d{2,5})] is a
    sequence of greedy bounded repetitions of one character class each. *)
Record atom := Atom {
  accepts : ascii -> bool;
  at_least : nat;
  at_most : nat
}.

Definition digits (lo hi : nat) : atom := Atom is_digit lo hi.
Definition lit (c : ascii) : atom := Atom (Ascii.eqb c) 1 1.

Definition pattern : list atom :=
  [ digits 1 3; lit "."; digits 1 3; lit "."; digits 1 3; lit ".";
    digits 1 3; lit ":"; digits 2 5 ].

(** How many leading characters of [s] the class accepts, up to [limit]. *)
Fixpoint run_length (accepts : ascii -> bool) (limit : nat) (s : string) : nat :=
  match limit, s with
  | S k, String c r => if accepts c then S (run_length accepts k r) else O
  | _, _ => O
  end.

Fixpoint drop_str (n : nat) (s : string) : string :=
  match n, s with
  | S k, String _ r => drop_str k r
  | _, _ => s
  end.

(** Backtracking match of the atoms at the start of [s]: each repetition
    takes as many characters as it can and gives them back one at a time
    when the rest fails.  The result is the number of characters each atom
    took. *)
Fixpoint match_here (atoms : list atom) (s : string) : option (list nat) :=
  match atoms with
  | [] => Some []
  | a :: rest =>
      (fix attempt (n : nat) : option (list nat) :=
         match
           (if (at_least a <=? n)%nat then match_here rest (drop_str n s) else None)
         with
         | Some ls => Some (n :: ls)
         | None =>
             match n with
             | O => None
             | S n' => attempt n'
             end
         end) (run_length (accepts a) (at_most a) s)
  end.

Definition total (ls : list nat) : nat := fold_right Nat.add O ls.

(** The two groups of a match: the dotted quad and the port digits. *)
Definition groups (ls : list nat) (s : string) : string * string :=
  let ip_len := total (firstn 7 ls) in
  (take_str ip_len s,
   take_str (nth 8 ls O) (drop_str (S ip_len) s)).

(** [re.findall(pattern, text)]: the matches from left to right, the
    search resuming where the previous match ended.  [skip] counts the
    characters of [s] that the previous match still covers. *)
Fixpoint findall (s : string) (skip : nat) {struct s} : list (string * string) :=
  match s with
  | EmptyString => []
  | String _ r =>
      match skip with
      | S k => findall r k
      | O =>
          match match_here pattern s with
          | Some ls => groups ls s :: findall r (pred (total ls))
          | None => findall r O
          end
      end
  end.

(** [all(0 <= int(p) <= 255 for p in parts)] *)
Fixpoint all_octets (parts : list string) : res bool :=
  match parts with
  | [] => Ok true
  | p :: r =>
      n ← int p;
      if (0 <=? n) && (n <=? 255) then all_octets r else Ok false
  end.

(** The loop body of lines 83-91 for one match: the string appended, if
    any.  An exception means [continue]. *)
Definition checked (m : string * string) : option string :=
  let (ip, port) := m in
  match
    (port_int ← int port;
     if (1 <=? port_int) && (port_int <=? 65535) then
       ok ← all_octets (split "." ip);
       if ok : bool then mret (Some (ip ++ ":" ++ port)) else mret None
     else mret None)
  with
  | Ok r => r
  | Raise _ => None
  end.

Definition extract_proxies_from_text (text : string) : list string :=
  omap checked (findall text O).

(** *** collect_from_sources *)

Section Collect.
Variable container_repr : pyval -> string.

(** Lines 113-116 and 121-124: one item of a JSON list. *)
Definition add_from_item (item : pyval) : M (gset string) unit :=
  a ← lift (get item "ip" PNone);
  b ← lift (get item "host" PNone);
  port ← lift (get item "port" PNone);
  let ip := py_or a b in
  if truthy ip && truthy port
  then set_add (py_str container_repr ip ++ ":" ++ py_str container_repr port)
  else mret tt.

(** Lines 110-124: the decoded body, by its type. *)
Definition add_from_json (data : pyval) : M (gset string) unit :=
  match data with
  | PList items =>
      for_each items (fun item =>
        match item with
        | PDict _ => add_from_item item
        | PStr s => if contains ":" s then set_add (strip s) else mret tt
        | _ => mret tt
        end)
  | PDict kv =>
      match assoc "data" kv with
      | Some v => items ← lift (py_iter v); for_each items add_from_item
      | None => mret tt
      end
  | _ => mret tt
  end.

(** Lines 100-136: one source.  What was added before an exception
    stays in the set. *)
Definition collect_one (net : network) (url : string) : M (gset string) unit :=
  mtry
    (response ← lift (net url None 15);
     if status_code response =? 200 then
       mtry (data ← lift (json response); add_from_json data)
            (fun _ => for_each (extract_proxies_from_text (text response)) set_add)
     else mret tt)
    (fun _ => mret tt).

(** The set [all_proxies] when the loop over the sources ends. *)
Definition collected (net : network) : gset string :=
  snd (for_each PROXY_SOURCES (collect_one net) ∅).

(** [list(all_proxies)]: the order in which a set is listed is not
    specified; [elements] fixes one. *)
Definition collect_from_sources (net : network) : list string :=
  elements (collected net).
End Collect.

(** *** The probes *)

(** What one probe sees of the outside world.  The socket operations are
    those of lines 169-178; [sock_recv n] is [sock.recv(n)]. *)
Record probe_env := ProbeEnv {
  sock_open : res unit;
  sock_connect : string -> Z -> res unit;
  sock_sendall : list Z -> res unit;
  sock_recv : nat -> res (list Z);
  requests_get : network;
  elapsed_ms : Z;
  now_iso : string
}.

(** [ip, port = proxy.split(':'); port = int(port)], with [None] for the
    [return None] of the handler. *)
Definition parse_pair (proxy : string) : option (string * Z) :=
  match
    (match split ":" proxy with
     | [ip; port] => p ← int port; mret (ip, p)
     | _ => raise ValueError "wrong number of values to unpack"
     end)
  with
  | Ok r => Some r
  | Raise _ => None
  end.

(** **** test_socks5_connection *)

Definition connection_result (proxy ip : string) (port : Z) (tested_at : string) : dict :=
  <["tested_at" := PStr tested_at]>
  (<["country" := PNone]>
  (<["anonymous" := PNone]>
  (<["latency" := PNone]>
  (<["working" := PBool false]>
  (<["port" := PInt port]>
  (<["ip" := PStr ip]>
  (<["proxy" := PStr proxy]> ∅))))))).

(** Lines 214-216, the body of the innermost [try]. *)
Definition read_origin (MY_REAL_IP : pyval) (http_response : response) : M dict unit :=
  data ← lift (json http_response);
  returned_ip ← lift (get data "origin" (PStr ""));
  b ← lift (py_not_in MY_REAL_IP returned_ip);
  setitem "anonymous" (PBool b);;
  setitem "exit_ip" returned_ip.

(** Lines 201-218, the body of the [try] of step 3. *)
Definition http_step (MY_REAL_IP : pyval) (env : probe_env) (proxy : string)
  : M dict unit :=
  http_response ← lift (requests_get env TEST_URL
                          (Some ("socks5://" ++ proxy)) TEST_TIMEOUT);
  if status_code http_response =? 200 then
    setitem "working" (PBool true);;
    setitem "latency" (PInt (elapsed_ms env));;
    if CHECK_ANONYMITY && truthy MY_REAL_IP
    then mtry (read_origin MY_REAL_IP http_response) (fun _ => mret tt)
    else mret tt
  else mret tt.

(** Lines 221-224, the handler of step 3. *)
Definition partially_working (env : probe_env) : M dict unit :=
  setitem "working" (PBool true);;
  setitem "latency" (PInt (elapsed_ms env)).

(** Lines 168-226, the body of the outer [try]: [true] for
    [return result], [false] for [return None]. *)
Definition handshake_then_http (MY_REAL_IP : pyval) (env : probe_env)
    (proxy ip : string) (port : Z) : M dict bool :=
  lift (sock_open env);;
  lift (sock_connect env ip port);;
  lift (sock_sendall env [5; 1; 0]);;
  received ← lift (sock_recv env 2);
  let response := firstn 2 received in
  match response with
  | [ver; method] =>
      if negb (ver =? 5) then mret false
      else if method =? 255 then mret false
      else
        mtry (http_step MY_REAL_IP env proxy) (fun _ => partially_working env);;
        mret true
  | _ => mret false
  end.

Definition test_socks5_connection (MY_REAL_IP : pyval) (env : probe_env)
    (proxy : string) : res (option dict) :=
  match parse_pair proxy with
  | None => Ok None
  | Some (ip, port) =>
      let result := connection_result proxy ip port (now_iso env) in
      match
        mtry (handshake_then_http MY_REAL_IP env proxy ip port)
             (fun _ => mret false) result
      with
      | (Ok true, result') => Ok (Some result')
      | (Ok false, _) => Ok None
      | (Raise e, _) => Raise e
      end
  end.

(** **** test_socks5_with_pysocks *)

Definition pysocks_result (proxy ip : string) (port : Z) (tested_at : string) : dict :=
  <["tested_at" := PStr tested_at]>
  (<["exit_ip" := PNone]>
  (<["anonymous" := PNone]>
  (<["latency" := PNone]>
  (<["working" := PBool false]>
  (<["port" := PInt port]>
  (<["ip" := PStr ip]>
  (<["proxy" := PStr proxy]> ∅))))))).

(** Lines 276-280, the body of the inner [try]. *)
Definition read_exit_ip (MY_REAL_IP : pyval) (response : response) : M dict unit :=
  data ← lift (json response);
  origin ← lift (get data "origin" (PStr ""));
  setitem "exit_ip" origin;;
  if CHECK_ANONYMITY && truthy MY_REAL_IP then
    exit_ip ← getitem "exit_ip";
    b ← lift (py_not_in MY_REAL_IP exit_ip);
    setitem "anonymous" (PBool b)
  else mret tt.

(** Lines 260-284, the body of the outer [try]: [true] for
    [return result], [false] when control leaves the [try] statement. *)
Definition pysocks_probe (MY_REAL_IP : pyval) (env : probe_env)
    (ip : string) (port : Z) : M dict bool :=
  response ← lift (requests_get env TEST_URL
                     (Some ("socks5h://" ++ ip ++ ":" ++ str_int port)) TEST_TIMEOUT);
  if status_code response =? 200 then
    setitem "working" (PBool true);;
    setitem "latency" (PInt (elapsed_ms env));;
    mtry (read_exit_ip MY_REAL_IP response) (fun _ => mret tt);;
    mret true
  else mret false.

Definition test_socks5_with_pysocks (MY_REAL_IP : pyval) (env : probe_env)
    (proxy : string) : res (option dict) :=
  match parse_pair proxy with
  | None => Ok None
  | Some (ip, port) =>
      let result := pysocks_result proxy ip port (now_iso env) in
      match
        mtry (pysocks_probe MY_REAL_IP env ip port) (fun _ => mret false) result
      with
      | (Ok true, result') => Ok (Some result')
      | (Ok false, _) => Ok None
      | (Raise e, _) => Raise e
      end
  end.

(** *** test_all_proxies *)

Definition submit_all (MY_REAL_IP : pyval) (world : nat -> probe_env)
    (proxies : list string) : list (res (option dict)) :=
  imap (fun i proxy => test_socks5_with_pysocks MY_REAL_IP (world i) proxy) proxies.

(** Lines 313-315 for one completed future. *)
Definition collect (working : list dict) (future : res (option dict))
  : res (list dict) :=
  result ← future;
  match result with
  | None => Ok working
  | Some d =>
      if dict_truthy d then
        w ← dict_item d "working";
        if truthy w then Ok (working ++ [d])%list else Ok working
      else Ok working
  end.

(** The body of the [as_completed] loop, run over a sequence of indices
    of futures; [test_all_proxies] runs it over the sequence that
    [as_completed] yields. *)
Fixpoint drain (futures : list (res (option dict))) (order : list nat)
    (working : list dict) : res (list dict) :=
  match order with
  | [] => Ok working
  | i :: rest =>
      match futures !! i with
      | Some future => w ← collect working future; drain futures rest w
      | None => drain futures rest working
      end
  end.

Definition test_all_proxies (MY_REAL_IP : pyval) (world : nat -> probe_env)
    (order : list nat) (proxies : list string) : res (list dict) :=
  drain (submit_all MY_REAL_IP world proxies) (as_completed (length proxies) order) [].

(** *** save_results *)

Definition latency_key (x : dict) : pyval := dict_get x "latency" (PInt 9999).

(** Line 352: the list [working_proxies] after the sort (the files
    written from it are not modelled). *)
Definition save_results (working_proxies : list dict) : res (list dict) :=
  sort_by_key latency_key working_proxies.

(** *** enrich_with_country *)

(** [get_country_from_ip(ip)]: never raises, ['XX'] when the lookup fails. *)
Definition get_country_from_ip (net : network) (ip : string) : pyval :=
  match
    (response ← net ("http://ip-api.com/json/" ++ ip ++ "?fields=countryCode") None 3;
     if status_code response =? 200 then
       data ← json response;
       v ← get data "countryCode" (PStr "XX");
       mret (Some v)
     else mret None)
  with
  | Ok (Some v) => v
  | _ => PStr "XX"
  end.

(** Lines 341-342 for one entry. *)
Definition enrich_one (net : network) (proxy : dict) : res dict :=
  ip ← (if truthy (dict_get proxy "exit_ip" PNone)
        then dict_item proxy "exit_ip" else dict_item proxy "ip");
  pieces ← py_split ip ",";
  mret (<["country" := get_country_from_ip net (strip (hd "" pieces))]> proxy).

(** The loop of [enrich_with_country]; the lookup for entry [i] sees the
    network [geo i]. *)
Fixpoint enrich_from (geo : nat -> network) (i : nat) (working_proxies : list dict)
  : res (list dict) :=
  match working_proxies with
  | [] => Ok []
  | proxy :: rest =>
      proxy' ← enrich_one (geo i) proxy;
      rest' ← enrich_from geo (S i) rest;
      mret (proxy' :: rest')
  end.

Definition enrich_with_country (geo : nat -> network) (working_proxies : list dict)
  : res (list dict) :=
  enrich_from geo O working_proxies.

(** *** main *)

(** [main()]: the list [working] when the function ends. *)
Definition main (container_repr : pyval -> string) (net : network)
    (world : nat -> probe_env) (order : list nat) (geo : nat -> network)
  : res (list dict) :=
  let MY_REAL_IP := snd (get_my_real_ip net PNone) in
  let proxies := collect_from_sources container_repr net in
  match proxies with
  | [] => Ok []
  | _ =>
      working ← test_all_proxies MY_REAL_IP world order proxies;
      match working with
      | [] => Ok []
      | _ =>
          working ← enrich_with_country geo working;
          save_results working
      end
  end.

(** *** The files of save_results *)

(** Line 361: [[p for p in working_proxies if p.get('latency', 9999) < 2000]] *)
Fixpoint fast_proxies (working_proxies : list dict) : res (list dict) :=
  match working_proxies with
  | [] => Ok []
  | p :: rest =>
      b ← py_lt (latency_key p) (PInt 2000);
      r ← fast_proxies rest;
      mret (if b : bool then p :: r else r)
  end.

(** A dictionary key must be hashable. *)
Definition hashable (v : pyval) : res unit :=
  match v with
  | PList _ | PDict _ => raise TypeError "unhashable type"
  | _ => Ok tt
  end.

(** [by_country[country].append(name)], after the group was created if it
    was missing.  The dictionary is kept as its items in insertion order;
    two keys are the same key when they are equal. *)
Fixpoint add_to_group (country name : pyval) (groups : list (pyval * list pyval))
  : list (pyval * list pyval) :=
  match groups with
  | [] => [(country, [name])]
  | (c, names) :: rest =>
      if py_eq c country then (c, (names ++ [name])%list) :: rest
      else (c, names) :: add_to_group country name rest
  end.

(** Lines 373-378 *)
Fixpoint group_by_country (working_proxies : list dict)
    (by_country : list (pyval * list pyval)) : res (list (pyval * list pyval)) :=
  match working_proxies with
  | [] => Ok by_country
  | p :: rest =>
      let country := dict_get p "country" (PStr "XX") in
      _ ← hashable country;
      name ← dict_item p "proxy";
      group_by_country rest (add_to_group country name by_country)
  end.

(** [sorted(by_country.items())]: the items are compared as tuples. *)
Definition item_key (item : pyval * list pyval) : pyval :=
  PList [fst item; PList (snd item)].

(** Lines 373-384: the groups of [OUTPUT_WITH_COUNTRY], in the order in
    which they are written. *)
Definition by_country_groups (working_proxies : list dict)
  : res (list (pyval * list pyval)) :=
  groups ← group_by_country working_proxies [];
  sort_by_key item_key groups.

End Scanner.

(* ===================================================================== *)
(** ** socks5_collector.py *)
(* ===================================================================== *)

Module Collector.
Import Py.

(** One entry of [PROXY_SOURCES]: its name, URL, type and, for a JSON
    source, the path of the list inside the document. *)
Record source := Source {
  name : string;
  url : string;
  type : string;
  json_path : option string
}.

Definition PROXY_SOURCES : list source :=
  [
    Source "ProxyScrape"
      "https://api.proxyscrape.com/v2/?request=getproxies&protocol=socks5&timeout=10000&country=all"
      "text" None;
    Source "ProxyList Download"
      "https://www.proxy-list.download/api/v1/get?type=socks5"
      "text" None;
    Source "OpenProxyList"
      "https://openproxylist.xyz/socks5.txt"
      "text" None;
    Source "ProxyScrape v3"
      "https://api.proxyscrape.com/v3/free-proxy-list/get?request=displayproxies&protocol=socks5&timeout=10000"
      "text" None;
    Source "TheSpeedX"
      "https://raw.githubusercontent.com/TheSpeedX/SOCKS-List/master/socks5.txt"
      "text" None;
    Source "ShiftyTR"
      "https://raw.githubusercontent.com/ShiftyTR/Proxy-List/master/socks5.txt"
      "text" None;
    Source "monosans"
      "https://raw.githubusercontent.com/monosans/proxy-list/main/proxies/socks5.txt"
      "text" None;
    Source "hookzof"
      "https://raw.githubusercontent.com/hookzof/socks5_list/master/proxy.txt"
      "text" None;
    Source "jetkai"
      "https://raw.githubusercontent.com/jetkai/proxy-list/main/online-proxies/txt/proxies-socks5.txt"
      "text" None;
    Source "roosterkid"
      "https://raw.githubusercontent.com/roosterkid/openproxylist/main/SOCKS5_RAW.txt"
      "text" None;
    Source "MuRongPIG"
      "https://raw.githubusercontent.com/MuRongPIG/Proxy-Master/main/socks5.txt"
      "text" None;
    Source "prxchk"
      "https://raw.githubusercontent.com/prxchk/proxy-list/main/socks5.txt"
      "text" None;
    Source "STARTER8128"
      "https://raw.githubusercontent.com/STARTER8128/ProxyList/refs/heads/main/SOCKS5.txt"
      "text" None;
    Source "zloi-user"
      "https://raw.githubusercontent.com/zloi-user/hideip.me/main/socks5.txt"
      "text" None;
    Source "Anonym0usWork1221"
      "https://raw.githubusercontent.com/Anonym0usWork1221/Free-Proxies/main/proxy_files/socks5_proxies.txt"
      "text" None;
    Source "ErcinDedeworker"
      "https://raw.githubusercontent.com/ErcinDedeworker/Proxy-List-World/main/proxy-list/data/socks5.txt"
      "text" None;
    Source "sunny9577"
      "https://raw.githubusercontent.com/sunny9577/proxy-scraper/master/proxies/socks5.txt"
      "text" None;
    Source "officialputuid"
      "https://raw.githubusercontent.com/officialputuid/KangProxy/KangProxy/socks5/socks5.txt"
      "text" None;
    Source "proxifly"
      "https://raw.githubusercontent.com/proxifly/free-proxy-list/main/proxies/protocols/socks5/data.txt"
      "text" None;
    Source "r00tee"
      "https://raw.githubusercontent.com/r00tee/Proxy-List/main/Socks5.txt"
      "text" None;
    Source "Zaeem20"
      "https://raw.githubusercontent.com/Zaeem20/FREE_PROXIES_LIST/master/socks5.txt"
      "text" None;
    Source "BreakingTechFr"
      "https://raw.githubusercontent.com/BreakingTechFr/Proxy_Free/main/proxies/socks5.txt"
      "text" None;
    Source "Vann-Dev"
      "https://raw.githubusercontent.com/Vann-Dev/proxy-list/main/proxies/socks5.txt"
      "text" None;
    Source "yemixzy"
      "https://raw.githubusercontent.com/yemixzy/proxy-list/main/proxies/socks5.txt"
      "text" None;
    Source "casals-ar"
      "https://raw.githubusercontent.com/casals-ar/proxy-list/main/socks5"
      "text" None;
    Source "fahimscirex"
      "https://raw.githubusercontent.com/fahimscirex/proxybd/master/proxylist/socks5.txt"
      "text" None;
    Source "mmpx12"
      "https://raw.githubusercontent.com/mmpx12/proxy-list/master/socks5.txt"
      "text" None;
    Source "zevtyardt"
      "https://raw.githubusercontent.com/zevtyardt/proxy-list/main/socks5.txt"
      "text" None;
    Source "im-razvan"
      "https://raw.githubusercontent.com/im-razvan/proxy_list/main/socks5.txt"
      "text" None;
    Source "GeoNode"
      "https://proxylist.geonode.com/api/proxy-list?protocols=socks5&limit=500&page=1&sort_by=lastChecked&sort_type=desc"
      "json" (Some "data")
  ].

(** *** extract_proxies_from_text *)

(** Line 188: the pattern
    [(\d{1,3}\.\d{1,3}\.\d{1,3}\.\d{1,3}):(\d{2,5})], in the atoms of the
    matcher. *)
Definition pattern : list Scanner.atom :=
  [ Scanner.digits 1 3; Scanner.lit "."; Scanner.digits 1 3; Scanner.lit ".";
    Scanner.digits 1 3; Scanner.lit "."; Scanner.digits 1 3; Scanner.lit ":";
    Scanner.digits 2 5 ].

(** Line 189: [re.findall(pattern, text)], the matches from left to right;
    [skip] counts the characters the previous match still covers. *)
Fixpoint findall (s : string) (skip : nat) {struct s} : list (string * string) :=
  match s with
  | EmptyString => []
  | String _ r =>
      match skip with
      | S k => findall r k
      | O =>
          match Scanner.match_here pattern s with
          | Some ls => Scanner.groups ls s :: findall r (pred (Scanner.total ls))
          | None => findall r O
          end
      end
  end.

(** Line 197: [all(0 <= int(p) <= 255 for p in parts)] *)
Fixpoint all_octets (parts : list string) : res bool :=
  match parts with
  | [] => Ok true
  | p :: r =>
      n ← int p;
      if (0 <=? n) && (n <=? 255) then all_octets r else Ok false
  end.

(** Lines 193-200 for one match: the string added to the set, if any. *)
Definition checked (m : string * string) : option string :=
  let (ip, port) := m in
  match
    (port_int ← int port;
     if (1 <=? port_int) && (port_int <=? 65535) then
       ok ← all_octets (split "." ip);
       if ok : bool then mret (Some (ip ++ ":" ++ port)) else mret None
     else mret None)
  with
  | Ok r => r
  | Raise _ => None
  end.

(** Lines 186-202: the candidates go into a set. *)
Definition extract_proxies_from_text (text : string) : gset string :=
  snd (for_each (findall text O)
         (fun m => match checked m with
                   | Some x => set_add x
                   | None => ret_st tt
                   end) ∅).

(** *** extract_proxies_from_json *)

(** [data[key]] with a string key. *)
Definition subscript (data : pyval) (key : string) : res pyval :=
  match data with
  | PDict kv =>
      match assoc key kv with
      | Some v => Ok v
      | None => raise KeyError key
      end
  | PList _ | PStr _ => raise TypeError "indices must be integers"
  | _ => raise TypeError "object is not subscriptable"
  end.

(** Lines 210-211 *)
Fixpoint navigate (keys : list string) (data : pyval) : res pyval :=
  match keys with
  | [] => Ok data
  | key :: rest => d ← subscript data key; navigate rest d
  end.

Section Json.
Variable container_repr : pyval -> string.

(** Lines 216-220: one dict of the list. *)
Definition add_from_item (item : pyval) : M (gset string) unit :=
  a ← lift (get item "ip" PNone);
  b ← lift (get item "host" PNone);
  c ← lift (get item "address" PNone);
  port ← lift (get item "port" PNone);
  let ip := py_or (py_or a b) c in
  if truthy ip && truthy port
  then set_add (py_str container_repr ip ++ ":" ++ py_str container_repr port)
  else mret tt.

(** Lines 209-223, the body of the [try]. *)
Definition read_json (data : pyval) (json_path : option string) : M (gset string) unit :=
  data ← lift (match json_path with
               | Some path =>
                   if is_empty path then Ok data else navigate (split "." path) data
               | None => Ok data
               end);
  match data with
  | PList items =>
      for_each items (fun item =>
        match item with
        | PDict _ => add_from_item item
        | PStr s => if contains ":" s then set_add (strip s) else mret tt
        | _ => mret tt
        end)
  | _ => mret tt
  end.

(** An exception ends the extraction; what was found before it stays. *)
Definition extract_proxies_from_json (data : pyval) (json_path : option string)
  : gset string :=
  snd (mtry (read_json data json_path) (fun _ => mret tt) ∅).

(** *** fetch_from_source *)

(** The dictionary [fetch_from_source] returns. *)
Record fetched := Fetched {
  f_name : string;
  f_url : string;
  success : bool;
  count : nat;
  error : option string;
  proxies : gset string
}.

(** Lines 229-275.  The request carries a browser [User-Agent] header and
    a timeout of 30 seconds. *)
Definition fetch_from_source (net : network) (src : source) : fetched :=
  match net (url src) None 30 with
  | Ok response =>
      if status_code response =? 200 then
        let found :=
          if String.eqb (type src) "json" then
            match json response with
            | Ok data => extract_proxies_from_json data (json_path src)
            | Raise _ => extract_proxies_from_text (text response)
            end
          else extract_proxies_from_text (text response) in
        Fetched (name src) (url src) true (size found) None found
      else
        Fetched (name src) (url src) false O
          (Some ("HTTP " ++ str_int (status_code response))) ∅
  | Raise e =>
      Fetched (name src) (url src) false O
        (Some (if is_req_Timeout e then "Timeout" else take_str 100 (exn_msg e))) ∅
  end.

(** *** collect_all *)

(** An entry of [source_results]: the result of a source without its
    candidates. *)
Record status := Status {
  s_name : string;
  s_url : string;
  s_success : bool;
  s_count : nat;
  s_error : option string
}.

Definition status_of (result : fetched) : status :=
  Status (f_name result) (f_url result) (success result) (count result) (error result).

(** Lines 284-302: the set of all candidates and the list of per-source
    results after the sources [sources], starting from [all_proxies] and
    [source_results]. *)
Fixpoint collect_from (net : network) (sources : list source)
    (all_proxies : gset string) (source_results : list status)
  : gset string * list status :=
  match sources with
  | [] => (all_proxies, source_results)
  | src :: rest =>
      let result := fetch_from_source net src in
      collect_from net rest
        (if success result then all_proxies ∪ proxies result else all_proxies)
        (source_results ++ [status_of result])%list
  end.

Definition collect_all (net : network) : gset string * list status :=
  collect_from net PROXY_SOURCES ∅ [].

(** *** save_results *)

(** Lines 310-314: [sorted(proxies)], the lines of [OUTPUT_FILE]. *)
Definition save_results (proxies : gset string) : res (list string) :=
  sort_by_key PStr (elements proxies).

(** *** print_summary *)

(** Line 346: [sorted(successful, key=lambda x: x['count'], reverse=True)[:10]].
    A reversed sort reverses the list, sorts it and reverses the result. *)
Definition top_sources (source_results : list status) : res (list status) :=
  let successful := List.filter s_success source_results in
  sorted ← sort_by_key (fun s => PInt (Z.of_nat (s_count s))) (rev successful);
  mret (firstn 10 (rev sorted)).
End Json.

End Collector.

(* ===================================================================== *)
(** ** Sample inputs *)
(* ===================================================================== *)

Module Sample.
Import Py.

(** An echo service answering 200 with the JSON body [{"origin": origin}]. *)
Definition echo (origin : string) : response :=
  Response 200 "" (Ok (PDict [("origin", PStr origin)])).

(** A network that gives the same outcome to every request. *)
Definition always (r : res response) : network := fun _ _ _ => r.

Definition timeout : exn := Exn ReqReadTimeout "Read timed out.".

(** A tester probe whose tunnelled request has outcome [r], read 250 ms
    after the start. *)
Definition tester_env (r : res response) : Tester.probe_env :=
  Tester.ProbeEnv (always r) 250 "2024-01-01T00:00:00".

(** A scanner probe: the proxy answers the greeting with [greeting], the
    tunnelled request has outcome [r]. *)
Definition scanner_env (greeting : list Z) (r : res response) : Scanner.probe_env :=
  Scanner.ProbeEnv (Ok tt) (fun _ _ => Ok tt) (fun _ => Ok tt) (fun _ => Ok greeting)
    (always r) 250 "2024-01-01T00:00:00".

(** The batch of the specification's parser example. *)
Definition batch : list string :=
  ["1.2.3.4:8080"; "bad"; "999.1.1.1:80"; "5.6.7.8:1080"].

(** The same four lines as one text. *)
Definition batch_text : string :=
  "1.2.3.4:8080" ++ String Tester.newline "bad" ++ String Tester.newline "999.1.1.1:80"
  ++ String Tester.newline "5.6.7.8:1080".

(** The candidates of the specification's deduplication example. *)
Definition duplicates : list string :=
  ["1.1.1.1:1080"; "1.1.1.1:1080"; "1.1.1.1:1080:u:p"].

(** Two result dictionaries for the sort: one without the key
    ['latency'], one with a latency above the default of the sort key. *)
Definition no_latency : dict := <["proxy" := PStr "1.1.1.1:1080"]> ∅.
Definition slow : dict :=
  <["latency" := PInt 12000]> (<["proxy" := PStr "2.2.2.2:1080"]> ∅).
Definition fast : dict :=
  <["latency" := PInt 100]> (<["proxy" := PStr "3.3.3.3:1080"]> ∅).
Definition as_fast : dict :=
  <["latency" := PInt 100]> (<["proxy" := PStr "0.0.0.1:1080"]> ∅).

(** Probes that all succeed after the same 250 ms. *)
Definition even_world : nat -> Tester.probe_env :=
  fun _ => tester_env (Ok (echo "1.1.1.1")).

(** No resolver, no download: every request of the main program fails. *)
Definition offline : network := always (Raise timeout).

(** A source that answers with the candidates of the deduplication
    example as a JSON list of strings. *)
Definition duplicates_json : response :=
  Response 200 "" (Ok (PList (List.map PStr duplicates))).

(** Two spellings of one endpoint in a plain-text source. *)
Definition two_spellings : response :=
  Response 200 "1.1.1.1:1080 1.1.1.1:01080" (Raise (Exn ValueError "not JSON")).

(** A stand-in for the text of lists and dicts. *)
Definition no_repr : pyval -> string := fun _ => "".








End Sample.

(* ===================================================================== *)
(** ** Notions used in the statements *)
(* ===================================================================== *)

Module Notions.
Import Py.

(** The dictionary a successful probe of the tester holds before the exit
    IP is read. *)
Definition tester_base (env : Tester.probe_env) (proxy ip : string) (port : Z)
    (user password : pyval) : dict :=
  <["latency" := PInt (Tester.elapsed_ms env)]>
  (<["working" := PBool true]>
  (Tester.initial_result proxy ip port user password (Tester.now_iso env))).

(** The same for the two probes of the scanner. *)
Definition pysocks_base (env : Scanner.probe_env) (proxy ip : string) (port : Z) : dict :=
  <["latency" := PInt (Scanner.elapsed_ms env)]>
  (<["working" := PBool true]>
  (Scanner.pysocks_result proxy ip port (Scanner.now_iso env))).

Definition connection_base (env : Scanner.probe_env) (proxy ip : string) (port : Z) : dict :=
  <["latency" := PInt (Scanner.elapsed_ms env)]>
  (<["working" := PBool true]>
  (Scanner.connection_result proxy ip port (Scanner.now_iso env))).

(** The SOCKS5 greeting of [test_socks5_connection] is accepted: the
    socket connects and the proxy answers version 5 with a method other
    than 0xFF. *)
Definition handshake_ok (env : Scanner.probe_env) (ip : string) (port : Z) : Prop :=
  Scanner.sock_open env = Ok tt /\
  Scanner.sock_connect env ip port = Ok tt /\
  Scanner.sock_sendall env [5; 1; 0] = Ok tt /\
  exists bytes method,
    Scanner.sock_recv env 2 = Ok bytes /\ firstn 2 bytes = [5; method] /\ method <> 255.

(** The tunnelled request fails: it raises, or answers a status other
    than 200. *)
Definition http_fails (r : res response) : Prop :=
  match r with
  | Raise _ => True
  | Ok resp => status_code resp <> 200
  end.

(** The dictionary [test_socks5_connection] returns after a tunnelled
    request answered with status 200. *)
Definition connection_after_200 (MY : pyval) (env : Scanner.probe_env)
    (proxy ip : string) (port : Z) (resp : response) : dict :=
  if Scanner.CHECK_ANONYMITY && truthy MY
  then snd (mtry (Scanner.read_origin MY resp) (fun _ => mret tt)
              (connection_base env proxy ip port))
  else connection_base env proxy ip port.

(** A field of the dictionary a probe returned, if it returned one. *)
Definition field (k : string) (v : res (option dict)) : option pyval :=
  match v with
  | Ok (Some d) => d !! k
  | _ => None
  end.

(** The test [result and result['working']] that admits a probe's value
    to the list of working proxies. *)
Definition is_working (v : res (option dict)) : bool :=
  match v with
  | Ok (Some d) => dict_truthy d && truthy (dict_get d "working" PNone)
  | _ => false
  end.

(** The value of the sort key [x.get('latency', 9999)] when it is an
    integer. *)
Definition key_ms (x : dict) : Z :=
  match Tester.latency_key x with
  | PInt n => n
  | _ => 0
  end.

(** Ascending by sort key. *)
Definition by_latency (a b : dict) : Prop := key_ms a <= key_ms b.

(** Host and port of the endpoint a result belongs to. *)
Definition host (x : dict) : string :=
  match dict_get x "ip" PNone with
  | PStr s => s
  | _ => ""
  end.

Definition port_number (x : dict) : Z :=
  match dict_get x "port" PNone with
  | PInt n => n
  | _ => 0
  end.

(** The order the specification states for two neighbours of the ranked
    list: by latency, and for equal latency by (host, port). *)
Definition ranked_before (a b : dict) : bool :=
  (key_ms a <? key_ms b) ||
  ((key_ms a =? key_ms b) &&
   (String.ltb (host a) (host b) ||
    (String.eqb (host a) (host b) && (port_number a <=? port_number b)))).

Fixpoint ranked (l : list dict) : bool :=
  match l with
  | a :: r => match r with
              | b :: _ => ranked_before a b && ranked r
              | [] => true
              end
  | [] => true
  end.

(** A view of the list a run ends with. *)
Definition listing {B} (f : dict -> B) (r : res (list dict)) : option (list B) :=
  match r with
  | Ok l => Some (List.map f l)
  | Raise _ => None
  end.

(** A result that reports a live proxy: [working] is [True] and the
    latency is an integer, which is then the sort key. *)
Definition success_record (r : dict) : Prop :=
  r !! "working" = Some (PBool true) /\
  exists n, r !! "latency" = Some (PInt n) /\ Tester.latency_key r = PInt n.





(** The dictionary a probe returned, and the list a run ended with (empty
    when there is none). *)
Definition returned (v : res (option dict)) : dict :=
  match v with
  | Ok (Some d) => d
  | _ => ∅
  end.

Definition final_list (r : res (list dict)) : list dict :=
  match r with
  | Ok l => l
  | Raise _ => []
  end.

(** Every character of a string satisfies a test. *)
Fixpoint all_chars (P : ascii -> bool) (s : string) : bool :=
  match s with
  | EmptyString => true
  | String c r => P c && all_chars P r
  end.

(** A group of one to three digits, as the pattern of the extraction asks
    for each part of the dotted quad. *)
Definition octet_text (s : string) : Prop :=
  (1 <= String.length s <= 3)%nat /\ all_chars is_digit s = true.

(** Two to five digits. *)
Definition port_text (s : string) : Prop :=
  (2 <= String.length s <= 5)%nat /\ all_chars is_digit s = true.

(** The first [n] characters of [s] exist and are accepted. *)
Definition accepted (P : ascii -> bool) (n : nat) (s : string) : Prop :=
  (n <= String.length s)%nat /\ all_chars P (take_str n s) = true.

(** The lengths a match reports cut the text into one accepted segment
    per atom. *)
Fixpoint conforms (atoms : list Scanner.atom) (ls : list nat) (s : string) : Prop :=
  match atoms, ls with
  | [], [] => True
  | a :: atoms', n :: ls' =>
      (Scanner.at_least a <= n <= Scanner.at_most a)%nat /\
      accepted (Scanner.accepts a) n s /\
      conforms atoms' ls' (Scanner.drop_str n s)
  | _, _ => False
  end.

(** The shape the pattern asks for. *)
Definition dotted_quad (ip : string) : Prop :=
  exists a b c d,
    ip = a ++ "." ++ b ++ "." ++ c ++ "." ++ d /\
    octet_text a /\ octet_text b /\ octet_text c /\ octet_text d.

Definition plain (c : ascii) : bool := is_digit c || Ascii.eqb c ".".

(** A repetition of the class [P] cannot go on into [s]. *)
Definition stops (P : ascii -> bool) (s : string) : Prop :=
  match s with
  | EmptyString => True
  | String c _ => P c = false
  end.

(** A string without a colon. *)
Definition no_colon (s : string) : Prop :=
  all_chars (fun c => negb (Ascii.eqb c ":")) s = true.


(** The characters [quote] leaves in its result: the unreserved ones, the
    slash and the percent sign of an escape. *)
Definition url_char (c : ascii) : bool :=
  Tester.is_always_safe c || Ascii.eqb c "/" || Ascii.eqb c "%".

(** The characters [quote] copies. *)
Definition kept_char (c : ascii) : bool :=
  Tester.is_always_safe c || Ascii.eqb c "/".

(** What the output stage reads of a result: an integer latency, the keys
    of the endpoint, and credentials that are strings when both are set. *)
Definition printable (r : dict) : Prop :=
  (exists n, r !! "latency" = Some (PInt n)) /\
  (exists ip port, r !! "ip" = Some ip /\ r !! "port" = Some port) /\
  (truthy (dict_get r "user" PNone) && truthy (dict_get r "password" PNone) = true ->
   exists u w, r !! "user" = Some (PStr u) /\ r !! "password" = Some (PStr w)).

(** The latencies the statistics of the summary are made from: those that
    are not zero. *)
Definition counted (working : list dict) : list Z :=
  List.filter (fun n => negb (n =? 0)) (List.map key_ms working).

(** A block of statements that only adds to the set it works on: its
    outcome does not depend on the set, and the set it leaves is the set it
    found plus what it adds to an empty one. *)
Definition additive {A} (c : M (gset string) A) : Prop :=
  forall st, fst (c st) = fst (c ∅) /\ snd (c st) = st ∪ snd (c ∅).

(** The candidates one source contributes to the scanner's collection. *)
Definition contribution (container_repr : pyval -> string) (net : network)
    (url : string) : gset string :=
  snd (Scanner.collect_one container_repr net url ∅).

(** The address [enrich_with_country] looks up for a result: the exit IP
    when it is set, else the IP of the proxy. *)
Definition lookup_address (p : dict) : option pyval :=
  if truthy (dict_get p "exit_ip" PNone) then p !! "exit_ip" else p !! "ip".

(** The address is a string, so it can be split at the comma. *)
Definition addressable (p : dict) : Prop :=
  exists s, lookup_address p = Some (PStr s).

(** The country code recorded for an addressable result. *)
Definition country_of (net : network) (p : dict) : pyval :=
  match lookup_address p with
  | Some (PStr s) => Scanner.get_country_from_ip net (strip (hd "" (split "," s)))
  | _ => PNone
  end.

(** The country code of a result as a string, and the name written for it
    in the file by country. *)
Definition country_code (p : dict) : string :=
  match dict_get p "country" (PStr "XX") with
  | PStr c => c
  | _ => ""
  end.

Definition proxy_name (p : dict) : pyval := dict_get p "proxy" PNone.

(** A result the grouping by country can file: its country code is a
    string and it has the key ['proxy']. *)
Definition grouped (p : dict) : Prop :=
  (exists c, dict_get p "country" (PStr "XX") = PStr c) /\ is_Some (p !! "proxy").

(** The names of the results of one country, in the order of the list. *)
Definition members (c : string) (l : list dict) : list pyval :=
  List.map proxy_name (List.filter (fun p => String.eqb (country_code p) c) l).

(** The code a group of the file by country stands under. *)
Definition group_code (g : pyval * list pyval) : string :=
  match fst g with
  | PStr c => c
  | _ => ""
  end.

(** The names filed under a code: those of the first group with it. *)
Fixpoint names_under (c : string) (groups : list (pyval * list pyval)) : list pyval :=
  match groups with
  | [] => []
  | g :: rest => if String.eqb (group_code g) c then snd g else names_under c rest
  end.

(** A group whose key is a string. *)
Definition keyed (g : pyval * list pyval) : Prop := fst g = PStr (group_code g).

(** The dictionary a completed future hands to the collecting loop, if it
    hands one. *)
Definition delivered (future : res (option dict)) : option dict :=
  match future with
  | Ok (Some d) => Some d
  | _ => None
  end.






End Notions.

(* ===================================================================== *)
(** ** Proofs *)
(* ===================================================================== *)

Import Py Notions.

(** Unfolding of the statement blocks, and case analysis on what they
    inspect. *)
Ltac msimpl :=
  unfold mtry, lift, setitem, getitem, set_add in *;
  unfold mbind, mret, M_bind, M_ret, res_bind, res_ret, bind_st, ret_st, bind,
         try_except, raise in *;
  simpl in *.

Ltac case_step :=
  match goal with
  | |- context [match ?x with _ => _ end] =>
      lazymatch x with
      | context [match _ with _ => _ end] => fail
      | _ => destruct x eqn:?
      end
  | |- context [if ?x then _ else _] =>
      lazymatch x with
      | context [if _ then _ else _] => fail
      | context [match _ with _ => _ end] => fail
      | _ => destruct x eqn:?
      end
  end.

Ltac cases := repeat (case_step; simpl in *; try discriminate).

Lemma field_returned v k x : field k v = Some x -> v = Ok (Some (returned v)).
Proof. destruct v as [[d|]|e]; simpl; intros H; [reflexivity | discriminate..]. Qed.

Lemma listing_final {B} (f : dict -> B) r x :
  listing f r = Some x -> r = Ok (final_list r) /\ x = List.map f (final_list r).
Proof.
  destruct r as [l|e]; simpl; intros H; [|discriminate].
  injection H as <-. auto.
Qed.

(** *** The probe of the tester *)

Lemma tester_read_exit_ip_ok MY resp d :
  fst (mtry (Tester.read_exit_ip MY resp) (fun _ => mret tt) d) = Ok tt.
Proof.
  unfold Tester.read_exit_ip. msimpl. cases; reflexivity.
Qed.

Lemma tester_read_exit_ip_other MY resp d k :
  k <> "exit_ip" -> k <> "anonymous" ->
  snd (mtry (Tester.read_exit_ip MY resp) (fun _ => mret tt) d) !! k = d !! k.
Proof.
  intros. unfold Tester.read_exit_ip. msimpl. cases; simplify_map_eq; reflexivity.
Qed.

Lemma tester_read_exit_ip_absent MY resp d :
  d !! "anonymous" = Some PNone -> d !! "exit_ip" = Some PNone ->
  let d' := snd (mtry (Tester.read_exit_ip MY resp) (fun _ => mret tt) d) in
  truthy MY = false \/ truthy (dict_get d' "exit_ip" PNone) = false ->
  d' !! "anonymous" = Some PNone.
Proof.
  intros Ha He. unfold Tester.read_exit_ip, dict_get. msimpl.
  cases; simplify_map_eq; intros [H|H]; simplify_map_eq; try reflexivity; try discriminate.
  all: try (rewrite H in *; simpl in *; discriminate).
  all: try (destruct (truthy MY); simpl in *; congruence).
Qed.

(** Both IPs known: the first element of the echoed list is stored and
    searched. *)
Lemma tester_read_exit_ip_known ref resp data o d :
  json resp = Ok data -> get data "origin" (PStr "") = Ok (PStr o) ->
  ref <> "" ->
  let e := strip (hd "" (split "," o)) in
  snd (mtry (Tester.read_exit_ip (PStr ref) resp) (fun _ => mret tt) d) =
  if is_empty e then <["exit_ip" := PStr e]> d
  else <["anonymous" := PBool (negb (contains ref e))]> (<["exit_ip" := PStr e]> d).
Proof.
  intros Hj Hg Hr. unfold Tester.read_exit_ip. msimpl. rewrite Hj, Hg. simpl.
  rewrite lookup_insert_eq. simpl.
  destruct ref; [congruence|]. simpl.
  destruct (is_empty _); reflexivity.
Qed.

(** What the probe of the tester returns, by the outcome of its request. *)
Lemma tester_probe_cases MY env proxy :
  match Tester.parse_parts proxy with
  | None => Tester.test_socks5_proxy MY env proxy = Ok None
  | Some (ip, port, user, password) =>
      match Tester.requests_get env Tester.TEST_URL
              (Some (Tester.proxy_url ip port user password)) Tester.TEST_TIMEOUT with
      | Raise _ => Tester.test_socks5_proxy MY env proxy = Ok None
      | Ok resp =>
          if status_code resp =? 200 then
            Tester.test_socks5_proxy MY env proxy =
            Ok (Some (snd (mtry (Tester.read_exit_ip MY resp) (fun _ => mret tt)
                             (tester_base env proxy ip port user password))))
          else Tester.test_socks5_proxy MY env proxy = Ok None
      end
  end.
Proof.
  unfold Tester.test_socks5_proxy, Tester.test_socks5_proxy_run.
  destruct (Tester.parse_parts proxy) as [[[[ip port] user] password]|]; [|reflexivity].
  unfold Tester.probe, Tester.on_error.
  pose proof (fun resp => tester_read_exit_ip_ok MY resp
                (tester_base env proxy ip port user password)) as Hok.
  unfold tester_base in *. msimpl.
  destruct (Tester.requests_get env _ _ _) as [resp|e]; simpl.
  - destruct (status_code resp =? 200); simpl; [|reflexivity].
    specialize (Hok resp).
    destruct (Tester.read_exit_ip MY resp _) as [[u|e] d']; simpl in *; reflexivity.
  - cases; reflexivity.
Qed.

Lemma tester_probe_total MY env proxy :
  exists v, Tester.test_socks5_proxy MY env proxy = Ok v.
Proof.
  pose proof (tester_probe_cases MY env proxy) as H.
  destruct (Tester.parse_parts proxy) as [[[[ip port] user] password]|]; [|eauto].
  destruct (Tester.requests_get env _ _ _) as [resp|e]; [|eauto].
  destruct (status_code resp =? 200); eauto.
Qed.

(** A returned dictionary comes from a request answered with status 200. *)
Lemma tester_probe_some MY env proxy r :
  Tester.test_socks5_proxy MY env proxy = Ok (Some r) ->
  exists ip port user password resp,
    Tester.parse_parts proxy = Some (ip, port, user, password) /\
    Tester.requests_get env Tester.TEST_URL
      (Some (Tester.proxy_url ip port user password)) Tester.TEST_TIMEOUT = Ok resp /\
    status_code resp = 200 /\
    r = snd (mtry (Tester.read_exit_ip MY resp) (fun _ => mret tt)
               (tester_base env proxy ip port user password)).
Proof.
  intros Hr. pose proof (tester_probe_cases MY env proxy) as H.
  destruct (Tester.parse_parts proxy) as [[[[ip port] user] password]|]; [|congruence].
  destruct (Tester.requests_get env _ _ _) as [resp|e] eqn:Hget; [|congruence].
  destruct (status_code resp =? 200) eqn:Hs; [|congruence].
  exists ip, port, user, password, resp. split; [reflexivity|]. split; [exact Hget|].
  split; [apply Z.eqb_eq, Hs | congruence].
Qed.

Lemma tester_probe_fields MY env proxy r :
  Tester.test_socks5_proxy MY env proxy = Ok (Some r) ->
  r !! "working" = Some (PBool true) /\
  r !! "latency" = Some (PInt (Tester.elapsed_ms env)) /\
  r !! "error" = Some PNone /\
  r !! "proxy" = Some (PStr proxy).
Proof.
  intros Hr. apply tester_probe_some in Hr.
  destruct Hr as (ip & port & user & password & resp & _ & _ & _ & ->).
  rewrite !tester_read_exit_ip_other by discriminate.
  unfold tester_base, Tester.initial_result. simplify_map_eq. auto.
Qed.

(** *** The probes of the scanner *)

Lemma pysocks_read_exit_ip_ok MY resp d :
  fst (mtry (Scanner.read_exit_ip MY resp) (fun _ => mret tt) d) = Ok tt.
Proof.
  unfold Scanner.read_exit_ip. msimpl. cases; reflexivity.
Qed.

Lemma pysocks_read_exit_ip_other MY resp d k :
  k <> "exit_ip" -> k <> "anonymous" ->
  snd (mtry (Scanner.read_exit_ip MY resp) (fun _ => mret tt) d) !! k = d !! k.
Proof.
  intros. unfold Scanner.read_exit_ip. msimpl. cases; simplify_map_eq; reflexivity.
Qed.

Lemma pysocks_read_exit_ip_absent MY resp d :
  d !! "anonymous" = Some PNone -> d !! "exit_ip" = Some PNone ->
  let d' := snd (mtry (Scanner.read_exit_ip MY resp) (fun _ => mret tt) d) in
  truthy MY = false \/ d' !! "exit_ip" = Some PNone ->
  d' !! "anonymous" = Some PNone.
Proof.
  intros Ha He. unfold Scanner.read_exit_ip. msimpl.
  cases; simplify_map_eq; intros [H|H]; simplify_map_eq; try reflexivity; try discriminate.
Qed.

(** Both IPs known: the whole echoed string is stored and searched. *)
Lemma pysocks_read_exit_ip_known ref resp data o d :
  json resp = Ok data -> get data "origin" (PStr "") = Ok (PStr o) ->
  ref <> "" ->
  snd (mtry (Scanner.read_exit_ip (PStr ref) resp) (fun _ => mret tt) d) =
  <["anonymous" := PBool (negb (contains ref o))]> (<["exit_ip" := PStr o]> d).
Proof.
  intros Hj Hg Hr. unfold Scanner.read_exit_ip. msimpl. rewrite Hj, Hg. simpl.
  destruct ref; [congruence|]. simpl.
  rewrite lookup_insert_eq. reflexivity.
Qed.

Lemma pysocks_probe_cases MY env proxy :
  match Scanner.parse_pair proxy with
  | None => Scanner.test_socks5_with_pysocks MY env proxy = Ok None
  | Some (ip, port) =>
      match Scanner.requests_get env Scanner.TEST_URL
              (Some ("socks5h://" ++ ip ++ ":" ++ str_int port)) Scanner.TEST_TIMEOUT with
      | Raise _ => Scanner.test_socks5_with_pysocks MY env proxy = Ok None
      | Ok resp =>
          if status_code resp =? 200 then
            Scanner.test_socks5_with_pysocks MY env proxy =
            Ok (Some (snd (mtry (Scanner.read_exit_ip MY resp) (fun _ => mret tt)
                             (pysocks_base env proxy ip port))))
          else Scanner.test_socks5_with_pysocks MY env proxy = Ok None
      end
  end.
Proof.
  unfold Scanner.test_socks5_with_pysocks.
  destruct (Scanner.parse_pair proxy) as [[ip port]|]; [|reflexivity].
  unfold Scanner.pysocks_probe.
  pose proof (fun resp => pysocks_read_exit_ip_ok MY resp
                (pysocks_base env proxy ip port)) as Hok.
  unfold pysocks_base in *. msimpl.
  destruct (Scanner.requests_get env _ _ _) as [resp|e]; simpl; [|reflexivity].
  destruct (status_code resp =? 200); simpl; [|reflexivity].
  specialize (Hok resp).
  destruct (Scanner.read_exit_ip MY resp _) as [[u|e] d']; simpl in *; reflexivity.
Qed.

Lemma pysocks_probe_total MY env proxy :
  exists v, Scanner.test_socks5_with_pysocks MY env proxy = Ok v.
Proof.
  pose proof (pysocks_probe_cases MY env proxy) as H.
  destruct (Scanner.parse_pair proxy) as [[ip port]|]; [|eauto].
  destruct (Scanner.requests_get env _ _ _) as [resp|e]; [|eauto].
  destruct (status_code resp =? 200); eauto.
Qed.

Lemma pysocks_probe_some MY env proxy r :
  Scanner.test_socks5_with_pysocks MY env proxy = Ok (Some r) ->
  exists ip port resp,
    Scanner.parse_pair proxy = Some (ip, port) /\
    Scanner.requests_get env Scanner.TEST_URL
      (Some ("socks5h://" ++ ip ++ ":" ++ str_int port)) Scanner.TEST_TIMEOUT = Ok resp /\
    status_code resp = 200 /\
    r = snd (mtry (Scanner.read_exit_ip MY resp) (fun _ => mret tt)
               (pysocks_base env proxy ip port)).
Proof.
  intros Hr. pose proof (pysocks_probe_cases MY env proxy) as H.
  destruct (Scanner.parse_pair proxy) as [[ip port]|]; [|congruence].
  destruct (Scanner.requests_get env _ _ _) as [resp|e] eqn:Hget; [|congruence].
  destruct (status_code resp =? 200) eqn:Hs; [|congruence].
  exists ip, port, resp. split; [reflexivity|]. split; [exact Hget|].
  split; [apply Z.eqb_eq, Hs | congruence].
Qed.

Lemma pysocks_probe_fields MY env proxy r :
  Scanner.test_socks5_with_pysocks MY env proxy = Ok (Some r) ->
  r !! "working" = Some (PBool true) /\
  r !! "latency" = Some (PInt (Scanner.elapsed_ms env)) /\
  r !! "proxy" = Some (PStr proxy).
Proof.
  intros Hr. apply pysocks_probe_some in Hr.
  destruct Hr as (ip & port & resp & _ & _ & _ & ->).
  rewrite !pysocks_read_exit_ip_other by discriminate.
  unfold pysocks_base, Scanner.pysocks_result. simplify_map_eq. auto.
Qed.

Lemma connection_read_origin_ok MY resp d :
  fst (mtry (Scanner.read_origin MY resp) (fun _ => mret tt) d) = Ok tt.
Proof.
  unfold Scanner.read_origin. msimpl. cases; reflexivity.
Qed.

(** The two fields are written together: no exit IP, no verdict. *)
Lemma connection_read_origin_absent MY resp d :
  d !! "anonymous" = Some PNone ->
  let d' := snd (mtry (Scanner.read_origin MY resp) (fun _ => mret tt) d) in
  d' !! "exit_ip" = None ->
  d' !! "anonymous" = Some PNone.
Proof.
  intros Ha. unfold Scanner.read_origin. msimpl.
  cases; simplify_map_eq; intros H; simplify_map_eq; try reflexivity; try discriminate.
Qed.

Lemma connection_read_origin_known ref resp data o d :
  json resp = Ok data -> get data "origin" (PStr "") = Ok (PStr o) ->
  snd (mtry (Scanner.read_origin (PStr ref) resp) (fun _ => mret tt) d) =
  <["exit_ip" := PStr o]> (<["anonymous" := PBool (negb (contains ref o))]> d).
Proof.
  intros Hj Hg. unfold Scanner.read_origin. msimpl. rewrite Hj, Hg. reflexivity.
Qed.

Lemma connection_total MY env proxy :
  exists v, Scanner.test_socks5_connection MY env proxy = Ok v.
Proof.
  unfold Scanner.test_socks5_connection.
  destruct (Scanner.parse_pair proxy) as [[ip port]|]; [|eauto].
  destruct (mtry _ _ _) as [[[|]|e] d] eqn:H; eauto.
  exfalso. revert H.
  unfold Scanner.handshake_then_http. msimpl. cases; discriminate.
Qed.

(** With the greeting accepted, what [test_socks5_connection] returns, by
    the outcome of the tunnelled request. *)
Lemma connection_cases MY env proxy ip port :
  Scanner.parse_pair proxy = Some (ip, port) ->
  handshake_ok env ip port ->
  Scanner.test_socks5_connection MY env proxy =
  match Scanner.requests_get env Scanner.TEST_URL
          (Some ("socks5://" ++ proxy)) Scanner.TEST_TIMEOUT with
  | Raise _ => Ok (Some (connection_base env proxy ip port))
  | Ok resp =>
      if status_code resp =? 200
      then Ok (Some (connection_after_200 MY env proxy ip port resp))
      else Ok (Some (Scanner.connection_result proxy ip port (Scanner.now_iso env)))
  end.
Proof.
  intros Hp (Ho & Hc & Hs & bytes & method & Hr & Hb & Hm).
  unfold Scanner.test_socks5_connection. rewrite Hp.
  unfold Scanner.handshake_then_http, Scanner.http_step, Scanner.partially_working,
    connection_after_200.
  pose proof (fun resp => connection_read_origin_ok MY resp
                (connection_base env proxy ip port)) as Hok.
  unfold connection_base in *.
  msimpl. rewrite Ho, Hc, Hs, Hr. simpl. rewrite Hb. simpl.
  destruct (method =? 255) eqn:E; [apply Z.eqb_eq in E; contradiction|].
  destruct (Scanner.requests_get env _ _ _) as [resp|e]; simpl; [|reflexivity].
  destruct (status_code resp =? 200); simpl; [|reflexivity].
  destruct (truthy MY); simpl; [|reflexivity].
  specialize (Hok resp).
  destruct (Scanner.read_origin MY resp _) as [[u|e] d']; simpl in *; reflexivity.
Qed.

Lemma connection_some MY env proxy r :
  Scanner.test_socks5_connection MY env proxy = Ok (Some r) ->
  exists ip port,
    Scanner.parse_pair proxy = Some (ip, port) /\
    (r = Scanner.connection_result proxy ip port (Scanner.now_iso env) \/
     r = connection_base env proxy ip port \/
     exists resp, r = connection_after_200 MY env proxy ip port resp).
Proof.
  unfold Scanner.test_socks5_connection.
  destruct (Scanner.parse_pair proxy) as [[ip port]|]; [|discriminate].
  intros H. exists ip, port. split; [reflexivity|]. revert H.
  unfold Scanner.handshake_then_http, Scanner.http_step, Scanner.partially_working,
    connection_after_200.
  pose proof (fun resp => connection_read_origin_ok MY resp
                (connection_base env proxy ip port)) as Hok.
  unfold connection_base in *. msimpl.
  cases; intros H; inversion H; subst; clear H; auto.
  all: right; right;
    match goal with
    | Hr : Scanner.read_origin _ ?resp _ = _ |- _ =>
        exists resp; rewrite Hr; reflexivity
    end.
Qed.

(* ===================================================================== *)
(** ** Anonymity classification *)
(* ===================================================================== *)

(** C1, as stated, fails for the probe of the tester.  With reference IP
    9.9.9.9 and the echoed origin "1.1.1.1, 9.9.9.9" it keeps only the
    first element of the list as exit IP, searches the reference IP in
    that element, and yields [anonymous = True]. *)
Lemma C1_counterexample :
  let v := Tester.test_socks5_proxy (PStr "9.9.9.9")
             (Sample.tester_env (Ok (Sample.echo "1.1.1.1, 9.9.9.9"))) "1.2.3.4:1080" in
  field "exit_ip" v = Some (PStr "1.1.1.1") /\
  field "anonymous" v = Some (PBool true).
Proof. vm_compute. split; reflexivity. Qed.

(** C1 (amended).  The reference IP is a non-empty string [ref], and the
    test service answers the tunnelled request with status 200 and a JSON
    object whose [origin] is the string [o] (the empty string when the key
    is missing).  The two probes of the scanner store [o] whole as exit IP,
    a comma-joined list included, and set [anonymous] to "[ref] does not
    occur in [o]".  The probe of the tester stores the first
    comma-separated element of [o], stripped, and sets [anonymous] to
    "[ref] does not occur in that element"; when the element is empty it
    leaves [anonymous] at [None]. *)
Theorem C1_anonymity_by_containment (ref o : string) (resp : response) (data : pyval) :
  ref <> "" ->
  status_code resp = 200 ->
  json resp = Ok data ->
  get data "origin" (PStr "") = Ok (PStr o) ->
  (forall env proxy ip port,
      Scanner.parse_pair proxy = Some (ip, port) ->
      Scanner.requests_get env Scanner.TEST_URL
        (Some ("socks5h://" ++ ip ++ ":" ++ str_int port)) Scanner.TEST_TIMEOUT = Ok resp ->
      let v := Scanner.test_socks5_with_pysocks (PStr ref) env proxy in
      field "exit_ip" v = Some (PStr o) /\
      field "anonymous" v = Some (PBool (negb (contains ref o)))) /\
  (forall env proxy ip port,
      Scanner.parse_pair proxy = Some (ip, port) ->
      handshake_ok env ip port ->
      Scanner.requests_get env Scanner.TEST_URL
        (Some ("socks5://" ++ proxy)) Scanner.TEST_TIMEOUT = Ok resp ->
      let v := Scanner.test_socks5_connection (PStr ref) env proxy in
      field "exit_ip" v = Some (PStr o) /\
      field "anonymous" v = Some (PBool (negb (contains ref o)))) /\
  (forall env proxy ip port user password,
      Tester.parse_parts proxy = Some (ip, port, user, password) ->
      Tester.requests_get env Tester.TEST_URL
        (Some (Tester.proxy_url ip port user password)) Tester.TEST_TIMEOUT = Ok resp ->
      let v := Tester.test_socks5_proxy (PStr ref) env proxy in
      let e := strip (hd "" (split "," o)) in
      field "exit_ip" v = Some (PStr e) /\
      field "anonymous" v =
        Some (if is_empty e then PNone else PBool (negb (contains ref e)))).
Proof.
  intros Href Hs Hj Hg. apply Z.eqb_eq in Hs.
  assert (Ht : truthy (PStr ref) = true) by (destruct ref; [congruence|reflexivity]).
  split; [|split].
  - intros env proxy ip port Hp Hget v. subst v.
    pose proof (pysocks_probe_cases (PStr ref) env proxy) as H.
    rewrite Hp, Hget, Hs in H. rewrite H. simpl.
    rewrite (pysocks_read_exit_ip_known ref resp data o _ Hj Hg Href).
    simplify_map_eq. auto.
  - intros env proxy ip port Hp Hh Hget v. subst v.
    rewrite (connection_cases _ _ _ _ _ Hp Hh), Hget, Hs. simpl.
    unfold connection_after_200. rewrite Ht. simpl.
    rewrite (connection_read_origin_known ref resp data o _ Hj Hg).
    simplify_map_eq. auto.
  - intros env proxy ip port user password Hp Hget v e. subst v.
    pose proof (tester_probe_cases (PStr ref) env proxy) as H.
    rewrite Hp, Hget, Hs in H. rewrite H. simpl.
    rewrite (tester_read_exit_ip_known ref resp data o _ Hj Hg Href).
    fold e. destruct (is_empty e); simplify_map_eq; auto.
Qed.

(** With reference IP 9.9.9.9: the scanner, on the echoed list
    "1.1.1.1, 9.9.9.9", keeps the list and yields [False]; the tester
    yields [False] when the first element of the list is the reference IP,
    and [True] on the single address 1.1.1.1. *)
Lemma C1_witness :
  (field "exit_ip"
     (Scanner.test_socks5_with_pysocks (PStr "9.9.9.9")
        (Sample.scanner_env [5; 0] (Ok (Sample.echo "1.1.1.1, 9.9.9.9"))) "1.2.3.4:1080")
   = Some (PStr "1.1.1.1, 9.9.9.9") /\
   field "anonymous"
     (Scanner.test_socks5_with_pysocks (PStr "9.9.9.9")
        (Sample.scanner_env [5; 0] (Ok (Sample.echo "1.1.1.1, 9.9.9.9"))) "1.2.3.4:1080")
   = Some (PBool false)) /\
  (field "exit_ip"
     (Tester.test_socks5_proxy (PStr "9.9.9.9")
        (Sample.tester_env (Ok (Sample.echo "9.9.9.9, 1.1.1.1"))) "1.2.3.4:1080")
   = Some (PStr "9.9.9.9") /\
   field "anonymous"
     (Tester.test_socks5_proxy (PStr "9.9.9.9")
        (Sample.tester_env (Ok (Sample.echo "9.9.9.9, 1.1.1.1"))) "1.2.3.4:1080")
   = Some (PBool false)) /\
  (field "exit_ip"
     (Tester.test_socks5_proxy (PStr "9.9.9.9")
        (Sample.tester_env (Ok (Sample.echo "1.1.1.1"))) "1.2.3.4:1080")
   = Some (PStr "1.1.1.1") /\
   field "anonymous"
     (Tester.test_socks5_proxy (PStr "9.9.9.9")
        (Sample.tester_env (Ok (Sample.echo "1.1.1.1"))) "1.2.3.4:1080")
   = Some (PBool true)).
Proof.
  assert (Hn : "9.9.9.9" <> "") by discriminate.
  split; [|split].
  - exact (proj1 (C1_anonymity_by_containment "9.9.9.9" "1.1.1.1, 9.9.9.9"
             (Sample.echo "1.1.1.1, 9.9.9.9") (PDict [("origin", PStr "1.1.1.1, 9.9.9.9")])
             Hn eq_refl eq_refl eq_refl)
             (Sample.scanner_env [5; 0] (Ok (Sample.echo "1.1.1.1, 9.9.9.9")))
             "1.2.3.4:1080" "1.2.3.4" 1080 eq_refl eq_refl).
  - exact (proj2 (proj2 (C1_anonymity_by_containment "9.9.9.9" "9.9.9.9, 1.1.1.1"
             (Sample.echo "9.9.9.9, 1.1.1.1") (PDict [("origin", PStr "9.9.9.9, 1.1.1.1")])
             Hn eq_refl eq_refl eq_refl))
             (Sample.tester_env (Ok (Sample.echo "9.9.9.9, 1.1.1.1")))
             "1.2.3.4:1080" "1.2.3.4" 1080 PNone PNone eq_refl eq_refl).
  - exact (proj2 (proj2 (C1_anonymity_by_containment "9.9.9.9" "1.1.1.1"
             (Sample.echo "1.1.1.1") (PDict [("origin", PStr "1.1.1.1")])
             Hn eq_refl eq_refl eq_refl))
             (Sample.tester_env (Ok (Sample.echo "1.1.1.1")))
             "1.2.3.4:1080" "1.2.3.4" 1080 PNone PNone eq_refl eq_refl).
Defined.

(** C7.  When the reference IP is unresolved ([MY_REAL_IP] is [None], or
    any other falsy value), or when no exit IP was obtained (the field
    [exit_ip] of the result is still [None]; for the tester also when it is
    the empty string), the field [anonymous] of the result is [None], never
    [False]. *)
Theorem C7_anonymous_absent (MY : pyval) (proxy : string) (r : dict) :
  (forall env,
      Tester.test_socks5_proxy MY env proxy = Ok (Some r) ->
      truthy MY = false \/ truthy (dict_get r "exit_ip" PNone) = false ->
      r !! "anonymous" = Some PNone) /\
  (forall env,
      Scanner.test_socks5_with_pysocks MY env proxy = Ok (Some r) ->
      truthy MY = false \/ r !! "exit_ip" = Some PNone ->
      r !! "anonymous" = Some PNone) /\
  (forall env,
      Scanner.test_socks5_connection MY env proxy = Ok (Some r) ->
      truthy MY = false \/ r !! "exit_ip" = None ->
      r !! "anonymous" = Some PNone).
Proof.
  split; [|split]; intros env Hr Hc.
  - apply tester_probe_some in Hr.
    destruct Hr as (ip & port & user & password & resp & _ & _ & _ & ->).
    apply tester_read_exit_ip_absent; [reflexivity | reflexivity | exact Hc].
  - apply pysocks_probe_some in Hr.
    destruct Hr as (ip & port & resp & _ & _ & _ & ->).
    apply pysocks_read_exit_ip_absent; [reflexivity | reflexivity | exact Hc].
  - apply connection_some in Hr.
    destruct Hr as (ip & port & _ & [-> | [-> | [resp ->]]]); try reflexivity.
    unfold connection_after_200 in *. simpl in *.
    destruct (truthy MY) eqn:Ht.
    + destruct Hc as [Hc|Hc]; [discriminate|].
      apply connection_read_origin_absent; [reflexivity | exact Hc].
    + reflexivity.
Qed.

(** With the resolver's sentinel [None] as reference IP, a probe that
    succeeds and reads an exit IP still leaves [anonymous] at [None]. *)
Lemma C7_witness :
  let env := Sample.tester_env (Ok (Sample.echo "1.1.1.1")) in
  exists r,
    Tester.test_socks5_proxy PNone env "1.2.3.4:1080" = Ok (Some r) /\
    r !! "exit_ip" = Some (PStr "1.1.1.1") /\
    r !! "anonymous" = Some PNone.
Proof.
  intros env.
  set (v := Tester.test_socks5_proxy PNone env "1.2.3.4:1080").
  assert (E : v = Ok (Some (returned v)))
    by (apply (field_returned v "working" (PBool true)); vm_compute; reflexivity).
  exists (returned v). split; [exact E|]. split.
  - vm_compute. reflexivity.
  - exact (proj1 (C7_anonymous_absent PNone "1.2.3.4:1080" (returned v)) env E
             (or_introl eq_refl)).
Defined.

(* ===================================================================== *)
(** ** Failures of a probe *)
(* ===================================================================== *)

(** C2, as stated, fails for [test_socks5_connection]: the greeting is
    accepted, the tunnelled request times out, and the result passes the
    test [result and result['working']]. *)
Lemma C2_counterexample :
  handshake_ok (Sample.scanner_env [5; 0] (Raise Sample.timeout)) "1.2.3.4" 1080 /\
  http_fails (Scanner.requests_get (Sample.scanner_env [5; 0] (Raise Sample.timeout))
                Scanner.TEST_URL (Some "socks5://1.2.3.4:1080") Scanner.TEST_TIMEOUT) /\
  is_working (Scanner.test_socks5_connection PNone
                (Sample.scanner_env [5; 0] (Raise Sample.timeout)) "1.2.3.4:1080") = true.
Proof.
  split; [|split].
  - repeat split. exists [5; 0], 0. repeat split. discriminate.
  - exact I.
  - vm_compute. reflexivity.
Qed.

(** C2 (amended).  In [test_socks5_proxy] and [test_socks5_with_pysocks],
    the probes that are scheduled, a tunnelled request that raises or
    answers a status other than 200 makes the probe return [None].  In
    [test_socks5_connection], after an accepted greeting, a status other
    than 200 leaves [working] at [False], and a request that raises marks
    the proxy as working, with the elapsed time as latency. *)
Theorem C2_http_failure (MY : pyval) (proxy ip : string) (port : Z) :
  (forall env user password,
      Tester.parse_parts proxy = Some (ip, port, user, password) ->
      http_fails (Tester.requests_get env Tester.TEST_URL
                    (Some (Tester.proxy_url ip port user password)) Tester.TEST_TIMEOUT) ->
      Tester.test_socks5_proxy MY env proxy = Ok None) /\
  (forall env,
      Scanner.parse_pair proxy = Some (ip, port) ->
      http_fails (Scanner.requests_get env Scanner.TEST_URL
                    (Some ("socks5h://" ++ ip ++ ":" ++ str_int port)) Scanner.TEST_TIMEOUT) ->
      Scanner.test_socks5_with_pysocks MY env proxy = Ok None) /\
  (forall env,
      Scanner.parse_pair proxy = Some (ip, port) ->
      handshake_ok env ip port ->
      let v := Scanner.test_socks5_connection MY env proxy in
      match Scanner.requests_get env Scanner.TEST_URL
              (Some ("socks5://" ++ proxy)) Scanner.TEST_TIMEOUT with
      | Ok resp =>
          status_code resp <> 200 ->
          field "working" v = Some (PBool false) /\ field "latency" v = Some PNone
      | Raise _ =>
          field "working" v = Some (PBool true) /\
          field "latency" v = Some (PInt (Scanner.elapsed_ms env))
      end).
Proof.
  split; [|split].
  - intros env user password Hp Hf.
    pose proof (tester_probe_cases MY env proxy) as H. rewrite Hp in H.
    destruct (Tester.requests_get env _ _ _) as [resp|e]; [|exact H].
    simpl in Hf. destruct (status_code resp =? 200) eqn:E; [|exact H].
    apply Z.eqb_eq in E. contradiction.
  - intros env Hp Hf.
    pose proof (pysocks_probe_cases MY env proxy) as H. rewrite Hp in H.
    destruct (Scanner.requests_get env _ _ _) as [resp|e]; [|exact H].
    simpl in Hf. destruct (status_code resp =? 200) eqn:E; [|exact H].
    apply Z.eqb_eq in E. contradiction.
  - intros env Hp Hh v. subst v. rewrite (connection_cases _ _ _ _ _ Hp Hh).
    destruct (Scanner.requests_get env _ _ _) as [resp|e].
    + intros Hs. destruct (status_code resp =? 200) eqn:E.
      * apply Z.eqb_eq in E. contradiction.
      * simpl. unfold Scanner.connection_result. simplify_map_eq. auto.
    + simpl. unfold connection_base. simplify_map_eq. auto.
Qed.

(** A timeout of the tunnelled request: [None] from the two scheduled
    probes. *)
Lemma C2_witness :
  Tester.test_socks5_proxy PNone (Sample.tester_env (Raise Sample.timeout))
    "1.2.3.4:1080" = Ok None /\
  Scanner.test_socks5_with_pysocks PNone
    (Sample.scanner_env [5; 0] (Raise Sample.timeout)) "1.2.3.4:1080" = Ok None.
Proof.
  split.
  - exact (proj1 (C2_http_failure PNone "1.2.3.4:1080" "1.2.3.4" 1080)
             (Sample.tester_env (Raise Sample.timeout)) PNone PNone eq_refl I).
  - exact (proj1 (proj2 (C2_http_failure PNone "1.2.3.4:1080" "1.2.3.4" 1080))
             (Sample.scanner_env [5; 0] (Raise Sample.timeout)) eq_refl I).
Defined.

(** C4, as stated, fails: a probe whose request times out produces no
    result at all.  The reason it has put into its local dictionary is
    dropped. *)
Lemma C4_counterexample :
  let run := Tester.test_socks5_proxy_run PNone
               (Sample.tester_env (Raise Sample.timeout)) "1.2.3.4:1080" in
  Tester.test_socks5_proxy PNone (Sample.tester_env (Raise Sample.timeout))
    "1.2.3.4:1080" = Ok None /\
  fst run = Ok None /\
  (snd run ≫= fun d => d !! "error") = Some (PStr "Timeout").
Proof. vm_compute. repeat split. Qed.

(** C4 (amended).  One probe invocation never raises: it returns exactly
    one value, a result dictionary or [None].  A dictionary returned by
    [test_socks5_proxy] or [test_socks5_with_pysocks] reports success
    ([working] is [True], the latency is an integer, [error] is [None]);
    every failure of the tunnelled request (an exception, a status other
    than 200) is reported by returning [None], without a reason. *)
Theorem C4_probe_total (MY : pyval) (proxy : string) :
  (forall env,
      match Tester.test_socks5_proxy MY env proxy with
      | Ok None => True
      | Ok (Some r) =>
          r !! "working" = Some (PBool true) /\
          r !! "latency" = Some (PInt (Tester.elapsed_ms env)) /\
          r !! "error" = Some PNone
      | Raise _ => False
      end) /\
  (forall env,
      match Scanner.test_socks5_with_pysocks MY env proxy with
      | Ok None => True
      | Ok (Some r) =>
          r !! "working" = Some (PBool true) /\
          r !! "latency" = Some (PInt (Scanner.elapsed_ms env))
      | Raise _ => False
      end) /\
  (forall env,
      match Scanner.test_socks5_connection MY env proxy with
      | Ok _ => True
      | Raise _ => False
      end) /\
  (forall env ip port user password,
      Tester.parse_parts proxy = Some (ip, port, user, password) ->
      http_fails (Tester.requests_get env Tester.TEST_URL
                    (Some (Tester.proxy_url ip port user password)) Tester.TEST_TIMEOUT) ->
      Tester.test_socks5_proxy MY env proxy = Ok None) /\
  (forall env ip port,
      Scanner.parse_pair proxy = Some (ip, port) ->
      http_fails (Scanner.requests_get env Scanner.TEST_URL
                    (Some ("socks5h://" ++ ip ++ ":" ++ str_int port)) Scanner.TEST_TIMEOUT) ->
      Scanner.test_socks5_with_pysocks MY env proxy = Ok None).
Proof.
  split; [|split; [|split; [|split]]].
  - intros env. destruct (tester_probe_total MY env proxy) as [v Hv]. rewrite Hv.
    destruct v as [r|]; [|exact I].
    destruct (tester_probe_fields _ _ _ _ Hv) as (? & ? & ? & _). auto.
  - intros env. destruct (pysocks_probe_total MY env proxy) as [v Hv]. rewrite Hv.
    destruct v as [r|]; [|exact I].
    destruct (pysocks_probe_fields _ _ _ _ Hv) as (? & ? & _). auto.
  - intros env. destruct (connection_total MY env proxy) as [v Hv]. rewrite Hv. exact I.
  - intros env ip port user password Hp Hf.
    pose proof (tester_probe_cases MY env proxy) as H. rewrite Hp in H.
    destruct (Tester.requests_get env _ _ _) as [resp|e]; [|exact H].
    simpl in Hf. destruct (status_code resp =? 200) eqn:E; [|exact H].
    apply Z.eqb_eq in E. contradiction.
  - intros env ip port Hp Hf.
    pose proof (pysocks_probe_cases MY env proxy) as H. rewrite Hp in H.
    destruct (Scanner.requests_get env _ _ _) as [resp|e]; [|exact H].
    simpl in Hf. destruct (status_code resp =? 200) eqn:E; [|exact H].
    apply Z.eqb_eq in E. contradiction.
Qed.

(** A proxy that answers 503: no exception, no result. *)
Lemma C4_witness :
  Tester.test_socks5_proxy (PStr "9.9.9.9")
    (Sample.tester_env (Ok (Response 503 "" (Raise Sample.timeout)))) "1.2.3.4:1080:u:p"
  = Ok None.
Proof.
  refine (proj1 (proj2 (proj2 (proj2
            (C4_probe_total (PStr "9.9.9.9") "1.2.3.4:1080:u:p"))))
            (Sample.tester_env (Ok (Response 503 "" (Raise Sample.timeout))))
            "1.2.3.4" 1080 (PStr "u") (PStr "p") eq_refl _).
  simpl. lia.
Defined.

(* ===================================================================== *)
(** ** Parsing of candidates *)
(* ===================================================================== *)

Lemma append_lines_In lines line :
  In line (Tester.append_lines lines) <->
  (exists raw, In raw lines /\ strip raw = line) /\
  line <> "" /\ contains ":" line = true /\ startswith "#" line = false.
Proof.
  unfold Tester.append_lines, Tester.keep_line.
  rewrite filter_In, in_map_iff, !andb_true_iff, !negb_true_iff.
  assert (He : is_empty line = false <-> line <> "").
  { destruct line; simpl; split; congruence. }
  rewrite He. split.
  - intros ((raw & Hs & Hin) & (Hn & Hc) & Hh). eauto 10.
  - intros ((raw & Hin & Hs) & Hn & Hc & Hh). eauto 10.
Qed.

Lemma append_lines_app before after :
  Tester.append_lines (before ++ after) =
  (Tester.append_lines before ++ Tester.append_lines after)%list.
Proof.
  unfold Tester.append_lines. rewrite List.map_app. apply List.filter_app.
Qed.

Lemma parse_parts_token_count proxy :
  length (split ":" proxy) <> 2%nat -> length (split ":" proxy) <> 4%nat ->
  Tester.parse_parts proxy = None.
Proof.
  unfold Tester.parse_parts.
  destruct (split ":" proxy) as [|a [|b [|c [|d [|e l]]]]]; simpl; intros; congruence.
Qed.

Lemma parse_parts_bad_port proxy e :
  int (nth 1 (split ":" proxy) "") = Raise e ->
  Tester.parse_parts proxy = None.
Proof.
  unfold Tester.parse_parts.
  destruct (split ":" proxy) as [|a [|b [|c [|d [|x l]]]]]; simpl; intros H;
    try reflexivity; msimpl; rewrite H; reflexivity.
Qed.

Lemma parse_parts_none proxy :
  Tester.parse_parts proxy = None ->
  (length (split ":" proxy) <> 2%nat /\ length (split ":" proxy) <> 4%nat) \/
  (exists e, int (nth 1 (split ":" proxy) "") = Raise e).
Proof.
  unfold Tester.parse_parts.
  destruct (split ":" proxy) as [|a [|b [|c [|d [|x l]]]]]; simpl;
    try (intros _; left; split; discriminate);
    msimpl; destruct (int b) as [n|e]; try discriminate; intros _; right; eauto.
Qed.

Lemma tester_unparsed MY env proxy :
  Tester.parse_parts proxy = None -> Tester.test_socks5_proxy MY env proxy = Ok None.
Proof.
  intros H. pose proof (tester_probe_cases MY env proxy) as Hc.
  rewrite H in Hc. exact Hc.
Qed.

Lemma all_octets_true parts :
  Scanner.all_octets parts = Ok true ->
  Forall (fun p => exists k, int p = Ok k /\ 0 <= k <= 255) parts.
Proof.
  induction parts as [|p r IH]; simpl; intros H; [constructor|].
  msimpl. destruct (int p) as [k|e] eqn:Hk; [|discriminate].
  destruct ((0 <=? k) && (k <=? 255)) eqn:Hb; [|discriminate].
  apply andb_true_iff in Hb. destruct Hb as [H0 H1].
  apply Z.leb_le in H0, H1.
  constructor; [exists k; auto | apply IH, H].
Qed.

Lemma checked_valid m x :
  Scanner.checked m = Some x ->
  exists n,
    x = fst m ++ ":" ++ snd m /\ int (snd m) = Ok n /\ 1 <= n <= 65535 /\
    Forall (fun p => exists k, int p = Ok k /\ 0 <= k <= 255) (split "." (fst m)).
Proof.
  destruct m as [ip port]. unfold Scanner.checked. msimpl.
  destruct (int port) as [n|e]; [|discriminate].
  destruct ((1 <=? n) && (n <=? 65535)) eqn:Hb; [|discriminate].
  destruct (Scanner.all_octets (split "." ip)) as [[|]|e] eqn:Ho; try discriminate.
  intros H. injection H as <-.
  apply andb_true_iff in Hb. destruct Hb as [H0 H1]. apply Z.leb_le in H0, H1.
  exists n. repeat split; auto. apply all_octets_true, Ho.
Qed.

Lemma extract_valid text x :
  In x (Scanner.extract_proxies_from_text text) ->
  exists ip port n,
    x = ip ++ ":" ++ port /\ int port = Ok n /\ 1 <= n <= 65535 /\
    Forall (fun p => exists k, int p = Ok k /\ 0 <= k <= 255) (split "." ip).
Proof.
  unfold Scanner.extract_proxies_from_text. rewrite <- list_elem_of_In.
  intros H. apply list_elem_of_omap in H. destruct H as ([ip port] & _ & Hc).
  apply checked_valid in Hc. destruct Hc as (n & Hx). exists ip, port, n. exact Hx.
Qed.

(** C3, as stated, fails for the parser of the tester: a candidate with an
    octet above 255 or a port above 65535 is parsed like any other, and
    the batch of the specification yields three endpoints, not two. *)
Lemma C3_counterexample :
  Tester.parse_parts "999.1.1.1:80" = Some ("999.1.1.1", 80, PNone, PNone) /\
  Tester.parse_parts "1.2.3.4:70000" = Some ("1.2.3.4", 70000, PNone, PNone) /\
  Tester.load_proxies Tester.INPUT_URL (Sample.always (Raise Sample.timeout))
    (Some (Ok Sample.batch)) = Ok ["1.2.3.4:8080"; "999.1.1.1:80"; "5.6.7.8:1080"] /\
  length (omap Tester.parse_parts ["1.2.3.4:8080"; "999.1.1.1:80"; "5.6.7.8:1080"])
    = 3%nat.
Proof. vm_compute. repeat split. Qed.

(** C3 (amended).  [load_proxies] drops the lines that are blank, start
    with the comment marker or hold no colon, and keeps every other line of
    the batch; [test_socks5_proxy] returns [None] for a candidate whose
    split on the colon has a token count other than 2 or 4, or whose port
    is not an integer literal, and the collecting loop goes on with the
    list unchanged; the parser rejects no other candidate.  The ranges
    are checked where candidates are extracted from text: every string
    [extract_proxies_from_text] yields has a port in 1..65535 and octets
    in 0..255.  The text of the specification's batch yields two
    candidates there; the tester makes three endpoints of the batch. *)
Theorem C3_malformed_candidates :
  (forall lines line,
      In line (Tester.append_lines lines) <->
      (exists raw, In raw lines /\ strip raw = line) /\
      line <> "" /\ contains ":" line = true /\ startswith "#" line = false) /\
  (forall before after,
      Tester.append_lines (before ++ after) =
      (Tester.append_lines before ++ Tester.append_lines after)%list) /\
  (forall MY env proxy working,
      (length (split ":" proxy) <> 2%nat /\ length (split ":" proxy) <> 4%nat) \/
      (exists e, int (nth 1 (split ":" proxy) "") = Raise e) ->
      Tester.parse_parts proxy = None /\
      Tester.test_socks5_proxy MY env proxy = Ok None /\
      Tester.collect working (Tester.test_socks5_proxy MY env proxy) = Ok working) /\
  (forall proxy,
      Tester.parse_parts proxy = None ->
      (length (split ":" proxy) <> 2%nat /\ length (split ":" proxy) <> 4%nat) \/
      (exists e, int (nth 1 (split ":" proxy) "") = Raise e)) /\
  (forall text x,
      In x (Scanner.extract_proxies_from_text text) ->
      exists ip port n,
        x = ip ++ ":" ++ port /\ int port = Ok n /\ 1 <= n <= 65535 /\
        Forall (fun p => exists k, int p = Ok k /\ 0 <= k <= 255) (split "." ip)) /\
  Scanner.extract_proxies_from_text Sample.batch_text = ["1.2.3.4:8080"; "5.6.7.8:1080"] /\
  omap Tester.parse_parts (Tester.append_lines Sample.batch) =
    [("1.2.3.4", 8080, PNone, PNone); ("999.1.1.1", 80, PNone, PNone);
     ("5.6.7.8", 1080, PNone, PNone)].
Proof.
  split; [exact append_lines_In|].
  split; [exact append_lines_app|].
  split; [|split; [exact parse_parts_none|
                   split; [exact extract_valid|split; vm_compute; reflexivity]]].
  intros MY env proxy working H.
  assert (Hp : Tester.parse_parts proxy = None).
  { destruct H as [[H2 H4]|[e He]].
    - apply parse_parts_token_count; assumption.
    - apply (parse_parts_bad_port _ e He). }
  split; [exact Hp|]. rewrite (tester_unparsed MY env proxy Hp).
  split; reflexivity.
Qed.

(** The line "bad" of the batch; a candidate of three tokens; a port that
    is not a number; and a port behind the separator U+001C, which
    [str.strip] would drop and [int] does not accept. *)
Lemma C3_witness :
  (In "5.6.7.8:1080" (Tester.append_lines Sample.batch) /\
   ~ In "bad" (Tester.append_lines Sample.batch)) /\
  Tester.parse_parts "1.2.3.4:80:user" = None /\
  Tester.test_socks5_proxy PNone (Sample.tester_env (Ok (Sample.echo "1.1.1.1")))
    "1.2.3.4:http" = Ok None /\
  Tester.test_socks5_proxy PNone (Sample.tester_env (Ok (Sample.echo "1.1.1.1")))
    ("1.2.3.4:" ++ String "028" "80") = Ok None.
Proof.
  pose proof C3_malformed_candidates as (Hin & _ & Hbad & _).
  split; [split|split; [|split]].
  - apply (proj2 (Hin Sample.batch "5.6.7.8:1080")).
    split; [exists "5.6.7.8:1080"; split; [simpl; tauto | reflexivity]|].
    split; [discriminate | split; reflexivity].
  - intros H. apply (proj1 (Hin Sample.batch "bad")) in H.
    destruct H as (_ & _ & H & _). vm_compute in H. discriminate.
  - apply (Hbad PNone (Sample.tester_env (Ok (Sample.echo "1.1.1.1")))
             "1.2.3.4:80:user" []).
    left. simpl. lia.
  - apply (Hbad PNone (Sample.tester_env (Ok (Sample.echo "1.1.1.1")))
             "1.2.3.4:http" []).
    right. eexists. vm_compute. reflexivity.
  - apply (Hbad PNone (Sample.tester_env (Ok (Sample.echo "1.1.1.1")))
             ("1.2.3.4:" ++ String "028" "80") []).
    right. eexists. vm_compute. reflexivity.
Defined.

(* ===================================================================== *)
(** ** Ranking *)
(* ===================================================================== *)

(** The stable sort on integer keys: it does not raise, permutes its input,
    orders it by key, and keeps elements with the same key in their order. *)
Section SortFacts.
Context {A : Type} (key : A -> pyval) (k : A -> Z).

Let int_key (x : A) : Prop := key x = PInt (k x).
Let le (a b : A) : Prop := k a <= k b.
Let same (n : Z) (x : A) : bool := k x =? n.

Lemma insert_by_key_int x l :
  int_key x -> Forall int_key l ->
  exists out,
    insert_by_key key x l = Ok out /\
    Permutation (x :: l) out /\
    (forall n, List.filter (same n) out = List.filter (same n) (x :: l)) /\
    (StronglySorted le l -> StronglySorted le out).
Proof.
  intros Hx. induction l as [|y r IH]; intros Hl.
  - exists [x]. repeat split; auto. intros _. repeat constructor.
  - inversion Hl as [|? ? Hy Hr]; subst.
    simpl. unfold int_key in Hx, Hy. rewrite Hx, Hy. msimpl.
    destruct (k y <? k x) eqn:E.
    + destruct (IH Hr) as (out & Ho & Hp & Hf & Hs). rewrite Ho.
      exists (y :: out). split; [reflexivity|]. split; [|split].
      * rewrite perm_swap. constructor. exact Hp.
      * intros n. simpl. rewrite Hf. simpl. unfold same.
        apply Z.ltb_lt in E.
        destruct (k y =? n) eqn:E1, (k x =? n) eqn:E2; try reflexivity.
        apply Z.eqb_eq in E1, E2. lia.
      * intros Hss. inversion Hss as [|? ? Hsr Hfy]; subst.
        constructor; [apply Hs, Hsr|].
        apply (Permutation_Forall Hp). constructor; [|exact Hfy].
        apply Z.ltb_lt in E. unfold le. lia.
    + exists (x :: y :: r). split; [reflexivity|]. split; [reflexivity|].
      split; [reflexivity|].
      intros Hss. constructor; [exact Hss|].
      apply Z.ltb_ge in E.
      inversion Hss as [|? ? Hsr Hfy]; subst.
      constructor; [exact E|].
      eapply Forall_impl; [exact Hfy|]. unfold le. simpl. intros; lia.
Qed.

Lemma sort_by_key_int l :
  Forall int_key l ->
  exists out,
    sort_by_key key l = Ok out /\
    Permutation l out /\
    (forall n, List.filter (same n) out = List.filter (same n) l) /\
    StronglySorted le out.
Proof.
  induction l as [|x r IH]; intros Hl.
  - exists []. repeat split; auto. constructor.
  - inversion Hl as [|? ? Hx Hr]; subst.
    destruct (IH Hr) as (r' & Ho & Hp & Hf & Hs).
    destruct (insert_by_key_int x r' Hx (Permutation_Forall Hp Hr))
      as (out & Hi & Hpi & Hfi & Hsi).
    exists out. simpl. rewrite Ho. msimpl. rewrite Hi.
    split; [reflexivity|]. split; [|split].
    + rewrite <- Hpi. constructor. exact Hp.
    + intros n. rewrite Hfi. simpl. rewrite Hf. reflexivity.
    + apply Hsi, Hs.
Qed.
End SortFacts.

(** C5, as stated, fails.  Two proxies with the same latency come out in
    the order in which their probes completed, whatever their hosts: the
    same input gives two different rankings, and one of them is not in
    (host, port) order.  A result without the key ['latency'] is ranked
    as 9999 ms, in front of a result with a latency of 12000 ms. *)
Lemma C5_counterexample :
  let run order :=
    Tester.main [] Sample.offline (Some (Ok ["2.2.2.2:1080"; "1.1.1.1:1080"]))
      Sample.even_world order in
  listing host (run [0; 1]%nat) = Some ["2.2.2.2"; "1.1.1.1"] /\
  listing key_ms (run [0; 1]%nat) = Some [250; 250] /\
  match run [0; 1]%nat with Ok l => ranked l | Raise _ => true end = false /\
  listing host (run [1; 0]%nat) = Some ["1.1.1.1"; "2.2.2.2"] /\
  listing (fun d => d !! "latency") (Tester.save_results [Sample.slow; Sample.no_latency])
  = Some [None; Some (PInt 12000)].
Proof. vm_compute. repeat split. Qed.

(** C5 (amended).  When every result has an integer latency, [save_results]
    does not raise and leaves the list sorted ascending by latency; the
    sort is stable, so results with equal latency keep the order in which
    they were appended, which is the order in which their probes completed.
    No (host, port) order is applied. *)
Theorem C5_sorted_by_latency (working : list dict) :
  Forall (fun x => exists n, x !! "latency" = Some (PInt n)) working ->
  exists out,
    Tester.save_results working = Ok out /\
    Scanner.save_results working = Ok out /\
    Permutation working out /\
    StronglySorted by_latency out /\
    (forall n, List.filter (fun x => key_ms x =? n) out =
               List.filter (fun x => key_ms x =? n) working) /\
    Forall (fun x => x !! "latency" = Some (PInt (key_ms x))) out.
Proof.
  intros Hk.
  assert (Hl : Forall (fun x => x !! "latency" = Some (PInt (key_ms x))) working).
  { eapply Forall_impl; [exact Hk|]. simpl. intros x [n Hn].
    unfold key_ms, Tester.latency_key, dict_get. rewrite Hn. reflexivity. }
  assert (Hk' : Forall (fun x => Tester.latency_key x = PInt (key_ms x)) working).
  { eapply Forall_impl; [exact Hl|]. simpl. intros x Hx.
    unfold Tester.latency_key, dict_get at 1. rewrite Hx. reflexivity. }
  destruct (sort_by_key_int Tester.latency_key key_ms working Hk')
    as (out & Ho & Hp & Hf & Hs).
  exists out. split; [|split; [|split; [|split; [|split]]]].
  - unfold Tester.save_results. destruct working; [|exact Ho].
    simpl in Ho. congruence.
  - exact Ho.
  - exact Hp.
  - exact Hs.
  - exact Hf.
  - exact (Permutation_Forall Hp Hl).
Qed.

(** Two results of 100 ms behind one of 12000 ms: the slow one goes last,
    the other two keep their order. *)
Lemma C5_witness :
  exists out,
    Tester.save_results [Sample.slow; Sample.fast; Sample.as_fast] = Ok out /\
    StronglySorted by_latency out /\
    List.map (fun d => d !! "proxy") out =
      [Some (PStr "3.3.3.3:1080"); Some (PStr "0.0.0.1:1080"); Some (PStr "2.2.2.2:1080")].
Proof.
  destruct (C5_sorted_by_latency [Sample.slow; Sample.fast; Sample.as_fast])
    as (out & Ho & _ & _ & Hs & _).
  - repeat constructor; eexists; vm_compute; reflexivity.
  - exists out. split; [exact Ho|]. split; [exact Hs|].
    assert (H : listing (fun d => d !! "proxy")
                  (Tester.save_results [Sample.slow; Sample.fast; Sample.as_fast])
                = Some [Some (PStr "3.3.3.3:1080"); Some (PStr "0.0.0.1:1080");
                        Some (PStr "2.2.2.2:1080")])
      by (vm_compute; reflexivity).
    rewrite Ho in H. simpl in H. injection H as H. exact H.
Defined.

(* ===================================================================== *)
(** ** The list of working proxies *)
(* ===================================================================== *)

(** [as_completed] yields every index below [n] once, and nothing else;
    a sequence that is a permutation of the indices is yielded as it is. *)
Lemma completions_spec n order :
  forall done,
    List.NoDup (completions n order done) /\
    forall i, In i (completions n order done) <->
              (i < n)%nat /\ ~ In i done.
Proof.
  assert (Hex : forall i done, existsb (Nat.eqb i) done = true <-> In i done).
  { intros i done. rewrite existsb_exists. split.
    - intros (x & Hx & He). apply Nat.eqb_eq in He. subst. exact Hx.
    - intros Hi. exists i. split; [exact Hi | apply Nat.eqb_refl]. }
  induction order as [|j rest IH]; intros done; cbn [completions].
  - split; [apply List.NoDup_filter, List.seq_NoDup|].
    intros i. rewrite filter_In, in_seq, negb_true_iff, <- not_true_iff_false, Hex.
    intuition lia.
  - destruct ((j <? n)%nat && negb (existsb (Nat.eqb j) done)) eqn:E.
    + apply andb_true_iff in E. destruct E as [Hj Hd].
      apply Nat.ltb_lt in Hj.
      apply negb_true_iff, not_true_iff_false in Hd. rewrite Hex in Hd.
      destruct (IH (j :: done)) as [Hn Hi]. split.
      * constructor; [|exact Hn]. rewrite Hi. simpl. tauto.
      * intros i. simpl. rewrite Hi. simpl.
        destruct (Nat.eq_dec j i) as [->|Hne]; [tauto|]. tauto.
    + apply IH.
Qed.

Lemma as_completed_In n order i : In i (as_completed n order) <-> (i < n)%nat.
Proof.
  unfold as_completed. rewrite (proj2 (completions_spec n order [])). simpl. tauto.
Qed.

Lemma as_completed_perm n order : Permutation (as_completed n order) (seq 0 n).
Proof.
  apply Permutation.NoDup_Permutation.
  - exact (proj1 (completions_spec n order [])).
  - apply List.seq_NoDup.
  - intros i. rewrite as_completed_In, in_seq. lia.
Qed.

Lemma completions_given n order :
  forall done,
    List.NoDup order -> (forall i, In i order -> (i < n)%nat /\ ~ In i done) ->
    completions n order done =
    (order ++ completions n [] (rev order ++ done))%list.
Proof.
  induction order as [|j rest IH]; intros done Hn Hi; [reflexivity|].
  cbn [completions]. inversion Hn as [|? ? Hj Hrest]; subst.
  destruct (Hi j (or_introl eq_refl)) as [Hlt Hnd].
  assert (E : (j <? n)%nat && negb (existsb (Nat.eqb j) done) = true).
  { apply andb_true_iff. split; [apply Nat.ltb_lt, Hlt|].
    apply negb_true_iff, not_true_iff_false. rewrite existsb_exists.
    intros (x & Hx & He). apply Nat.eqb_eq in He. subst. contradiction. }
  change (completions n (j :: rest) done) with
    (if (j <? n)%nat && negb (existsb (Nat.eqb j) done)
     then j :: completions n rest (j :: done) else completions n rest done).
  rewrite E, IH; [|exact Hrest|].
  - cbn [rev app]. rewrite <- !app_assoc. reflexivity.
  - intros i Hin. destruct (Hi i (or_intror Hin)) as [Hl Hd].
    split; [exact Hl|]. simpl. intros [->|H]; [contradiction | contradiction].
Qed.

Lemma filter_none {A} (f : A -> bool) l :
  Forall (fun x => f x = false) l -> List.filter f l = [].
Proof.
  induction 1 as [|x l Hx _ IH]; [reflexivity|]. simpl. rewrite Hx. exact IH.
Qed.

Lemma as_completed_id n order :
  Permutation order (seq 0 n) -> as_completed n order = order.
Proof.
  intros Hp. unfold as_completed.
  assert (Hn : List.NoDup order)
    by (apply (Permutation_NoDup (Permutation_sym Hp)), List.seq_NoDup).
  rewrite completions_given; [|exact Hn|].
  - rewrite app_nil_r. cbn [completions].
    rewrite filter_none; [apply app_nil_r|].
    apply Forall_forall. intros i Hi. apply list_elem_of_In in Hi.
    apply negb_false_iff, existsb_exists.
    exists i. split; [|apply Nat.eqb_refl].
    apply in_rev. rewrite rev_involutive.
    apply (Permutation_in _ (Permutation_sym Hp) Hi).
  - intros i Hi. split; [|auto].
    apply (Permutation_in _ Hp), in_seq in Hi. lia.
Qed.

Lemma scanner_drain_eq : Scanner.drain = Tester.drain.
Proof. reflexivity. Qed.

Lemma dict_truthy_lookup (d : dict) k v : d !! k = Some v -> dict_truthy d = true.
Proof.
  intros H. unfold dict_truthy. rewrite bool_decide_eq_false_2; [reflexivity|].
  intros ->. rewrite lookup_empty in H. discriminate.
Qed.

(** What the loop body does with one completed future. *)
Lemma collect_cases working future :
  match future with
  | Raise e => Tester.collect working future = Raise e
  | Ok None => Tester.collect working future = Ok working
  | Ok (Some d) =>
      match d !! "working" with
      | Some w =>
          Tester.collect working future =
          Ok (if truthy w then (working ++ [d])%list else working)
      | None =>
          dict_truthy d = false -> Tester.collect working future = Ok working
      end
  end.
Proof.
  unfold Tester.collect, dict_item. msimpl.
  destruct future as [[d|]|e]; try reflexivity.
  destruct (d !! "working") as [w|] eqn:Hw.
  - rewrite (dict_truthy_lookup d _ _ Hw). destruct (truthy w); reflexivity.
  - intros ->. reflexivity.
Qed.

(** Every entry of the list comes from the initial list or from a future
    that returned it. *)
Lemma drain_source futures order :
  forall w0 out,
    Tester.drain futures order w0 = Ok out ->
    forall d, In d out ->
      In d w0 \/ exists i, In i order /\ futures !! i = Some (Ok (Some d)).
Proof.
  induction order as [|i rest IH]; simpl; intros w0 out H d Hd.
  - injection H as <-. auto.
  - destruct (futures !! i) as [f|] eqn:Hf.
    + msimpl. destruct (Tester.collect w0 f) as [w1|e] eqn:Hc; [|discriminate].
      destruct (IH _ _ H d Hd) as [Hin|(j & Hj & Hl)]; [|eauto].
      pose proof (collect_cases w0 f) as Hcc.
      destruct f as [[d'|]|e]; cbv beta iota in Hcc.
      * destruct (d' !! "working") as [w|] eqn:Hw.
        -- rewrite Hcc in Hc. inversion Hc; subst; clear Hc.
           destruct (truthy w); auto.
           apply in_app_or in Hin. destruct Hin as [Hin|[<-|[]]]; eauto.
        -- destruct (dict_truthy d') eqn:Ht.
           ++ revert Hc. unfold Tester.collect, dict_item. msimpl.
              rewrite Ht, Hw. discriminate.
           ++ rewrite (Hcc eq_refl) in Hc. inversion Hc; subst; auto.
      * rewrite Hcc in Hc. inversion Hc; subst; auto.
      * rewrite Hcc in Hc. discriminate.
    + destruct (IH _ _ H d Hd) as [Hin|(j & Hj & Hl)]; eauto.
Qed.


Lemma drain_keeps futures order :
  forall w0 out d,
    Tester.drain futures order w0 = Ok out -> In d w0 -> In d out.
Proof.
  induction order as [|i rest IH]; simpl; intros w0 out d H Hd.
  - injection H as <-. exact Hd.
  - destruct (futures !! i) as [f|]; [|eauto].
    msimpl. destruct (Tester.collect w0 f) as [w1|e] eqn:Hc; [|discriminate].
    apply (IH _ _ _ H).
    revert Hc. unfold Tester.collect, dict_item. msimpl.
    cases; intros Hc; inversion Hc; subst; auto.
    apply in_or_app. auto.
Qed.

(** A future that completed with a working result is in the list. *)
Lemma drain_complete futures order :
  forall w0 out i d,
    Tester.drain futures order w0 = Ok out ->
    In i order -> futures !! i = Some (Ok (Some d)) ->
    d !! "working" = Some (PBool true) ->
    In d out.
Proof.
  induction order as [|j rest IH]; simpl; intros w0 out i d H Hi Hf Hw; [contradiction|].
  destruct Hi as [->|Hi].
  - rewrite Hf in H. pose proof (collect_cases w0 (Ok (Some d))) as Hc.
    cbv beta iota in Hc. rewrite Hw in Hc.
    unfold mbind, res_bind, bind in H. rewrite Hc in H. simpl in H.
    apply (drain_keeps _ _ _ _ _ H). apply in_or_app. simpl. auto.
  - destruct (futures !! j) as [f|]; [|eauto].
    msimpl. destruct (Tester.collect w0 f) as [w1|e]; [|discriminate]. eauto.
Qed.

Lemma tester_success MY env proxy r :
  Tester.test_socks5_proxy MY env proxy = Ok (Some r) -> success_record r.
Proof.
  intros H. destruct (tester_probe_fields _ _ _ _ H) as (Hw & Hl & _).
  split; [exact Hw|]. exists (Tester.elapsed_ms env). split; [exact Hl|].
  unfold Tester.latency_key, dict_get. rewrite Hl. reflexivity.
Qed.

Lemma pysocks_success MY env proxy r :
  Scanner.test_socks5_with_pysocks MY env proxy = Ok (Some r) -> success_record r.
Proof.
  intros H. destruct (pysocks_probe_fields _ _ _ _ H) as (Hw & Hl & _).
  split; [exact Hw|]. exists (Scanner.elapsed_ms env). split; [exact Hl|].
  unfold Tester.latency_key, dict_get. rewrite Hl. reflexivity.
Qed.

Lemma tester_submit_lookup MY world proxies i f :
  Tester.submit_all MY world proxies !! i = Some f ->
  exists p, proxies !! i = Some p /\ f = Tester.test_socks5_proxy MY (world i) p.
Proof. unfold Tester.submit_all. intros H. apply list_lookup_imap_Some in H. exact H. Qed.

Lemma scanner_submit_lookup MY world proxies i f :
  Scanner.submit_all MY world proxies !! i = Some f ->
  exists p, proxies !! i = Some p /\ f = Scanner.test_socks5_with_pysocks MY (world i) p.
Proof. unfold Scanner.submit_all. intros H. apply list_lookup_imap_Some in H. exact H. Qed.

Lemma tester_drain_success MY world order proxies working :
  Tester.drain (Tester.submit_all MY world proxies) order [] = Ok working ->
  Forall success_record working.
Proof.
  intros H. apply Forall_forall. intros d Hd. apply list_elem_of_In in Hd.
  destruct (drain_source _ _ _ _ H d Hd) as [[]|(i & _ & Hf)].
  apply tester_submit_lookup in Hf. destruct Hf as (p & _ & Hf).
  symmetry in Hf. exact (tester_success _ _ _ _ Hf).
Qed.

Lemma tester_test_all_inv MY world order proxies working :
  Tester.test_all_proxies MY world order proxies = Ok working ->
  Tester.drain (Tester.submit_all MY world proxies)
    (as_completed (length proxies) order) [] = Ok working.
Proof.
  unfold Tester.test_all_proxies, mbind, res_bind, bind.
  destruct (Tester.drain _ _ _) as [w|e]; [|discriminate].
  destruct (Nat.eqb _ _); [discriminate|]. exact id.
Qed.

Lemma scanner_drain_success MY world order proxies working :
  Scanner.test_all_proxies MY world order proxies = Ok working ->
  Forall success_record working.
Proof.
  unfold Scanner.test_all_proxies. rewrite scanner_drain_eq.
  intros H. apply Forall_forall. intros d Hd. apply list_elem_of_In in Hd.
  destruct (drain_source _ _ _ _ H d Hd) as [[]|(i & _ & Hf)].
  apply scanner_submit_lookup in Hf. destruct Hf as (p & _ & Hf).
  symmetry in Hf. exact (pysocks_success _ _ _ _ Hf).
Qed.

Lemma success_int_key working :
  Forall success_record working ->
  Forall (fun x => Tester.latency_key x = PInt (key_ms x)) working.
Proof.
  intros H. eapply Forall_impl; [exact H|]. simpl.
  intros x (_ & n & _ & Hk). unfold key_ms. rewrite Hk. reflexivity.
Qed.

(** Sorting a list of live results does not raise and keeps them. *)
Lemma sort_success working :
  Forall success_record working ->
  exists ranked,
    sort_by_key Tester.latency_key working = Ok ranked /\
    Permutation working ranked /\ Forall success_record ranked.
Proof.
  intros H.
  destruct (sort_by_key_int Tester.latency_key key_ms working (success_int_key _ H))
    as (out & Ho & Hp & _).
  exists out. split; [exact Ho|]. split; [exact Hp|].
  exact (Permutation_Forall Hp H).
Qed.

Lemma tester_save_results_sort working :
  Tester.save_results working = sort_by_key Tester.latency_key working.
Proof. destruct working; reflexivity. Qed.

Lemma enrich_one_success net proxy proxy' :
  Scanner.enrich_one net proxy = Ok proxy' ->
  success_record proxy -> success_record proxy'.
Proof.
  unfold Scanner.enrich_one. msimpl.
  destruct (if truthy _ then _ else _) as [ip|e]; [|discriminate].
  destruct (py_split ip ",") as [pieces|e]; [|discriminate].
  intros H. injection H as <-.
  unfold success_record, Tester.latency_key, dict_get.
  intros (Hw & n & Hl & Hk). simplify_map_eq. eauto.
Qed.

Lemma enrich_from_success geo :
  forall l i l',
    Scanner.enrich_from geo i l = Ok l' ->
    Forall success_record l -> Forall success_record l'.
Proof.
  induction l as [|x r IH]; simpl; intros i l' H Hl.
  - injection H as <-. constructor.
  - unfold mbind, res_bind, bind in H.
    destruct (Scanner.enrich_one (geo i) x) as [x'|e] eqn:Hx; [|discriminate].
    destruct (Scanner.enrich_from geo (S i) r) as [r'|e] eqn:Hr; [|discriminate].
    injection H as <-. inversion Hl; subst.
    constructor; eauto using enrich_one_success.
Qed.

(** C10.  Every element appended to the list of working proxies, by either
    script and for any completion order, has [working] equal to [True] and
    an integer latency, which is its sort key: the default 9999 of the sort
    key is not used for it.  The same holds for every entry of the list the
    main programs end with. *)
Theorem C10_working_results :
  (forall MY world order proxies working,
      Tester.test_all_proxies MY world order proxies = Ok working ->
      Forall success_record working) /\
  (forall MY world order proxies working,
      Scanner.test_all_proxies MY world order proxies = Ok working ->
      Forall success_record working) /\
  (forall argv net file world order ranked,
      Tester.main argv net file world order = Ok ranked ->
      Forall success_record ranked) /\
  (forall container_repr net world order geo ranked,
      Scanner.main container_repr net world order geo = Ok ranked ->
      Forall success_record ranked).
Proof.
  split; [|split; [|split]].
  - intros MY world order proxies working H.
    apply tester_test_all_inv in H. exact (tester_drain_success _ _ _ _ _ H).
  - exact scanner_drain_success.
  - intros argv net file world order ranked. unfold Tester.main.
    destruct (Tester.wants_help argv); [intros H; injection H as <-; constructor|].
    unfold mbind, res_bind, bind.
    destruct (Tester.load_proxies _ _ _) as [[|p ps]|e];
      [intros H; injection H as <-; constructor| |discriminate].
    destruct (Tester.test_all_proxies _ _ _ _) as [working|e] eqn:Hw; [|discriminate].
    apply tester_test_all_inv, tester_drain_success in Hw.
    rewrite tester_save_results_sort.
    destruct (sort_success working Hw) as (out & Ho & _ & Hs).
    rewrite Ho. intros H. injection H as <-. exact Hs.
  - intros container_repr net world order geo ranked. unfold Scanner.main.
    destruct (Scanner.collect_from_sources _ _) as [|p ps];
      [intros H; injection H as <-; constructor|].
    unfold mbind, res_bind, bind.
    destruct (Scanner.test_all_proxies _ _ _ _) as [working|e] eqn:Hw; [|discriminate].
    apply scanner_drain_success in Hw.
    destruct working as [|w ws]; [intros H; injection H as <-; constructor|].
    destruct (Scanner.enrich_with_country geo (w :: ws)) as [enriched|e] eqn:He;
      [|discriminate].
    apply enrich_from_success in He; [|exact Hw].
    unfold Scanner.save_results.
    destruct (sort_success enriched He) as (out & Ho & _ & Hs).
    change Scanner.latency_key with Tester.latency_key.
    rewrite Ho. intros H. injection H as <-. exact Hs.
Qed.

(** A run of the tester over the specification's batch: one probe is
    refused by the network, two succeed. *)
Lemma C10_witness :
  let world i := Sample.tester_env
                   (match i with
                    | 1%nat => Raise Sample.timeout
                    | _ => Ok (Sample.echo "1.1.1.1")
                    end) in
  exists ranked,
    Tester.main [] Sample.offline (Some (Ok Sample.batch)) world [2; 0; 1]%nat = Ok ranked /\
    length ranked = 2%nat /\
    Forall success_record ranked.
Proof.
  intros world.
  set (run := Tester.main [] Sample.offline (Some (Ok Sample.batch)) world [2; 0; 1]%nat).
  assert (E : run = Ok (final_list run)).
  { apply (listing_final (fun _ => tt) run [tt; tt]). vm_compute. reflexivity. }
  exists (final_list run). split; [exact E|]. split.
  - vm_compute. reflexivity.
  - exact (proj1 (proj2 (proj2 C10_working_results)) _ _ _ _ _ _ E).
Defined.

(* ===================================================================== *)
(** ** Deduplication *)
(* ===================================================================== *)

(** C6, as stated, fails for the tester: [load_proxies] keeps every line,
    so the specification's input gives three candidates and three probes,
    two of them for the same endpoint, and the run ends with that endpoint
    listed twice. *)
Lemma C6_counterexample :
  let proxies := ["1.1.1.1:1080"; "1.1.1.1:1080"; "1.1.1.1:1080:u:p"] in
  Tester.load_proxies Tester.INPUT_URL Sample.offline (Some (Ok Sample.duplicates))
  = Ok proxies /\
  length (Tester.submit_all PNone Sample.even_world proxies) = 3%nat /\
  omap Tester.parse_parts proxies =
    [("1.1.1.1", 1080, PNone, PNone); ("1.1.1.1", 1080, PNone, PNone);
     ("1.1.1.1", 1080, PStr "u", PStr "p")] /\
  listing (fun d => d !! "proxy")
    (Tester.main [] Sample.offline (Some (Ok Sample.duplicates)) Sample.even_world
       [0; 1; 2]%nat)
  = Some [Some (PStr "1.1.1.1:1080"); Some (PStr "1.1.1.1:1080");
          Some (PStr "1.1.1.1:1080:u:p")].
Proof. vm_compute. repeat split. Qed.

(** C6 (amended).  The scanner gathers its candidates in a set of strings,
    so no string is handed to the probes twice and there is one probe per
    distinct string: the specification's three candidates, served as a
    JSON list, give two.  The identity is the string, not the parsed
    (host, port): two spellings of one endpoint are two candidates.  The
    tester does not deduplicate: it probes every line [load_proxies]
    keeps. *)
Theorem C6_deduplication :
  (forall container_repr net, NoDup (Scanner.collect_from_sources container_repr net)) /\
  (forall container_repr net MY world,
      length (Scanner.submit_all MY world
                (Scanner.collect_from_sources container_repr net))
      = size (Scanner.collected container_repr net)) /\
  (forall net lines MY world,
      exists proxies,
        Tester.load_proxies Tester.INPUT_URL net (Some (Ok lines)) = Ok proxies /\
        length (Tester.submit_all MY world proxies)
        = length (List.filter Tester.keep_line (List.map strip lines))) /\
  Permutation
    (Scanner.collect_from_sources Sample.no_repr
       (Sample.always (Ok Sample.duplicates_json)))
    ["1.1.1.1:1080"; "1.1.1.1:1080:u:p"] /\
  (let found := Scanner.collect_from_sources Sample.no_repr
                  (Sample.always (Ok Sample.two_spellings)) in
   Permutation found ["1.1.1.1:1080"; "1.1.1.1:01080"] /\
   Permutation (omap Scanner.parse_pair found) [("1.1.1.1", 1080); ("1.1.1.1", 1080)]).
Proof.
  split; [|split; [|split; [|split]]].
  - intros. unfold Scanner.collect_from_sources. apply NoDup_elements.
  - intros. unfold Scanner.submit_all, Scanner.collect_from_sources.
    rewrite length_imap. reflexivity.
  - intros. eexists. split; [reflexivity|].
    unfold Tester.submit_all. rewrite length_imap. reflexivity.
  - vm_compute. first [reflexivity | apply perm_swap].
  - vm_compute. split; first [reflexivity | apply perm_swap].
Qed.

(* ===================================================================== *)
(** ** The reference IP *)
(* ===================================================================== *)















(* ===================================================================== *)
(** ** Auxiliary facts *)
(* ===================================================================== *)

(** *** Strings *)

Lemma append_nil b : "" ++ b = b.
Proof. reflexivity. Qed.

Lemma append_cons c a b : String c a ++ b = String c (a ++ b).
Proof. reflexivity. Qed.

Ltac sapp := rewrite ?append_cons, ?append_nil in *.

Lemma app_length_str a b : String.length (a ++ b) = (String.length a + String.length b)%nat.
Proof. induction a; simpl; auto. Qed.

Lemma take_str_app a b : take_str (String.length a) (a ++ b) = a.
Proof. induction a; simpl; [destruct b; reflexivity | congruence]. Qed.

Lemma drop_str_app a b : Scanner.drop_str (String.length a) (a ++ b) = b.
Proof. induction a; simpl; [destruct b; reflexivity | assumption]. Qed.

Lemma drop_str_app_cons a c b :
  Scanner.drop_str (S (String.length a)) (a ++ String c b) = b.
Proof. induction a; sapp; simpl; [reflexivity | assumption]. Qed.

Lemma take_drop_str n s : take_str n s ++ Scanner.drop_str n s = s.
Proof.
  revert s. induction n; intros [|c r]; simpl; sapp; try reflexivity.
  f_equal. apply IHn.
Qed.

Lemma app_assoc_str a b c : (a ++ b) ++ c = a ++ (b ++ c).
Proof. induction a; sapp; congruence. Qed.

Lemma all_chars_app P a b : all_chars P (a ++ b) = all_chars P a && all_chars P b.
Proof. induction a; sapp; simpl; [reflexivity|]. rewrite IHa. apply andb_assoc. Qed.

Lemma startswith_app p s : startswith p (p ++ s) = true.
Proof.
  induction p; sapp; simpl; [reflexivity|].
  rewrite Ascii.eqb_refl. assumption.
Qed.

Lemma contains_suffix p c s : contains p s = true -> contains p (String c s) = true.
Proof. intros H. simpl. rewrite H. apply orb_true_r. Qed.

Lemma contains_startswith p s : startswith p s = true -> contains p s = true.
Proof. intros H. destruct s; simpl; rewrite H; reflexivity. Qed.

Lemma contains_middle a p b : contains p (a ++ p ++ b) = true.
Proof.
  induction a; sapp; simpl.
  - apply contains_startswith, startswith_app.
  - rewrite IHa. apply orb_true_r.
Qed.

(** Splitting at a separator that the first piece does not hold. *)
Lemma split_no_sep sep a :
  all_chars (fun c => negb (Ascii.eqb c sep)) a = true -> split sep a = [a].
Proof.
  induction a as [|c r IH]; simpl; [reflexivity|].
  intros H. apply andb_true_iff in H. destruct H as [Hc Hr].
  apply negb_true_iff in Hc. rewrite Hc, (IH Hr). reflexivity.
Qed.

Lemma split_app_sep sep a b :
  all_chars (fun c => negb (Ascii.eqb c sep)) a = true ->
  split sep (a ++ String sep b) = a :: split sep b.
Proof.
  induction a as [|c r IH]; sapp; simpl.
  - intros _. rewrite Ascii.eqb_refl. reflexivity.
  - intros H. apply andb_true_iff in H. destruct H as [Hc Hr].
    apply negb_true_iff in Hc. rewrite Hc, (IH Hr). reflexivity.
Qed.

Lemma all_chars_impl (P Q : ascii -> bool) s :
  (forall c, P c = true -> Q c = true) -> all_chars P s = true -> all_chars Q s = true.
Proof.
  intros H. induction s; simpl; [auto|].
  intros Hs. apply andb_true_iff in Hs. destruct Hs as [Hc Hr].
  rewrite (H _ Hc), (IHs Hr). reflexivity.
Qed.

(** *** The matcher *)

Lemma run_length_accepted P limit s n :
  (n <= Scanner.run_length P limit s)%nat -> accepted P n s /\ (n <= limit)%nat.
Proof.
  unfold accepted.
  revert s n. induction limit as [|k IH]; intros s n; simpl.
  - intros H. assert (n = 0%nat) by lia. subst. simpl. repeat split; lia.
  - destruct s as [|c r]; simpl.
    + intros H. assert (n = 0%nat) by lia. subst. simpl. repeat split; lia.
    + destruct (P c) eqn:Hc.
      * destruct n as [|n]; simpl; intros H.
        -- repeat split; lia.
        -- destruct (IH r n ltac:(lia)) as [[Hl Ha] Hk].
           rewrite Hc, Ha. repeat split; lia.
      * intros H. assert (n = 0%nat) by lia. subst. simpl. repeat split; lia.
Qed.

Lemma match_here_conforms atoms :
  forall s ls, Scanner.match_here atoms s = Some ls -> conforms atoms ls s.
Proof.
  induction atoms as [|a rest IH]; intros s ls; simpl.
  - intros H. injection H as <-. exact I.
  - generalize (Nat.le_refl (Scanner.run_length (Scanner.accepts a) (Scanner.at_most a) s)).
    generalize (Scanner.run_length (Scanner.accepts a) (Scanner.at_most a) s) at 1 3 as n.
    induction n as [|n IHn]; intros Hn.
    + destruct (Scanner.at_least a <=? 0)%nat eqn:E;
        [destruct (Scanner.match_here rest (Scanner.drop_str 0 s)) as [l|] eqn:Hm|];
        try discriminate.
      intros H. injection H as <-.
      apply Nat.leb_le in E.
      destruct (run_length_accepted _ _ _ _ Hn) as [Ha Hk].
      simpl. split; [lia|]. split; [exact Ha | apply IH, Hm].
    + destruct (Scanner.at_least a <=? S n)%nat eqn:E;
        [destruct (Scanner.match_here rest (Scanner.drop_str (S n) s)) as [l|] eqn:Hm|].
      * intros H. injection H as <-.
        apply Nat.leb_le in E.
        destruct (run_length_accepted _ _ _ _ Hn) as [Ha Hk].
        simpl. split; [lia|]. split; [exact Ha | apply IH, Hm].
      * apply IHn. lia.
      * apply IHn. lia.
Qed.

Lemma take_str_length n s : (n <= String.length s)%nat -> String.length (take_str n s) = n.
Proof.
  revert s. induction n; intros [|c r]; simpl; intros H; try lia.
  rewrite IHn; lia.
Qed.

Lemma accepted_cut P n s :
  accepted P n s ->
  exists t, s = t ++ Scanner.drop_str n s /\ String.length t = n /\ all_chars P t = true.
Proof.
  intros [Hl Ha]. exists (take_str n s).
  split; [symmetry; apply take_drop_str|]. split; [apply take_str_length, Hl | exact Ha].
Qed.

Lemma literal_piece c t :
  String.length t = 1%nat -> all_chars (Ascii.eqb c) t = true -> t = String c "".
Proof.
  destruct t as [|x [|y r]]; simpl; intros Hl Ha; try discriminate.
  rewrite andb_true_r in Ha. apply Ascii.eqb_eq in Ha. subst. reflexivity.
Qed.

Lemma pattern_match s ls :
  Scanner.match_here Scanner.pattern s = Some ls ->
  dotted_quad (fst (Scanner.groups ls s)) /\ port_text (snd (Scanner.groups ls s)) /\
  startswith (fst (Scanner.groups ls s) ++ ":" ++ snd (Scanner.groups ls s)) s = true /\
  (1 <= Scanner.total ls)%nat.
Proof.
  intros H. apply match_here_conforms in H.
  destruct ls as [|n1 [|n2 [|n3 [|n4 [|n5 [|n6 [|n7 [|n8 [|n9 [|? ?]]]]]]]]]];
    simpl in H; try tauto.
  destruct H as (B1 & A1 & B2 & A2 & B3 & A3 & B4 & A4 & B5 & A5 & B6 & A6 & B7 & A7
                 & B8 & A8 & B9 & A9 & _).
  apply accepted_cut in A1, A2, A3, A4, A5, A6, A7, A8, A9.
  destruct A1 as (t1 & E1 & L1 & C1), A2 as (t2 & E2 & L2 & C2),
           A3 as (t3 & E3 & L3 & C3), A4 as (t4 & E4 & L4 & C4),
           A5 as (t5 & E5 & L5 & C5), A6 as (t6 & E6 & L6 & C6),
           A7 as (t7 & E7 & L7 & C7), A8 as (t8 & E8 & L8 & C8),
           A9 as (t9 & E9 & L9 & C9).
  assert (n2 = 1 /\ n4 = 1 /\ n6 = 1 /\ n8 = 1)%nat as (-> & -> & -> & ->) by lia.
  apply literal_piece in C2, C4, C6, C8; try assumption. subst t2 t4 t6 t8.
  set (rest := Scanner.drop_str n9 _) in *.
  assert (Es : s = (t1 ++ "." ++ t3 ++ "." ++ t5 ++ "." ++ t7) ++ ":" ++ t9 ++ rest).
  { rewrite E1 at 1. rewrite E2 at 1. rewrite E3 at 1. rewrite E4 at 1.
    rewrite E5 at 1. rewrite E6 at 1. rewrite E7 at 1. rewrite E8 at 1.
    rewrite E9 at 1. rewrite !app_assoc_str. reflexivity. }
  set (ip := t1 ++ "." ++ t3 ++ "." ++ t5 ++ "." ++ t7) in *.
  assert (Li : String.length ip = (n1 + (1 + (n3 + (1 + (n5 + (1 + (n7 + 0)))))))%nat).
  { unfold ip. rewrite !app_length_str. simpl. lia. }
  assert (G : Scanner.groups [n1; 1; n3; 1; n5; 1; n7; 1; n9]%nat s = (ip, t9)).
  { unfold Scanner.groups. simpl firstn. simpl nth. unfold Scanner.total. simpl fold_right.
    change (n1 + S (n3 + S (n5 + S (n7 + 0))))%nat
      with (n1 + (1 + (n3 + (1 + (n5 + (1 + (n7 + 0)))))))%nat.
    rewrite <- Li. rewrite Es at 1 2. rewrite take_str_app.
    change (":" ++ t9 ++ rest) with (String ":" (t9 ++ rest)).
    rewrite drop_str_app_cons. rewrite <- L9 at 1. rewrite take_str_app. reflexivity. }
  rewrite G. simpl fst. simpl snd.
  split; [|split; [|split]].
  - exists t1, t3, t5, t7. unfold octet_text. simpl in *. repeat split; auto; lia.
  - unfold port_text. simpl in *. repeat split; auto; lia.
  - rewrite Es.
    replace (ip ++ ":" ++ t9 ++ rest) with ((ip ++ ":" ++ t9) ++ rest)
      by (rewrite !app_assoc_str; reflexivity).
    apply startswith_app.
  - unfold Scanner.total. simpl. lia.
Qed.

Lemma findall_cons c r skip :
  Scanner.findall (String c r) skip =
  match skip with
  | S k => Scanner.findall r k
  | O =>
      match Scanner.match_here Scanner.pattern (String c r) with
      | Some ls =>
          Scanner.groups ls (String c r) :: Scanner.findall r (pred (Scanner.total ls))
      | None => Scanner.findall r O
      end
  end.
Proof. reflexivity. Qed.

Lemma findall_matches s :
  forall skip m, In m (Scanner.findall s skip) ->
    dotted_quad (fst m) /\ port_text (snd m) /\
    contains (fst m ++ ":" ++ snd m) s = true.
Proof.
  induction s as [|c r IH]; intros skip m; [simpl; tauto|].
  rewrite findall_cons.
  assert (Hr : (exists k, In m (Scanner.findall r k)) ->
               dotted_quad (fst m) /\ port_text (snd m) /\
               contains (fst m ++ ":" ++ snd m) (String c r) = true).
  { intros [k H]. apply IH in H. destruct H as (? & ? & H).
    split; [assumption|]. split; [assumption|]. apply contains_suffix, H. }
  destruct skip as [|k]; [|intros H; apply Hr; eauto].
  destruct (Scanner.match_here Scanner.pattern (String c r)) as [ls|] eqn:Hm;
    [|intros H; apply Hr; eauto].
  intros H. destruct H as [<-|H]; [|apply Hr; eauto].
  destruct (pattern_match _ _ Hm) as (Hq & Hp & Hs & _).
  split; [assumption|]. split; [assumption|]. apply contains_startswith, Hs.
Qed.

Lemma extract_from_match text x :
  In x (Scanner.extract_proxies_from_text text) ->
  exists m, In m (Scanner.findall text O) /\ Scanner.checked m = Some x.
Proof.
  unfold Scanner.extract_proxies_from_text. rewrite <- list_elem_of_In.
  intros H. apply list_elem_of_omap in H. destruct H as (m & Hin & Hc).
  exists m. split; [apply list_elem_of_In, Hin | exact Hc].
Qed.

Lemma extract_shape text x :
  In x (Scanner.extract_proxies_from_text text) ->
  exists ip port n,
    x = ip ++ ":" ++ port /\ dotted_quad ip /\ port_text port /\
    int port = Ok n /\ 1 <= n <= 65535 /\ contains x text = true.
Proof.
  intros H. apply extract_from_match in H. destruct H as ([ip port] & Hin & Hc).
  apply findall_matches in Hin. destruct Hin as (Hq & Hp & Ho).
  apply checked_valid in Hc. destruct Hc as (n & -> & Hn & Hr & _).
  exists ip, port, n. simpl in *. auto 10.
Qed.

(** *** Candidates made of digits, dots and one colon *)

Lemma octet_plain a : octet_text a -> all_chars plain a = true.
Proof.
  intros [_ H]. apply (all_chars_impl is_digit); [|exact H].
  intros c Hc. unfold plain. rewrite Hc. reflexivity.
Qed.

Lemma dotted_quad_plain ip : dotted_quad ip -> all_chars plain ip = true.
Proof.
  intros (a & b & c & d & -> & Ha & Hb & Hc & Hd).
  rewrite !all_chars_app.
  rewrite (octet_plain a Ha), (octet_plain b Hb), (octet_plain c Hc), (octet_plain d Hd).
  reflexivity.
Qed.

Lemma dotted_quad_starts_with_digit ip :
  dotted_quad ip -> exists c r, ip = String c r /\ is_digit c = true.
Proof.
  intros (a & b & c & d & -> & [[Hl _] Ha] & _).
  destruct a as [|x a]; [simpl in Hl; lia|].
  simpl in Ha. apply andb_true_iff in Ha. destruct Ha as [Hx _].
  exists x. eexists. split; [sapp; reflexivity | exact Hx].
Qed.

Lemma plain_not_colon c : plain c = true -> negb (Ascii.eqb c ":") = true.
Proof. destruct c as [[] [] [] [] [] [] [] []]; vm_compute; congruence. Qed.

Lemma plain_not_space c : plain c = true -> is_space c = false.
Proof. destruct c as [[] [] [] [] [] [] [] []]; vm_compute; congruence. Qed.

Lemma digit_plain c : is_digit c = true -> plain c = true.
Proof. intros H. unfold plain. rewrite H. reflexivity. Qed.

Lemma lstrip_id c r : is_space c = false -> lstrip (String c r) = String c r.
Proof. intros H. simpl. rewrite H. reflexivity. Qed.

Lemma rstrip_id s :
  all_chars (fun c => negb (is_space c)) s = true -> rstrip s = s.
Proof.
  induction s as [|c r IH]; simpl; [reflexivity|].
  intros H. apply andb_true_iff in H. destruct H as [Hc Hr].
  apply negb_true_iff in Hc. rewrite Hc, (IH Hr). reflexivity.
Qed.

Lemma strip_id s :
  all_chars (fun c => negb (is_space c)) s = true -> strip s = s.
Proof.
  intros H. unfold strip. destruct s as [|c r]; [reflexivity|].
  pose proof H as H'. simpl in H'. apply andb_true_iff in H'. destruct H' as [Hc _].
  apply negb_true_iff in Hc. rewrite (lstrip_id c r Hc). apply rstrip_id, H.
Qed.

Lemma candidate_split ip port :
  dotted_quad ip -> port_text port ->
  split ":" (ip ++ ":" ++ port) = [ip; port] /\
  strip (ip ++ ":" ++ port) = ip ++ ":" ++ port /\
  Tester.keep_line (ip ++ ":" ++ port) = true.
Proof.
  intros Hq [Hl Hp].
  pose proof (dotted_quad_plain ip Hq) as Hi.
  assert (Hpp : all_chars plain port = true)
    by (apply (all_chars_impl is_digit); [apply digit_plain | exact Hp]).
  split; [|split].
  - change (ip ++ ":" ++ port) with (ip ++ String ":" port).
    rewrite split_app_sep, split_no_sep; [reflexivity| |].
    + apply (all_chars_impl plain); [apply plain_not_colon | exact Hpp].
    + apply (all_chars_impl plain); [apply plain_not_colon | exact Hi].
  - apply strip_id. rewrite !all_chars_app, andb_true_iff. split; [|split_and?].
    + apply (all_chars_impl plain); [|exact Hi].
      intros c Hc. rewrite (plain_not_space c Hc). reflexivity.
    + apply andb_true_iff. split; [reflexivity|].
      apply (all_chars_impl plain); [|exact Hpp].
      intros c Hc. rewrite (plain_not_space c Hc). reflexivity.
  - unfold Tester.keep_line.
    destruct (dotted_quad_starts_with_digit ip Hq) as (c & r & -> & Hc).
    sapp. rewrite !andb_true_iff. split; [split|].
    + reflexivity.
    + apply (contains_middle (String c r) ":" port).
    + apply negb_true_iff. change (Ascii.eqb "#" c && true = false).
      rewrite andb_true_r.
      destruct (Ascii.eqb_spec "#"%char c) as [<-|]; [discriminate | reflexivity].
Qed.

Lemma extract_accepted text x :
  In x (Scanner.extract_proxies_from_text text) ->
  exists ip n,
    dotted_quad ip /\ 1 <= n <= 65535 /\
    Tester.append_lines [x] = [x] /\
    Tester.parse_parts x = Some (ip, n, PNone, PNone) /\
    Scanner.parse_pair x = Some (ip, n).
Proof.
  intros H. apply extract_shape in H.
  destruct H as (ip & port & n & -> & Hq & Hp & Hn & Hr & _).
  destruct (candidate_split ip port Hq Hp) as (Hs & Ht & Hk).
  exists ip, n. split; [exact Hq|]. split; [exact Hr|].
  split; [|split].
  - unfold Tester.append_lines. simpl. rewrite Ht, Hk. reflexivity.
  - unfold Tester.parse_parts. rewrite Hs. unfold mbind, res_bind, bind. rewrite Hn.
    reflexivity.
  - unfold Scanner.parse_pair. rewrite Hs. unfold mbind, res_bind, bind. rewrite Hn.
    reflexivity.
Qed.

(** *** What the matcher finds in a candidate *)

Lemma run_length_exact P limit t s' :
  all_chars P t = true -> (String.length t <= limit)%nat ->
  String.length t = limit \/ stops P s' ->
  Scanner.run_length P limit (t ++ s') = String.length t.
Proof.
  revert limit. induction t as [|c r IH]; intros limit Ha Hl Hs; sapp.
  - destruct limit; [reflexivity|]. destruct Hs as [Hs|Hs]; [discriminate|].
    destruct s' as [|x s']; simpl in *; [reflexivity | rewrite Hs; reflexivity].
  - simpl in Ha. apply andb_true_iff in Ha. destruct Ha as [Hc Hr].
    destruct limit as [|k]; simpl in *; [lia|]. rewrite Hc. f_equal.
    apply IH; [exact Hr | lia | destruct Hs; [left; lia | right; assumption]].
Qed.

Lemma match_here_step a rest t s' ls :
  all_chars (Scanner.accepts a) t = true ->
  (Scanner.at_least a <= String.length t <= Scanner.at_most a)%nat ->
  String.length t = Scanner.at_most a \/ stops (Scanner.accepts a) s' ->
  Scanner.match_here rest s' = Some ls ->
  Scanner.match_here (a :: rest) (t ++ s') = Some (String.length t :: ls).
Proof.
  intros Ha [Hlo Hhi] Hs Hm. simpl.
  rewrite (run_length_exact _ _ t s' Ha Hhi Hs).
  apply Nat.leb_le in Hlo.
  pose proof (drop_str_app t s') as Hd.
  destruct (String.length t) as [|n]; rewrite Hlo, Hd, Hm; reflexivity.
Qed.

Lemma groups_pieces t1 t3 t5 t7 t9 rest :
  Scanner.groups
    [String.length t1; 1; String.length t3; 1; String.length t5; 1;
     String.length t7; 1; String.length t9]%nat
    ((t1 ++ "." ++ t3 ++ "." ++ t5 ++ "." ++ t7) ++ ":" ++ t9 ++ rest)
  = (t1 ++ "." ++ t3 ++ "." ++ t5 ++ "." ++ t7, t9).
Proof.
  set (ip := t1 ++ "." ++ t3 ++ "." ++ t5 ++ "." ++ t7).
  assert (Li : String.length ip =
               (String.length t1 + S (String.length t3 + S (String.length t5
                 + S (String.length t7 + 0))))%nat).
  { unfold ip. rewrite !app_length_str. simpl. lia. }
  unfold Scanner.groups. simpl firstn. simpl nth. unfold Scanner.total. simpl fold_right.
  rewrite <- Li. rewrite take_str_app.
  change (":" ++ t9 ++ rest) with (String ":" (t9 ++ rest)).
  rewrite drop_str_app_cons, take_str_app. reflexivity.
Qed.

Lemma pattern_on_candidate a b c d port rest :
  octet_text a -> octet_text b -> octet_text c -> octet_text d -> port_text port ->
  stops is_digit rest ->
  Scanner.match_here Scanner.pattern
    (a ++ "." ++ b ++ "." ++ c ++ "." ++ d ++ ":" ++ port ++ rest) =
  Some [String.length a; 1; String.length b; 1; String.length c; 1;
        String.length d; 1; String.length port]%nat.
Proof.
  intros [La Ha] [Lb Hb] [Lc Hc] [Ld Hd] [Lp Hp] Hr. unfold Scanner.pattern.
  apply match_here_step; [exact Ha | exact La | right; reflexivity |].
  apply (match_here_step (Scanner.lit ".") _ "."); [reflexivity | simpl; lia | left; reflexivity |].
  apply match_here_step; [exact Hb | exact Lb | right; reflexivity |].
  apply (match_here_step (Scanner.lit ".") _ "."); [reflexivity | simpl; lia | left; reflexivity |].
  apply match_here_step; [exact Hc | exact Lc | right; reflexivity |].
  apply (match_here_step (Scanner.lit ".") _ "."); [reflexivity | simpl; lia | left; reflexivity |].
  apply match_here_step; [exact Hd | exact Ld | right; reflexivity |].
  apply (match_here_step (Scanner.lit ":") _ ":"); [reflexivity | simpl; lia | left; reflexivity |].
  rewrite <- (match_here_step (Scanner.digits 2 5) [] port rest []);
    [reflexivity | exact Hp | exact Lp | right; exact Hr | reflexivity].
Qed.

Lemma findall_skip_all s : forall k, (String.length s <= k)%nat -> Scanner.findall s k = [].
Proof.
  induction s as [|c r IH]; intros k Hk; [reflexivity|].
  rewrite findall_cons. destruct k as [|k]; simpl in Hk; [lia|]. apply IH. lia.
Qed.

Lemma findall_candidate ip port :
  dotted_quad ip -> port_text port ->
  Scanner.findall (ip ++ ":" ++ port) O = [(ip, port)].
Proof.
  intros (a & b & c & d & -> & Ha & Hb & Hc & Hd) Hp.
  pose proof (pattern_on_candidate a b c d port "" Ha Hb Hc Hd Hp I) as Hm.
  pose proof (groups_pieces a b c d port "") as Hg.
  assert (Hn : forall s, s ++ "" = s) by (induction s; sapp; congruence).
  rewrite Hn in Hm, Hg.
  replace (a ++ "." ++ b ++ "." ++ c ++ "." ++ d ++ ":" ++ port)
    with ((a ++ "." ++ b ++ "." ++ c ++ "." ++ d) ++ ":" ++ port) in Hm
    by (rewrite !app_assoc_str; reflexivity).
  set (x := (a ++ "." ++ b ++ "." ++ c ++ "." ++ d) ++ ":" ++ port) in *.
  assert (Lx : Scanner.total
                 [String.length a; 1; String.length b; 1; String.length c; 1;
                  String.length d; 1; String.length port]%nat = String.length x).
  { unfold x, Scanner.total. rewrite !app_length_str. simpl. lia. }
  destruct x as [|ch r] eqn:Ex.
  - destruct Ha as [[Ha _] _]. destruct a; simpl in Ha; [lia | discriminate].
  - rewrite findall_cons, Hm, Hg, Lx. simpl pred.
    rewrite findall_skip_all by lia. reflexivity.
Qed.

Lemma extract_fixed text x :
  In x (Scanner.extract_proxies_from_text text) ->
  Scanner.extract_proxies_from_text x = [x].
Proof.
  intros H. apply extract_from_match in H. destruct H as ([ip port] & Hin & Hc).
  apply findall_matches in Hin. destruct Hin as (Hq & Hp & _).
  pose proof (checked_valid _ _ Hc) as (n & Hx & _). simpl in Hx.
  assert (Ho : forall m, omap Scanner.checked [m] =
                         match Scanner.checked m with Some y => [y] | None => [] end)
    by (intros m; simpl; destruct (Scanner.checked m); reflexivity).
  unfold Scanner.extract_proxies_from_text.
  rewrite Hx, (findall_candidate ip port Hq Hp), Ho, Hc, Hx. reflexivity.
Qed.

(** *** The collector *)

(** The two scripts carry their own copy of the extraction; the copies
    agree step by step: the same pattern, the same matches, the same
    checks. *)
Lemma collector_pattern_eq : Collector.pattern = Scanner.pattern.
Proof. reflexivity. Qed.

Lemma collector_findall_eq s :
  forall skip, Collector.findall s skip = Scanner.findall s skip.
Proof.
  induction s as [|c r IH]; intros skip; [reflexivity|].
  cbn [Collector.findall Scanner.findall]. destruct skip as [|k]; [|apply IH].
  rewrite collector_pattern_eq.
  destruct (Scanner.match_here Scanner.pattern (String c r)) as [ls|];
    rewrite IH; reflexivity.
Qed.

Lemma collector_all_octets_eq parts :
  Collector.all_octets parts = Scanner.all_octets parts.
Proof.
  induction parts as [|p r IH]; [reflexivity|].
  cbn [Collector.all_octets Scanner.all_octets]. rewrite IH. reflexivity.
Qed.

Lemma collector_checked_eq m : Collector.checked m = Scanner.checked m.
Proof.
  destruct m as [ip port]. unfold Collector.checked, Scanner.checked.
  rewrite collector_all_octets_eq. reflexivity.
Qed.

Lemma omap_ext_checked (l : list (string * string)) :
  omap Collector.checked l = omap Scanner.checked l.
Proof.
  induction l as [|m r IH]; [reflexivity|].
  cbn [omap list_omap]. rewrite collector_checked_eq, IH. reflexivity.
Qed.

Lemma add_checked_all l :
  forall st,
    for_each l (fun m => match Collector.checked m with
                         | Some x => set_add x
                         | None => ret_st tt
                         end) st
    = (Ok tt, list_to_set (omap Collector.checked l) ∪ st).
Proof.
  induction l as [|m r IH]; intros st; simpl.
  - unfold ret_st. f_equal. rewrite union_empty_l_L. reflexivity.
  - unfold bind_st. destruct (Collector.checked m) as [x|]; simpl.
    + unfold set_add. rewrite IH. f_equal.
      rewrite (assoc_L (∪)), (comm_L (∪) _ {[x]}). reflexivity.
    + unfold ret_st. apply IH.
Qed.

Lemma collector_extract_eq text :
  Collector.extract_proxies_from_text text =
  list_to_set (Scanner.extract_proxies_from_text text).
Proof.
  unfold Collector.extract_proxies_from_text, Scanner.extract_proxies_from_text.
  rewrite add_checked_all, collector_findall_eq, omap_ext_checked. cbn [snd].
  apply union_empty_r_L.
Qed.

Lemma collector_extract_In text x :
  x ∈ Collector.extract_proxies_from_text text <->
  In x (Scanner.extract_proxies_from_text text).
Proof.
  rewrite collector_extract_eq, elem_of_list_to_set. apply list_elem_of_In.
Qed.

Lemma fetch_cases cr net src :
  let r := Collector.fetch_from_source cr net src in
  Collector.f_name r = Collector.name src /\
  Collector.f_url r = Collector.url src /\
  Collector.count r = size (Collector.proxies r) /\
  (Collector.success r = true <->
   exists resp, net (Collector.url src) None 30 = Ok resp /\ status_code resp = 200) /\
  (Collector.success r = true <-> Collector.error r = None) /\
  (Collector.success r = false -> Collector.proxies r = ∅).
Proof.
  unfold Collector.fetch_from_source.
  destruct (net (Collector.url src) None 30) as [resp|e].
  - destruct (status_code resp =? 200) eqn:E;
      cbn [Collector.f_name Collector.f_url Collector.count Collector.success
           Collector.error Collector.proxies].
    + apply Z.eqb_eq in E. repeat split; eauto; discriminate.
    + apply Z.eqb_neq in E. rewrite size_empty.
      repeat split; try discriminate; auto.
      intros (resp' & Hr & Hs). congruence.
  - cbn [Collector.f_name Collector.f_url Collector.count Collector.success
         Collector.error Collector.proxies].
    rewrite size_empty. repeat split; try discriminate; auto.
    intros (resp' & Hr & _). discriminate.
Qed.

Lemma collect_from_spec cr net sources :
  forall all_proxies source_results,
    Collector.collect_from cr net sources all_proxies source_results =
    (all_proxies ∪
       ⋃ (List.map (fun src => Collector.proxies (Collector.fetch_from_source cr net src))
            sources),
     (source_results ++
        List.map (fun src => Collector.status_of (Collector.fetch_from_source cr net src))
          sources)%list).
Proof.
  induction sources as [|src rest IH]; intros st log; simpl.
  - f_equal; [apply symmetry, union_empty_r_L | rewrite app_nil_r; reflexivity].
  - rewrite IH. f_equal.
    + pose proof (fetch_cases cr net src) as (_ & _ & _ & _ & _ & He).
      destruct (Collector.success _); [apply symmetry, (assoc_L (∪))|].
      rewrite (He eq_refl), union_empty_l_L. reflexivity.
    + rewrite <- app_assoc. reflexivity.
Qed.

Lemma collect_all_spec cr net :
  (forall x,
      x ∈ fst (Collector.collect_all cr net) <->
      exists src, In src Collector.PROXY_SOURCES /\
                  Collector.success (Collector.fetch_from_source cr net src) = true /\
                  x ∈ Collector.proxies (Collector.fetch_from_source cr net src)) /\
  snd (Collector.collect_all cr net) =
    List.map (fun src => Collector.status_of (Collector.fetch_from_source cr net src))
      Collector.PROXY_SOURCES.
Proof.
  unfold Collector.collect_all. rewrite collect_from_spec. cbn [fst snd app].
  split; [|reflexivity].
  intros x. rewrite union_empty_l_L, elem_of_union_list. split.
  - intros (X & HX & Hx). apply list_elem_of_In, in_map_iff in HX.
    destruct HX as (src & <- & Hsrc). exists src. split; [exact Hsrc|].
    split; [|exact Hx].
    pose proof (fetch_cases cr net src) as (_ & _ & _ & _ & _ & He).
    destruct (Collector.success _); [reflexivity|].
    rewrite (He eq_refl) in Hx. apply elem_of_empty in Hx. contradiction.
  - intros (src & Hsrc & _ & Hx). eexists. split; [|exact Hx].
    apply list_elem_of_In, in_map_iff. exists src. auto.
Qed.

(** *** The order of strings *)

Lemma ascii_compare_lt a b : Ascii.compare a b = Lt <-> (N_of_ascii a < N_of_ascii b)%N.
Proof. unfold Ascii.compare. apply N.compare_lt_iff. Qed.

Lemma ascii_compare_eq a b : Ascii.compare a b = Eq <-> a = b.
Proof.
  unfold Ascii.compare. rewrite N.compare_eq_iff. split; [|congruence].
  intros H. rewrite <- (ascii_N_embedding a), <- (ascii_N_embedding b). congruence.
Qed.

Lemma string_compare_trans s1 :
  forall s2 s3, String.compare s1 s2 = Lt -> String.compare s2 s3 = Lt ->
                String.compare s1 s3 = Lt.
Proof.
  induction s1 as [|a r1 IH]; intros [|b r2] [|c r3]; simpl; try congruence.
  destruct (Ascii.compare a b) eqn:Eab; try discriminate;
    destruct (Ascii.compare b c) eqn:Ebc; try discriminate.
  - apply ascii_compare_eq in Eab, Ebc. subst.
    assert (Ascii.compare c c = Eq) as -> by (apply ascii_compare_eq; reflexivity).
    apply IH.
  - apply ascii_compare_eq in Eab. subst. rewrite Ebc. auto.
  - apply ascii_compare_eq in Ebc. subst. rewrite Eab. auto.
  - apply ascii_compare_lt in Eab, Ebc.
    assert (Ascii.compare a c = Lt) as -> by (apply ascii_compare_lt; eapply N.lt_trans; eassumption). auto.
Qed.

Lemma string_ltb_trans a b c :
  String.ltb a b = true -> String.ltb b c = true -> String.ltb a c = true.
Proof.
  unfold String.ltb. intros H1 H2.
  destruct (String.compare a b) eqn:E1; try discriminate.
  destruct (String.compare b c) eqn:E2; try discriminate.
  rewrite (string_compare_trans _ _ _ E1 E2). reflexivity.
Qed.

Lemma string_ltb_total a b :
  String.ltb a b = false -> a = b \/ String.ltb b a = true.
Proof.
  unfold String.ltb. rewrite (String.compare_antisym b a).
  destruct (String.compare a b) eqn:E; simpl; try discriminate; auto.
  left. apply String.compare_eq_iff, E.
Qed.

(** The sort on keys that compare as distinct strings. *)
Section SortByText.
Context {A : Type} (key : A -> pyval) (k : A -> string) (good : A -> Prop).
Hypothesis compare_text :
  forall x y, good x -> good y -> k y <> k x ->
              py_lt (key y) (key x) = Ok (String.ltb (k y) (k x)).

Let lt (a b : A) : Prop := String.ltb (k a) (k b) = true.

Lemma insert_by_text x l :
  good x -> Forall good l -> Forall (fun y => k y <> k x) l ->
  exists out,
    insert_by_key key x l = Ok out /\
    Permutation (x :: l) out /\
    (StronglySorted lt l -> StronglySorted lt out).
Proof.
  intros Hx. induction l as [|y r IH]; intros Hl Hd.
  - exists [x]. repeat split; auto. intros _. repeat constructor.
  - inversion Hl as [|? ? Hy Hr]; subst. inversion Hd as [|? ? Hne Hdr]; subst.
    simpl. rewrite (compare_text x y Hx Hy Hne). msimpl.
    destruct (String.ltb (k y) (k x)) eqn:E.
    + destruct (IH Hr Hdr) as (out & Ho & Hp & Hs). rewrite Ho.
      exists (y :: out). split; [reflexivity|]. split.
      * rewrite perm_swap. constructor. exact Hp.
      * intros Hss. inversion Hss as [|? ? Hsr Hfy]; subst.
        constructor; [apply Hs, Hsr|].
        apply (Permutation_Forall Hp). constructor; [exact E | exact Hfy].
    + exists (x :: y :: r). split; [reflexivity|]. split; [reflexivity|].
      intros Hss. constructor; [exact Hss|].
      destruct (string_ltb_total _ _ E) as [Heq|Hlt]; [contradiction|].
      inversion Hss as [|? ? Hsr Hfy]; subst.
      constructor; [exact Hlt|].
      eapply Forall_impl; [exact Hfy|]. simpl. unfold lt. intros z Hz.
      exact (string_ltb_trans _ _ _ Hlt Hz).
Qed.

Lemma sort_by_text l :
  Forall good l -> NoDup (List.map k l) ->
  exists out,
    sort_by_key key l = Ok out /\ Permutation l out /\ StronglySorted lt out.
Proof.
  induction l as [|x r IH]; intros Hl Hd.
  - exists []. repeat split; auto. constructor.
  - inversion Hl as [|? ? Hx Hr]; subst.
    simpl in Hd. apply NoDup_cons in Hd. destruct Hd as [Hnx Hd].
    destruct (IH Hr Hd) as (r' & Ho & Hp & Hs).
    assert (Hne : Forall (fun y => k y <> k x) r').
    { apply (Permutation_Forall Hp). apply Forall_forall. intros y Hy Heq.
      apply list_elem_of_In in Hy.
      apply Hnx. rewrite <- Heq. apply list_elem_of_In, in_map, Hy. }
    destruct (insert_by_text x r' Hx (Permutation_Forall Hp Hr) Hne)
      as (out & Hi & Hpi & Hsi).
    exists out. simpl. rewrite Ho. msimpl. rewrite Hi.
    split; [reflexivity|]. split; [|apply Hsi, Hs].
    rewrite <- Hpi. constructor. exact Hp.
Qed.
End SortByText.

Lemma fetch_text_source cr net src x :
  Collector.type src <> "json" ->
  x ∈ Collector.proxies (Collector.fetch_from_source cr net src) ->
  exists resp,
    net (Collector.url src) None 30 = Ok resp /\ status_code resp = 200 /\
    In x (Scanner.extract_proxies_from_text (text resp)).
Proof.
  intros Ht. unfold Collector.fetch_from_source.
  destruct (net (Collector.url src) None 30) as [resp|e];
    [|intros H; apply elem_of_empty in H; contradiction].
  destruct (status_code resp =? 200) eqn:E;
    [|intros H; apply elem_of_empty in H; contradiction].
  destruct (String.eqb_spec (Collector.type src) "json") as [Hj|_]; [contradiction|].
  cbn [Collector.proxies]. intros H. apply collector_extract_In in H.
  exists resp. split; [reflexivity|]. split; [apply Z.eqb_eq, E | exact H].
Qed.

Lemma StronglySorted_app_inv {A} (R : A -> A -> Prop) l1 l2 :
  StronglySorted R l1 -> StronglySorted R l2 ->
  (forall a b, In a l1 -> In b l2 -> R a b) ->
  StronglySorted R (l1 ++ l2)%list.
Proof.
  induction 1 as [|x l1 Hs IH Hx]; intros H2 Hc; simpl; [exact H2|].
  constructor.
  - apply IH; [exact H2|]. intros a b Ha Hb. apply Hc; simpl; auto.
  - apply Forall_app. split; [exact Hx|].
    apply Forall_forall. intros b Hb. apply list_elem_of_In in Hb.
    apply Hc; simpl; auto.
Qed.

Lemma StronglySorted_rev {A} (R : A -> A -> Prop) l :
  StronglySorted R l -> StronglySorted (fun a b => R b a) (rev l).
Proof.
  induction 1 as [|x l Hs IH Hx]; simpl; [constructor|].
  apply StronglySorted_app_inv; [exact IH | repeat constructor|].
  intros a b Ha [<-|[]]. apply in_rev in Ha.
  rewrite Forall_forall in Hx. apply Hx, list_elem_of_In, Ha.
Qed.

Lemma filter_rev {A} (f : A -> bool) l :
  List.filter f (rev l) = rev (List.filter f l).
Proof.
  induction l as [|x l IH]; simpl; [reflexivity|].
  rewrite List.filter_app, IH. simpl. destruct (f x); simpl; [reflexivity|].
  apply app_nil_r.
Qed.

Lemma top_sources_spec source_results :
  exists ranking,
    Collector.top_sources source_results = Ok (firstn 10 ranking) /\
    Permutation (List.filter Collector.s_success source_results) ranking /\
    StronglySorted (fun a b => (Collector.s_count b <= Collector.s_count a)%nat) ranking /\
    forall n,
      List.filter (fun s => Nat.eqb (Collector.s_count s) n) ranking =
      List.filter (fun s => Nat.eqb (Collector.s_count s) n)
        (List.filter Collector.s_success source_results).
Proof.
  unfold Collector.top_sources.
  set (successful := List.filter Collector.s_success source_results).
  destruct (sort_by_key_int (fun s => PInt (Z.of_nat (Collector.s_count s)))
              (fun s => Z.of_nat (Collector.s_count s)) (rev successful))
    as (out & Ho & Hp & Hf & Hs).
  { apply Forall_forall. reflexivity. }
  rewrite Ho. exists (rev out). split; [reflexivity|]. split; [|split].
  - rewrite <- Permutation_rev, <- Hp. apply Permutation_rev.
  - apply StronglySorted_rev in Hs.
    eapply StronglySorted_ind with (P := fun l =>
      StronglySorted (fun a b => (Collector.s_count b <= Collector.s_count a)%nat) l);
      [constructor | | exact Hs].
    intros a l _ Hl Ha. constructor; [exact Hl|].
    eapply Forall_impl; [exact Ha|]. simpl. intros; lia.
  - intros n.
    assert (He : forall l,
               List.filter (fun s => Nat.eqb (Collector.s_count s) n) l =
               List.filter (fun s => Z.of_nat (Collector.s_count s) =? Z.of_nat n) l).
    { intros l. apply List.filter_ext. intros s.
      destruct (Nat.eqb_spec (Collector.s_count s) n) as [->|Hn].
      - symmetry. apply Z.eqb_refl.
      - symmetry. apply Z.eqb_neq. lia. }
    rewrite !He, filter_rev, (Hf (Z.of_nat n)), filter_rev, rev_involutive. reflexivity.
Qed.

Lemma collector_save_spec proxies :
  exists lines,
    Collector.save_results proxies = Ok lines /\
    Permutation (elements proxies) lines /\
    StronglySorted (fun a b => String.ltb a b = true) lines.
Proof.
  unfold Collector.save_results.
  destruct (sort_by_text PStr (fun s => s) (fun _ => True)
              (fun x y _ _ _ => eq_refl) (elements proxies))
    as (out & Ho & Hp & Hs).
  - apply Forall_forall. auto.
  - rewrite List.map_id. apply NoDup_elements.
  - exists out. auto.
Qed.

(** *** Printing and reading integers *)

Lemma pretty_N_char_digit d :
  (d < 10)%N ->
  is_digit (pretty_N_char d) = true /\ digit_val (pretty_N_char d) = Z.of_N d.
Proof.
  intros H.
  assert (d = 0 \/ d = 1 \/ d = 2 \/ d = 3 \/ d = 4 \/ d = 5 \/ d = 6 \/ d = 7 \/
          d = 8 \/ d = 9)%N as Hd by lia.
  repeat (destruct Hd as [->|Hd]; [split; reflexivity|]). subst. split; reflexivity.
Qed.

Lemma pretty_N_go_digits x :
  forall s, all_chars is_digit s = true -> all_chars is_digit (pretty_N_go x s) = true.
Proof.
  induction x as [x IH] using (well_founded_induction N.lt_wf_0). intros s Hs.
  destruct (N.eq_dec x 0%N) as [->|Hx]; [rewrite pretty_N_go_0; exact Hs|].
  rewrite pretty_N_go_step by lia.
  apply IH; [apply N.div_lt; lia|].
  simpl. rewrite Hs, andb_true_r.
  apply pretty_N_char_digit, N.mod_lt. discriminate.
Qed.

Lemma pretty_N_go_read x :
  (0 < x)%N ->
  forall s, int_unsigned (pretty_N_go x s) = int_digits s (Z.of_N x) false.
Proof.
  induction x as [x IH] using (well_founded_induction N.lt_wf_0). intros Hx s.
  rewrite pretty_N_go_step by exact Hx.
  destruct (pretty_N_char_digit (x mod 10)%N) as [Hd Hv];
    [apply N.mod_lt; discriminate|].
  destruct (N.eq_dec (x / 10)%N 0%N) as [E|E].
  - rewrite E, pretty_N_go_0. simpl. rewrite Hd, Hv.
    rewrite (N.div_mod x 10%N) at 2 by discriminate. rewrite E. f_equal; lia.
  - rewrite IH; [|apply N.div_lt; [exact Hx | reflexivity]|apply N.neq_0_lt_0, E].
    simpl. rewrite Hd, Hv. f_equal.
    rewrite (N.div_mod x 10%N) at 3 by discriminate.
    rewrite N2Z.inj_add, N2Z.inj_mul. reflexivity.
Qed.

Lemma digit_not_int_space c : is_digit c = true -> negb (is_int_space c) = true.
Proof. destruct c as [[] [] [] [] [] [] [] []]; vm_compute; congruence. Qed.

Lemma digit_val_range c : is_digit c = true -> 0 <= digit_val c <= 9.
Proof.
  destruct c as [[] [] [] [] [] [] [] []]; vm_compute; intros H;
    first [discriminate H | split; discriminate].
Qed.

Lemma rstrip_where_id space s :
  all_chars (fun c => negb (space c)) s = true -> rstrip_where space s = s.
Proof.
  induction s as [|c r IH]; simpl; [reflexivity|].
  intros H. apply andb_true_iff in H. destruct H as [Hc Hr].
  apply negb_true_iff in Hc. rewrite Hc, (IH Hr). reflexivity.
Qed.

Lemma strip_where_id space s :
  all_chars (fun c => negb (space c)) s = true ->
  rstrip_where space (lstrip_where space s) = s.
Proof.
  intros H. destruct s as [|c r]; [reflexivity|].
  pose proof H as H'. simpl in H'. apply andb_true_iff in H'. destruct H' as [Hc _].
  apply negb_true_iff in Hc. cbn [lstrip_where]. rewrite Hc.
  apply rstrip_where_id, H.
Qed.

(** The first pass over a literal that [int_digits] accepts runs to its
    end; the value is below the power of ten of the number of digits. *)
Lemma int_digits_scan r :
  forall acc us d n,
    int_digits r acc us = Some n -> 0 <= acc < 10 ^ Z.of_nat d ->
    exists d', scan_digits r us d = Some d' /\ 0 <= n < 10 ^ Z.of_nat d'.
Proof.
  induction r as [|c r IH]; intros acc us d n; simpl.
  - destruct us; [discriminate|]. intros H Ha. injection H as <-. eauto.
  - destruct (is_digit c) eqn:Hc.
    + intros H Ha. apply (IH _ _ (S d) _ H).
      pose proof (digit_val_range c Hc).
      rewrite Nat2Z.inj_succ, Z.pow_succ_r by lia. lia.
    + destruct (Ascii.eqb c "_"); [|discriminate].
      destruct us; [discriminate|]. simpl. intros H Ha. exact (IH _ _ d _ H Ha).
Qed.

Lemma int_unsigned_scan u n :
  int_unsigned u = Some n ->
  exists d, scan_digits u true 0 = Some d /\ 0 <= n < 10 ^ Z.of_nat d.
Proof.
  destruct u as [|c r]; [discriminate|]. simpl.
  destruct (is_digit c) eqn:Hc; [|discriminate]. intros H.
  apply (int_digits_scan r _ false 1%nat n H).
  pose proof (digit_val_range c Hc). change (10 ^ Z.of_nat 1) with 10. lia.
Qed.

Lemma scan_all_digits s :
  all_chars is_digit s = true ->
  forall us d, s <> "" \/ us = false ->
    scan_digits s us d = Some (d + String.length s)%nat.
Proof.
  induction s as [|c r IH]; intros Hs us d Hne; simpl.
  - destruct Hne as [Hne| ->]; [congruence|]. f_equal. lia.
  - simpl in Hs. apply andb_true_iff in Hs. destruct Hs as [Hc Hr].
    rewrite Hc, (IH Hr false (S d)) by auto. f_equal. lia.
Qed.

Lemma pretty_N_go_length x :
  forall s k, Z.of_N x < 10 ^ Z.of_nat k ->
    (String.length (pretty_N_go x s) <= k + String.length s)%nat.
Proof.
  induction x as [x IH] using (well_founded_induction N.lt_wf_0). intros s k Hk.
  destruct (N.eq_dec x 0%N) as [->|Hx]; [rewrite pretty_N_go_0; lia|].
  rewrite pretty_N_go_step by lia.
  destruct k as [|k]; [change (10 ^ Z.of_nat 0) with 1 in Hk; lia|].
  rewrite Nat2Z.inj_succ, Z.pow_succ_r in Hk by lia.
  assert (Hq : Z.of_N (x / 10) < 10 ^ Z.of_nat k).
  { rewrite N2Z.inj_div. change (Z.of_N 10) with 10.
    apply Z.div_lt_upper_bound; lia. }
  pose proof (IH (x / 10)%N (N.div_lt x 10 ltac:(lia) ltac:(lia))
                (String (pretty_N_char (x mod 10)) s) k Hq) as H.
  simpl in H. lia.
Qed.

(** A literal of digits, with or without a minus sign in front. *)
Lemma int_of_unsigned u m d :
  all_chars is_digit u = true -> int_unsigned u = Some m ->
  scan_digits u true 0 = Some d -> (d <= int_max_str_digits)%nat ->
  int u = Ok m /\ int (String "-" u) = Ok (- m).
Proof.
  intros Hd Hm Hs Hle. apply Nat.leb_le in Hle.
  assert (Hsp : all_chars (fun c => negb (is_int_space c)) u = true)
    by (apply (all_chars_impl is_digit); [apply digit_not_int_space | exact Hd]).
  split.
  - unfold int, raise. rewrite (strip_where_id _ _ Hsp).
    destruct u as [|c r]; [discriminate Hm|].
    simpl in Hd. apply andb_true_iff in Hd. destruct Hd as [Hc _].
    destruct c as [[] [] [] [] [] [] [] []];
      try (exfalso; vm_compute in Hc; discriminate Hc);
      cbv beta iota zeta; rewrite Hs, Hle, Hm; f_equal; apply Z.mul_1_l.
  - unfold int, raise. rewrite strip_where_id by (simpl; exact Hsp).
    cbv beta iota zeta. rewrite Hs, Hle, Hm. f_equal; lia.
Qed.

Lemma pretty_pos_digits (p : positive) :
  all_chars is_digit (pretty (N.pos p)) = true /\
  int_unsigned (pretty (N.pos p)) = Some (Z.pos p).
Proof.
  unfold pretty, pretty_N. destruct (decide (N.pos p = 0%N)) as [E|_]; [discriminate|].
  split; [apply pretty_N_go_digits; reflexivity|].
  rewrite pretty_N_go_read by reflexivity. reflexivity.
Qed.

Lemma pretty_pos_scan (p : positive) d :
  Z.pos p < 10 ^ Z.of_nat d ->
  exists d', scan_digits (pretty (N.pos p)) true 0 = Some d' /\ (d' <= d)%nat.
Proof.
  intros Hp. destruct (pretty_pos_digits p) as [Hd Hr].
  rewrite (scan_all_digits _ Hd true 0%nat)
    by (left; intros E; rewrite E in Hr; discriminate Hr).
  eexists. split; [reflexivity|].
  unfold pretty, pretty_N. destruct (decide (N.pos p = 0%N)) as [E|_]; [discriminate|].
  pose proof (pretty_N_go_length (N.pos p) "" d Hp) as H. simpl in H. lia.
Qed.

(** [int(str(n))] is [n] for a number within the limit on digits. *)
Lemma int_str_int_bounded n d :
  (d <= int_max_str_digits)%nat -> Z.abs n < 10 ^ Z.of_nat d ->
  int (str_int n) = Ok n.
Proof.
  intros Hd Hn. unfold str_int. destruct n as [|p|p].
  - vm_compute. reflexivity.
  - change (pretty (Z.pos p)) with (pretty (N.pos p)).
    destruct (pretty_pos_digits p) as [Hp Hr].
    destruct (pretty_pos_scan p d Hn) as (d' & Hs & Hle).
    apply (int_of_unsigned _ _ d' Hp Hr Hs). lia.
  - change (pretty (Z.neg p)) with (String "-" (pretty (N.pos p))).
    destruct (pretty_pos_digits p) as [Hp Hr].
    destruct (pretty_pos_scan p d Hn) as (d' & Hs & Hle).
    apply (int_of_unsigned _ _ d' Hp Hr Hs). lia.
Qed.

(** What [int] returns lies within the limit. *)
Lemma int_inv s n :
  int s = Ok n ->
  exists d, (d <= int_max_str_digits)%nat /\ Z.abs n < 10 ^ Z.of_nat d.
Proof.
  unfold int, raise.
  destruct (rstrip_where is_int_space (lstrip_where is_int_space s)) as [|c u];
    [discriminate|].
  destruct c as [[] [] [] [] [] [] [] []]; cbv beta iota zeta;
    match goal with
    | |- context [scan_digits ?U true 0] =>
        destruct (scan_digits U true 0) as [d|] eqn:Hs; [|discriminate];
        destruct (Nat.leb d int_max_str_digits) eqn:Hle; [|discriminate];
        destruct (int_unsigned U) as [m|] eqn:Hm; [|discriminate];
        intros H; injection H as <-;
        destruct (int_unsigned_scan _ _ Hm) as (d' & Hs' & Hb);
        rewrite Hs in Hs'; injection Hs' as <-;
        exists d; split; [apply Nat.leb_le, Hle | lia]
    end.
Qed.

(** [int(str(n))] is [n] for every number that [int] read. *)
Lemma int_str_int s n : int s = Ok n -> int (str_int n) = Ok n.
Proof.
  intros H. destruct (int_inv s n H) as (d & Hd & Hn).
  exact (int_str_int_bounded n d Hd Hn).
Qed.

Lemma str_int_no_colon n :
  all_chars (fun c => negb (Ascii.eqb c ":")) (str_int n) = true.
Proof.
  assert (Hd : forall c, is_digit c = true -> negb (Ascii.eqb c ":") = true).
  { intros c. destruct c as [[] [] [] [] [] [] [] []]; vm_compute; congruence. }
  unfold str_int. destruct n as [|p|p].
  - reflexivity.
  - change (pretty (Z.pos p)) with (pretty (N.pos p)).
    apply (all_chars_impl is_digit); [exact Hd | apply pretty_pos_digits].
  - change (pretty (Z.neg p)) with (String "-" (pretty (N.pos p))).
    simpl. apply (all_chars_impl is_digit); [exact Hd | apply pretty_pos_digits].
Qed.

Lemma split_pieces sep s :
  Forall (fun p => all_chars (fun c => negb (Ascii.eqb c sep)) p = true) (split sep s).
Proof.
  induction s as [|c r IH]; simpl; [repeat constructor|].
  destruct (Ascii.eqb c sep) eqn:E; [constructor; [reflexivity | exact IH]|].
  destruct (split sep r) as [|h t]; [repeat constructor; simpl; rewrite E; reflexivity|].
  inversion IH; subst. constructor; [simpl; rewrite E; simpl; assumption | assumption].
Qed.

(** *** The lines written for the working proxies *)

Lemma parse_parts_some proxy ip port user password :
  Tester.parse_parts proxy = Some (ip, port, user, password) ->
  no_colon ip /\
  exists digits,
    int digits = Ok port /\
    ((split ":" proxy = [ip; digits] /\ user = PNone /\ password = PNone) \/
     (exists u w, split ":" proxy = [ip; digits; u; w] /\
                  user = PStr u /\ password = PStr w /\ no_colon u /\ no_colon w)).
Proof.
  unfold Tester.parse_parts. pose proof (split_pieces ":" proxy) as Hp.
  destruct (split ":" proxy) as [|a [|b [|c [|d [|e l]]]]]; try discriminate;
    unfold mbind, mret, res_bind, res_ret, bind;
    (destruct (int b) as [n|] eqn:Hn; [|discriminate]);
    intros H; injection H as <- <- <- <-.
  - inversion Hp; subst. split; [assumption|]. exists b. auto.
  - inversion Hp as [|? ? Ha Hp1]; subst. inversion Hp1 as [|? ? Hb Hp2]; subst.
    inversion Hp2 as [|? ? Hc Hp3]; subst. inversion Hp3 as [|? ? Hd _]; subst.
    split; [assumption|]. exists b. split; [exact Hn|]. right. exists c, d. auto 10.
Qed.

Lemma tester_probe_endpoint MY env proxy r :
  Tester.test_socks5_proxy MY env proxy = Ok (Some r) ->
  exists ip port user password,
    Tester.parse_parts proxy = Some (ip, port, user, password) /\
    r !! "ip" = Some (PStr ip) /\ r !! "port" = Some (PInt port) /\
    r !! "user" = Some user /\ r !! "password" = Some password /\
    r !! "latency" = Some (PInt (Tester.elapsed_ms env)).
Proof.
  intros Hr. apply tester_probe_some in Hr.
  destruct Hr as (ip & port & user & password & resp & Hp & _ & _ & ->).
  exists ip, port, user, password. split; [exact Hp|].
  rewrite !tester_read_exit_ip_other by discriminate.
  unfold tester_base, Tester.initial_result. simplify_map_eq. auto.
Qed.

Lemma join_two ip digits :
  no_colon ip -> no_colon digits -> split ":" (ip ++ ":" ++ digits) = [ip; digits].
Proof.
  intros Hi Hd. change (ip ++ ":" ++ digits) with (ip ++ String ":" digits).
  rewrite (split_app_sep _ _ _ Hi), (split_no_sep _ _ Hd). reflexivity.
Qed.

Lemma join_four ip digits u w :
  no_colon ip -> no_colon digits -> no_colon u -> no_colon w ->
  split ":" (ip ++ ":" ++ digits ++ ":" ++ u ++ ":" ++ w) = [ip; digits; u; w].
Proof.
  intros Hi Hd Hu Hw.
  change (ip ++ ":" ++ digits ++ ":" ++ u ++ ":" ++ w)
    with (ip ++ String ":" (digits ++ String ":" (u ++ String ":" w))).
  rewrite (split_app_sep _ _ _ Hi), (split_app_sep _ _ _ Hd), (split_app_sep _ _ _ Hu),
    (split_no_sep _ _ Hw).
  reflexivity.
Qed.

Lemma working_line_parse cr r ip digits port user password :
  no_colon ip -> int digits = Ok port ->
  (user = PNone /\ password = PNone \/
   exists u w, user = PStr u /\ password = PStr w /\ no_colon u /\ no_colon w) ->
  r !! "ip" = Some (PStr ip) -> r !! "port" = Some (PInt port) ->
  r !! "user" = Some user -> r !! "password" = Some password ->
  exists line user' password',
    Tester.working_line cr r = Ok line /\
    Tester.parse_parts line = Some (ip, port, user', password') /\
    Tester.proxy_url ip port user' password' = Tester.proxy_url ip port user password /\
    (truthy user && truthy password = true -> user' = user /\ password' = password).
Proof.
  intros Hi Hint Hc Hip Hport Hu Hw. apply int_str_int in Hint.
  unfold Tester.working_line, dict_get, dict_item. rewrite Hip, Hport, Hu, Hw.
  unfold mbind, mret, res_bind, res_ret, bind. cbn [py_str].
  assert (H2 : Tester.parse_parts (ip ++ ":" ++ str_int port) = Some (ip, port, PNone, PNone)).
  { unfold Tester.parse_parts. rewrite (join_two _ _ Hi (str_int_no_colon port)).
    unfold mbind, res_bind, bind. rewrite Hint. reflexivity. }
  destruct (truthy user && truthy password) eqn:Ht.
  - destruct Hc as [[-> ->]|(u & w & -> & -> & Hnu & Hnw)]; [discriminate|].
    eexists _, (PStr u), (PStr w). split; [reflexivity|]. split; [|auto].
    unfold Tester.parse_parts. cbn [py_str].
    rewrite (join_four _ _ _ _ Hi (str_int_no_colon port) Hnu Hnw).
    unfold mbind, res_bind, bind. rewrite Hint. reflexivity.
  - eexists _, PNone, PNone. split; [reflexivity|]. split; [exact H2|].
    split; [|discriminate]. unfold Tester.proxy_url. rewrite Ht. reflexivity.
Qed.

(** *** Quoting of credentials *)

Lemma quote_char_safe c : all_chars url_char (Tester.quote_char c) = true.
Proof. destruct c as [[] [] [] [] [] [] [] []]; vm_compute; reflexivity. Qed.

Lemma quote_char_kept c : kept_char c = true -> Tester.quote_char c = String c "".
Proof. unfold kept_char, Tester.quote_char. intros ->. reflexivity. Qed.

Lemma quote_safe s : all_chars url_char (Tester.quote s) = true.
Proof.
  induction s as [|c r IH]; [reflexivity|].
  simpl. rewrite all_chars_app, quote_char_safe, IH. reflexivity.
Qed.

Lemma quote_kept s : all_chars kept_char s = true -> Tester.quote s = s.
Proof.
  induction s as [|c r IH]; [reflexivity|].
  simpl. intros H. apply andb_true_iff in H. destruct H as [Hc Hr].
  rewrite (quote_char_kept c Hc), (IH Hr). reflexivity.
Qed.

(** *** The output stage *)

Lemma printable_key r : printable r -> r !! "latency" = Some (PInt (key_ms r)).
Proof.
  intros [[n Hn] _]. unfold key_ms, Tester.latency_key, dict_get. rewrite Hn. reflexivity.
Qed.

Lemma printable_latency_key r : printable r -> Tester.latency_key r = PInt (key_ms r).
Proof.
  intros H. unfold Tester.latency_key, dict_get at 1. rewrite (printable_key r H).
  reflexivity.
Qed.


Lemma telegram_url_total cr r :
  printable r -> exists url, Tester.generate_telegram_url cr r = Ok url.
Proof.
  intros (_ & (ip & port & Hip & Hport) & Hc).
  unfold Tester.generate_telegram_url, dict_item. rewrite Hip, Hport.
  unfold mbind, mret, res_bind, res_ret, bind.
  destruct (truthy _ && truthy _) eqn:Ht; [|eauto].
  destruct (Hc eq_refl) as (u & w & Hu & Hw). unfold dict_get. rewrite Hu, Hw.
  simpl. eauto.
Qed.

Lemma telegram_urls_total cr l :
  Forall printable l ->
  exists urls, Tester.telegram_urls cr l = Ok urls /\ length urls = length l.
Proof.
  induction 1 as [|r l Hr _ (urls & Hu & Hn)]; [exists []; auto|].
  destruct (telegram_url_total cr r Hr) as (url & Hurl).
  exists (url :: urls). simpl. rewrite Hurl, Hu. simpl. auto.
Qed.






Lemma shown_total l : Forall printable l -> Tester.shown l = Ok l.
Proof.
  induction 1 as [|r l (_ & (ip & port & Hip & Hport) & _) _ IH]; [reflexivity|].
  simpl. unfold dict_item. rewrite Hip, Hport, IH. reflexivity.
Qed.

Lemma printable_get r : printable r -> dict_get r "latency" PNone = PInt (key_ms r).
Proof. intros H. unfold dict_get. rewrite (printable_key r H). reflexivity. Qed.

Lemma numbers_latencies l :
  Forall printable l -> Tester.numbers (Tester.latencies l) = Ok (counted l).
Proof.
  unfold Tester.latencies, counted.
  induction 1 as [|r l Hr _ IH]; [reflexivity|].
  cbn [List.filter List.map]. rewrite (printable_get r Hr). cbn [truthy].
  destruct (key_ms r =? 0); cbn [negb]; [exact IH|].
  cbn [List.map Tester.numbers]. rewrite (printable_get r Hr). cbn [as_number].
  rewrite IH. reflexivity.
Qed.

Lemma select_band (test : dict -> res bool) (band : Z -> bool) l :
  (forall r, printable r -> test r = Ok (band (key_ms r))) ->
  Forall printable l ->
  Tester.select test l = Ok (List.filter (fun r => band (key_ms r)) l).
Proof.
  intros Ht. induction 1 as [|r l Hr _ IH]; [reflexivity|].
  cbn [Tester.select List.filter]. rewrite (Ht r Hr), IH. reflexivity.
Qed.

Lemma compare_int_key op r n :
  printable r -> Tester.compare_int op (Tester.latency_key r) n = Ok (op (key_ms r) n).
Proof.
  intros H. rewrite (printable_latency_key r H). reflexivity.
Qed.

Lemma min_of_spec l : forall x,
  In (Tester.min_of x l) (x :: l) /\ Forall (fun n => Tester.min_of x l <= n) (x :: l).
Proof.
  unfold Tester.min_of. induction l as [|y r IH]; intros x; simpl.
  - split; [auto | repeat constructor; lia].
  - destruct (IH (Z.min x y)) as [Hin Hall]. inversion Hall as [|? ? Hm Hr]; subst.
    split.
    + destruct Hin as [Hin|Hin]; [|auto].
      rewrite <- Hin. destruct (Z.min_spec x y) as [[_ ->]|[_ ->]]; auto.
    + repeat constructor; [lia | lia | exact Hr].
Qed.

Lemma max_of_spec l : forall x,
  In (Tester.max_of x l) (x :: l) /\ Forall (fun n => n <= Tester.max_of x l) (x :: l).
Proof.
  unfold Tester.max_of. induction l as [|y r IH]; intros x; simpl.
  - split; [auto | repeat constructor; lia].
  - destruct (IH (Z.max x y)) as [Hin Hall]. inversion Hall as [|? ? Hm Hr]; subst.
    split.
    + destruct Hin as [Hin|Hin]; [|auto].
      rewrite <- Hin. destruct (Z.max_spec x y) as [[_ ->]|[_ ->]]; auto.
    + repeat constructor; [lia | lia | exact Hr].
Qed.

Lemma sum_of_bounds lo hi l :
  Forall (fun n => lo <= n <= hi) l ->
  lo * Z.of_nat (length l) <= Tester.sum_of l <= hi * Z.of_nat (length l).
Proof.
  induction 1 as [|n l Hn _ IH]; [simpl; lia|].
  change (Tester.sum_of (n :: l)) with (n + Tester.sum_of l).
  change (length (n :: l)) with (S (length l)). rewrite Nat2Z.inj_succ. nia.
Qed.

Lemma average_bounds lo hi l :
  l <> [] -> Forall (fun n => lo <= n <= hi) l ->
  lo <= Tester.sum_of l / Z.of_nat (length l) <= hi.
Proof.
  intros Hne Hl. pose proof (sum_of_bounds lo hi l Hl) as [H1 H2].
  assert (Hpos : 0 < Z.of_nat (length l)) by (destruct l; [congruence | simpl; lia]).
  split.
  - apply Z.div_le_lower_bound; [exact Hpos | lia].
  - apply Z.div_le_upper_bound; [exact Hpos | lia].
Qed.

Lemma print_summary_spec cr working :
  working <> [] -> Forall printable working ->
  exists s urls,
    Tester.print_summary cr working = Ok (Some s) /\
    Tester.total_working s = length working /\
    Tester.fast s = List.filter (fun r => key_ms r <? 1000) working /\
    Tester.medium s =
      List.filter (fun r => (key_ms r >=? 1000) && (key_ms r <? 3000)) working /\
    Tester.slow s = List.filter (fun r => key_ms r >=? 3000) working /\
    Tester.top5 s = firstn 5 working /\
    Tester.samples s = urls /\
    Tester.telegram_urls cr (firstn 3 working) = Ok urls /\
    (Tester.average s, Tester.fastest s, Tester.slowest s) =
      match counted working with
      | [] => (None, None, None)
      | x :: r =>
          (Some (Tester.sum_of (x :: r) / Z.of_nat (length (x :: r))),
           Some (Tester.min_of x r), Some (Tester.max_of x r))
      end.
Proof.
  intros Hne Hp.
  assert (H3 : Forall printable (firstn 3 working)) by (apply Forall_take, Hp).
  assert (H5 : Forall printable (firstn 5 working)) by (apply Forall_take, Hp).
  destruct (telegram_urls_total cr _ H3) as (urls & Hu & _).
  unfold Tester.print_summary. destruct working as [|p rest]; [congruence|].
  rewrite (numbers_latencies _ Hp).
  rewrite (select_band (fun p => Tester.compare_int Z.ltb (Tester.latency_key p) 1000)
             (fun n => n <? 1000) _ (fun r Hr => compare_int_key Z.ltb r 1000 Hr) Hp).
  rewrite (select_band
             (fun p => lo ← Tester.compare_int Z.geb (Tester.latency_key p) 1000;
                       if lo : bool
                       then Tester.compare_int Z.ltb (Tester.latency_key p) 3000
                       else mret false)
             (fun n => (n >=? 1000) && (n <? 3000))); [| |exact Hp].
  2:{ intros r Hr. rewrite !(compare_int_key _ r _ Hr).
      unfold mbind, mret, res_bind, res_ret, bind.
      destruct (key_ms r >=? 1000); reflexivity. }
  rewrite (select_band (fun p => Tester.compare_int Z.geb (Tester.latency_key p) 3000)
             (fun n => n >=? 3000) _ (fun r Hr => compare_int_key Z.geb r 3000 Hr) Hp).
  rewrite (shown_total _ H5), Hu.
  unfold mbind, mret, res_bind, res_ret, bind.
  eexists _, urls. split; [reflexivity|]. cbn [Tester.total_working Tester.fast
    Tester.medium Tester.slow Tester.top5 Tester.samples Tester.average Tester.fastest
    Tester.slowest].
  repeat (split; [reflexivity|]).
  destruct (counted (p :: rest)); reflexivity.
Qed.

(** *** From the probes to the report *)








Lemma filter_bands {A} (f g h : A -> bool) l :
  (forall x, (f x = true /\ g x = false /\ h x = false) \/
             (f x = false /\ g x = true /\ h x = false) \/
             (f x = false /\ g x = false /\ h x = true)) ->
  Permutation l (List.filter f l ++ List.filter g l ++ List.filter h l).
Proof.
  intros H. induction l as [|x l IH]; [reflexivity|].
  simpl. destruct (H x) as [(-> & -> & ->)|[(-> & -> & ->)|(-> & -> & ->)]].
  - simpl. constructor. exact IH.
  - apply Permutation_cons_app. exact IH.
  - rewrite app_assoc. apply Permutation_cons_app. rewrite <- app_assoc. exact IH.
Qed.

Lemma counted_nonzero working : Forall (fun n => n <> 0) (counted working).
Proof.
  unfold counted. apply Forall_forall. intros n Hn.
  apply list_elem_of_In, filter_In in Hn. destruct Hn as [_ Hn].
  apply negb_true_iff, Z.eqb_neq in Hn. exact Hn.
Qed.

Lemma strip_idem_rstrip s : rstrip (rstrip s) = rstrip s.
Proof.
  induction s as [|c r IH]; [reflexivity|].
  simpl. destruct (is_space c && is_empty (rstrip r)) eqn:E; [reflexivity|].
  simpl. rewrite IH, E. reflexivity.
Qed.

Lemma lstrip_head s :
  lstrip s = "" \/ exists c r, lstrip s = String c r /\ is_space c = false.
Proof.
  induction s as [|c r IH]; simpl; [auto|].
  destruct (is_space c) eqn:E; [exact IH | right; eauto].
Qed.

Lemma strip_idem s : strip (strip s) = strip s.
Proof.
  unfold strip. destruct (lstrip_head s) as [->|(c & r & -> & Hc)]; [reflexivity|].
  assert (Hr : rstrip (String c r) = String c (rstrip r)) by (simpl; rewrite Hc; reflexivity).
  rewrite Hr, (lstrip_id _ _ Hc), <- Hr. apply strip_idem_rstrip.
Qed.

Lemma append_lines_idem lines :
  Tester.append_lines (Tester.append_lines lines) = Tester.append_lines lines.
Proof.
  unfold Tester.append_lines. induction lines as [|l r IH]; [reflexivity|].
  cbn [List.map List.filter]. destruct (Tester.keep_line (strip l)) eqn:E; [|exact IH].
  cbn [List.map List.filter]. rewrite strip_idem, E, IH. reflexivity.
Qed.

(** *** The collection of the scanner *)

Lemma additive_ret {A} (a : A) : additive (ret_st a).
Proof. intros st. split; [reflexivity|]. simpl. symmetry. apply union_empty_r_L. Qed.

Lemma additive_lift {A} (c : res A) : additive (lift c).
Proof. intros st. split; [reflexivity|]. simpl. symmetry. apply union_empty_r_L. Qed.

Lemma additive_add x : additive (set_add x).
Proof.
  intros st. split; [reflexivity|]. unfold set_add. simpl.
  rewrite union_empty_r_L. apply (comm_L (∪)).
Qed.

Lemma additive_bind {A B} (c : M (gset string) A) (k : A -> M (gset string) B) :
  additive c -> (forall a, additive (k a)) -> additive (bind_st c k).
Proof.
  intros Hc Hk st. unfold bind_st.
  destruct (Hc st) as [Hf Hs].
  destruct (c st) as [[a|e] st1], (c ∅) as [[a'|e'] st0]; simpl in Hf, Hs;
    try discriminate.
  - injection Hf as ->. subst st1.
    destruct (Hk a' (st ∪ st0)) as [Hf1 Hs1], (Hk a' st0) as [Hf0 Hs0].
    rewrite Hf1, Hf0, Hs1, Hs0. split; [reflexivity|].
    rewrite !(assoc_L (∪)). reflexivity.
  - simpl. injection Hf as ->. split; [reflexivity | exact Hs].
Qed.

Lemma additive_try {A} (c : M (gset string) A) (h : exn -> M (gset string) A) :
  additive c -> (forall e, additive (h e)) -> additive (mtry c h).
Proof.
  intros Hc Hh st. unfold mtry.
  destruct (Hc st) as [Hf Hs].
  destruct (c st) as [[a|e] st1], (c ∅) as [[a'|e'] st0]; simpl in Hf, Hs;
    try discriminate.
  - simpl. split; [exact Hf | exact Hs].
  - injection Hf as ->. subst st1.
    destruct (Hh e' (st ∪ st0)) as [Hf1 Hs1], (Hh e' st0) as [Hf0 Hs0].
    rewrite Hf1, Hf0, Hs1, Hs0. split; [reflexivity|].
    rewrite !(assoc_L (∪)). reflexivity.
Qed.

Lemma additive_for_each {A} (l : list A) (body : A -> M (gset string) unit) :
  (forall x, additive (body x)) -> additive (for_each l body).
Proof.
  intros Hb. induction l as [|x r IH]; simpl.
  - apply additive_ret.
  - apply additive_bind; [apply Hb | intros _; exact IH].
Qed.

Lemma additive_if {A} (b : bool) (c1 c2 : M (gset string) A) :
  additive c1 -> additive c2 -> additive (if b then c1 else c2).
Proof. destruct b; auto. Qed.

Lemma additive_item cr item : additive (Scanner.add_from_item cr item).
Proof.
  unfold Scanner.add_from_item.
  repeat (apply additive_bind; [apply additive_lift | intros ?]).
  apply additive_if; [apply additive_add | apply additive_ret].
Qed.

Lemma additive_json cr data : additive (Scanner.add_from_json cr data).
Proof.
  unfold Scanner.add_from_json. destruct data; try apply additive_ret.
  - apply additive_for_each. intros item.
    destruct item; try apply additive_ret.
    + apply additive_if; [apply additive_add | apply additive_ret].
    + apply additive_item.
  - destruct (assoc "data" kv); [|apply additive_ret].
    apply additive_bind; [apply additive_lift | intros items].
    apply additive_for_each. intros item. apply additive_item.
Qed.

Lemma additive_collect_one cr net url : additive (Scanner.collect_one cr net url).
Proof.
  unfold Scanner.collect_one.
  apply additive_try; [|intros e; apply additive_ret].
  apply additive_bind; [apply additive_lift | intros response].
  apply additive_if; [|apply additive_ret].
  apply additive_try.
  - apply additive_bind; [apply additive_lift | intros data]. apply additive_json.
  - intros e. apply additive_for_each. intros x. apply additive_add.
Qed.

Lemma collect_one_ok cr net url st : fst (Scanner.collect_one cr net url st) = Ok tt.
Proof.
  unfold Scanner.collect_one. unfold mtry at 1.
  match goal with
  | |- context [match ?x with _ => _ end] => destruct x as [[[]|e] st']
  end; reflexivity.
Qed.

Lemma collect_sources cr net urls :
  forall st,
    for_each urls (Scanner.collect_one cr net) st =
    (Ok tt, st ∪ ⋃ (List.map (contribution cr net) urls)).
Proof.
  induction urls as [|url rest IH]; intros st; simpl.
  - unfold ret_st. f_equal. symmetry. apply union_empty_r_L.
  - unfold bind_st.
    pose proof (collect_one_ok cr net url st) as Hok.
    destruct (additive_collect_one cr net url st) as [_ Hs].
    destruct (Scanner.collect_one cr net url st) as [[[]|e] st1]; simpl in Hok, Hs;
      [|discriminate].
    rewrite IH, Hs. f_equal. unfold contribution. rewrite (assoc_L (∪)). reflexivity.
Qed.

Lemma collected_union cr net x :
  x ∈ Scanner.collected cr net <->
  exists url, In url Scanner.PROXY_SOURCES /\ x ∈ contribution cr net url.
Proof.
  unfold Scanner.collected. rewrite collect_sources. cbn [snd].
  rewrite union_empty_l_L, elem_of_union_list. split.
  - intros (X & HX & Hx). apply list_elem_of_In, in_map_iff in HX.
    destruct HX as (url & <- & Hu). eauto.
  - intros (url & Hu & Hx). eexists. split; [|exact Hx].
    apply list_elem_of_In, in_map_iff. eauto.
Qed.

Lemma add_all_set l : forall st : gset string,
  for_each l set_add st = (Ok tt, list_to_set l ∪ st).
Proof.
  induction l as [|x r IH]; intros st; simpl.
  - unfold ret_st. f_equal. symmetry. apply union_empty_l_L.
  - unfold bind_st, set_add. rewrite IH. f_equal.
    rewrite (assoc_L (∪)), (comm_L (∪) _ {[x]}). reflexivity.
Qed.

Lemma contribution_cases cr net url :
  match net url None 15 with
  | Raise _ => contribution cr net url = ∅
  | Ok resp =>
      (status_code resp <> 200 -> contribution cr net url = ∅) /\
      (status_code resp = 200 -> forall e, json resp = Raise e ->
       contribution cr net url = list_to_set (Scanner.extract_proxies_from_text (text resp)))
  end.
Proof.
  unfold contribution, Scanner.collect_one.
  destruct (net url None 15) as [resp|e]; [|reflexivity].
  split.
  - intros Hs. apply Z.eqb_neq in Hs. msimpl. rewrite Hs. reflexivity.
  - intros Hs e He. msimpl. rewrite Hs, He. simpl.
    rewrite add_all_set. simpl. apply union_empty_r_L.
Qed.

(** *** The parsers of the two scripts *)

Lemma parse_pair_parts proxy ip port :
  Scanner.parse_pair proxy = Some (ip, port) <->
  Tester.parse_parts proxy = Some (ip, port, PNone, PNone).
Proof.
  unfold Scanner.parse_pair, Tester.parse_parts.
  destruct (split ":" proxy) as [|a [|b [|c [|d [|e l]]]]];
    unfold mbind, mret, res_bind, res_ret, bind, raise;
    try (split; discriminate).
  - destruct (int b) as [n|]; [|split; discriminate].
    split; intros [= <- <-]; reflexivity.
  - destruct (int b) as [n|]; split; discriminate.
Qed.

Lemma parse_pair_credentials proxy ip port user password :
  Tester.parse_parts proxy = Some (ip, port, user, password) ->
  user <> PNone ->
  Scanner.parse_pair proxy = None.
Proof.
  intros Hp Hu. destruct (Scanner.parse_pair proxy) as [[ip' port']|] eqn:E; [|reflexivity].
  apply parse_pair_parts in E. congruence.
Qed.

(** *** The greeting of test_socks5_connection *)

Lemma connection_needs_handshake MY env proxy r :
  Scanner.test_socks5_connection MY env proxy = Ok (Some r) ->
  exists ip port, Scanner.parse_pair proxy = Some (ip, port) /\ handshake_ok env ip port.
Proof.
  unfold Scanner.test_socks5_connection.
  destruct (Scanner.parse_pair proxy) as [[ip port]|]; [|discriminate].
  intros H. exists ip, port. split; [reflexivity|]. revert H.
  unfold Scanner.handshake_then_http, handshake_ok. unfold mtry at 1.
  unfold mbind, mret, M_bind, M_ret, bind_st, ret_st, lift.
  destruct (Scanner.sock_open env) as [[]|e]; [|discriminate].
  destruct (Scanner.sock_connect env ip port) as [[]|e]; [|discriminate].
  destruct (Scanner.sock_sendall env [5; 1; 0]) as [[]|e]; [|discriminate].
  destruct (Scanner.sock_recv env 2) as [bytes|e]; [|discriminate].
  destruct (firstn 2 bytes) as [|ver [|method [|? ?]]] eqn:Hb; try discriminate.
  destruct (ver =? 5) eqn:Hv; [|discriminate]. apply Z.eqb_eq in Hv. subst ver.
  cbn [negb]. destruct (method =? 255) eqn:Hm; [discriminate|].
  apply Z.eqb_neq in Hm. intros _.
  repeat split. exists bytes, method. auto.
Qed.

(** *** The files of the scanner *)

Lemma fast_proxies_filter l :
  Forall (fun x => Tester.latency_key x = PInt (key_ms x)) l ->
  Scanner.fast_proxies l = Ok (List.filter (fun x => key_ms x <? 2000) l).
Proof.
  induction 1 as [|x l Hx _ IH]; [reflexivity|].
  cbn [Scanner.fast_proxies List.filter].
  change (Scanner.latency_key x) with (Tester.latency_key x). rewrite Hx, IH.
  reflexivity.
Qed.

Lemma sorted_filter_prefix t l :
  StronglySorted by_latency l ->
  List.filter (fun x => key_ms x <? t) l =
    firstn (length (List.filter (fun x => key_ms x <? t) l)) l /\
  Forall (fun x => t <= key_ms x)
    (skipn (length (List.filter (fun x => key_ms x <? t) l)) l).
Proof.
  induction 1 as [|x l Hs [IH1 IH2] Hx]; [split; [reflexivity | constructor]|].
  cbn [List.filter]. destruct (key_ms x <? t) eqn:E.
  - cbn [length firstn skipn]. split; [f_equal; exact IH1 | exact IH2].
  - apply Z.ltb_ge in E.
    assert (Hall : Forall (fun y => t <= key_ms y) l).
    { eapply Forall_impl; [exact Hx|]. unfold by_latency. simpl. intros; lia. }
    rewrite filter_none.
    + split; [reflexivity|]. simpl. constructor; assumption.
    + eapply Forall_impl; [exact Hall|]. simpl. intros y Hy. apply Z.ltb_ge, Hy.
Qed.

(** *** enrich_with_country *)

Lemma enrich_one_cases net p :
  match lookup_address p with
  | Some (PStr s) =>
      Scanner.enrich_one net p = Ok (<["country" := country_of net p]> p)
  | Some _ => exists msg, Scanner.enrich_one net p = Raise (Exn AttributeError msg)
  | None => exists msg, Scanner.enrich_one net p = Raise (Exn KeyError msg)
  end.
Proof.
  unfold Scanner.enrich_one, country_of, lookup_address, dict_item.
  destruct (truthy (dict_get p "exit_ip" PNone));
    match goal with
    | |- context [p !! ?k] => destruct (p !! k) as [[]|]
    end; simpl; eauto.
Qed.

Lemma enrich_from_spec geo l : forall i,
  Forall addressable l ->
  Scanner.enrich_from geo i l =
  Ok (imap (fun j p => <["country" := country_of (geo (i + j)%nat) p]> p) l).
Proof.
  induction l as [|p r IH]; intros i Hl; [reflexivity|].
  inversion Hl as [|? ? [s Hs] Hr]; subst.
  cbn [Scanner.enrich_from imap].
  pose proof (enrich_one_cases (geo i) p) as Hp. rewrite Hs in Hp.
  rewrite Hp, (IH (S i) Hr). unfold mbind, mret, res_bind, res_ret, bind.
  rewrite Nat.add_0_r. do 2 f_equal. apply imap_ext. intros j q _. simpl.
  rewrite Nat.add_succ_r. reflexivity.
Qed.

Lemma enrich_from_raises geo before p after : forall i,
  Forall addressable before ->
  (exists v, lookup_address p = Some v /\ forall s, v <> PStr s) ->
  exists msg,
    Scanner.enrich_from geo i (before ++ p :: after) = Raise (Exn AttributeError msg).
Proof.
  induction before as [|q r IH]; intros i Hb (v & Hv & Hns).
  - cbn [app Scanner.enrich_from].
    pose proof (enrich_one_cases (geo i) p) as Hp. rewrite Hv in Hp.
    destruct v as [|b|n|s|l|kv];
      match type of Hp with
      | ex _ => destruct Hp as [msg Hm]; exists msg; rewrite Hm; reflexivity
      | _ => exfalso; apply (Hns s); reflexivity
      end.
  - inversion Hb as [|? ? [s Hs] Hr]; subst.
    cbn [app Scanner.enrich_from].
    pose proof (enrich_one_cases (geo i) q) as Hq. rewrite Hs in Hq. rewrite Hq.
    destruct (IH (S i) Hr) as [msg Hm]; [eauto|].
    exists msg. unfold mbind, res_bind, bind. rewrite Hm. reflexivity.
Qed.

Lemma enrich_from_inv geo l : forall i l',
  Scanner.enrich_from geo i l = Ok l' -> Forall addressable l.
Proof.
  induction l as [|p r IH]; intros i l' H; [constructor|].
  cbn [Scanner.enrich_from] in H. unfold mbind, mret, res_bind, res_ret, bind in H.
  pose proof (enrich_one_cases (geo i) p) as Hp.
  destruct (Scanner.enrich_one (geo i) p) as [p'|e] eqn:Ep; [|discriminate].
  destruct (Scanner.enrich_from geo (S i) r) as [r'|e] eqn:Er; [|discriminate].
  constructor; [|exact (IH _ _ Er)].
  unfold addressable. destruct (lookup_address p) as [[]|]; eauto;
    destruct Hp as [msg Hp]; discriminate.
Qed.

(** *** A run of the scanner *)








(** *** The file by country *)

Lemma grouped_fields p :
  grouped p ->
  dict_get p "country" (PStr "XX") = PStr (country_code p) /\
  dict_item p "proxy" = Ok (proxy_name p).
Proof.
  intros [[c Hc] [v Hv]]. unfold country_code, proxy_name, dict_item, dict_get at 3.
  rewrite Hc, Hv. auto.
Qed.

Lemma group_by_country_fold l : forall acc,
  Forall grouped l ->
  Scanner.group_by_country l acc =
  Ok (fold_left (fun g p => Scanner.add_to_group (PStr (country_code p)) (proxy_name p) g)
        l acc).
Proof.
  induction l as [|p r IH]; intros acc Hl; [reflexivity|].
  inversion Hl as [|? ? Hp Hr]; subst.
  destruct (grouped_fields p Hp) as [Hc Hn].
  cbn [Scanner.group_by_country fold_left]. rewrite Hc, Hn.
  apply (IH _ Hr).
Qed.

Lemma add_to_group_cons c0 n0 a names rest :
  Scanner.add_to_group (PStr c0) n0 ((PStr a, names) :: rest) =
  if String.eqb a c0 then (PStr a, (names ++ [n0])%list) :: rest
  else (PStr a, names) :: Scanner.add_to_group (PStr c0) n0 rest.
Proof. reflexivity. Qed.

Lemma add_to_group_facts c0 n0 acc :
  Forall keyed acc ->
  Forall keyed (Scanner.add_to_group (PStr c0) n0 acc) /\
  (forall c, names_under c (Scanner.add_to_group (PStr c0) n0 acc) =
             if String.eqb c0 c then (names_under c acc ++ [n0])%list
             else names_under c acc) /\
  (forall c, In c (List.map group_code (Scanner.add_to_group (PStr c0) n0 acc)) <->
             In c (List.map group_code acc) \/ c = c0) /\
  (NoDup (List.map group_code acc) ->
   NoDup (List.map group_code (Scanner.add_to_group (PStr c0) n0 acc))).
Proof.
  induction 1 as [|[k names] rest Hk Hrest (IH1 & IH2 & IH3 & IH4)].
  - simpl. split; [repeat constructor|]. split; [|split].
    + intros c. unfold group_code. simpl. destruct (String.eqb c0 c); reflexivity.
    + intros c. simpl. unfold group_code. simpl. intuition congruence.
    + intros _. simpl. apply NoDup_singleton.
  - unfold keyed in Hk. simpl in Hk. set (a := group_code (k, names)) in *.
    rewrite Hk, add_to_group_cons.
    assert (Ha : forall ns, group_code (PStr a, ns) = a) by reflexivity.
    destruct (String.eqb_spec a c0) as [->|Hne].
    + split; [constructor; [reflexivity | exact Hrest]|]. split; [|split].
      * intros c. cbn [names_under]. rewrite !Ha. cbn [snd].
        destruct (String.eqb c0 c); reflexivity.
      * intros c. cbn [List.map]. rewrite !Ha. simpl. intuition congruence.
      * cbn [List.map]. rewrite !Ha. auto.
    + split; [constructor; [reflexivity | exact IH1]|]. split; [|split].
      * intros c. cbn [names_under]. rewrite !Ha, IH2. cbn [snd].
        destruct (String.eqb_spec a c) as [->|Hac]; [|reflexivity].
        destruct (String.eqb_spec c0 c) as [->|_]; [congruence | reflexivity].
      * intros c. cbn [List.map]. rewrite !Ha. simpl. rewrite IH3. tauto.
      * cbn [List.map]. rewrite !Ha. intros Hd. apply NoDup_cons in Hd.
        destruct Hd as [Hn Hd]. apply NoDup_cons. split; [|apply IH4, Hd].
        rewrite list_elem_of_In, IH3, <- list_elem_of_In. intros [H|H]; [auto | congruence].
Qed.

Lemma fold_groups_facts l : forall acc,
  Forall keyed acc -> NoDup (List.map group_code acc) ->
  let groups :=
    fold_left (fun g p => Scanner.add_to_group (PStr (country_code p)) (proxy_name p) g)
      l acc in
  Forall keyed groups /\ NoDup (List.map group_code groups) /\
  (forall c, names_under c groups = (names_under c acc ++ members c l)%list) /\
  (forall c, In c (List.map group_code groups) <->
             In c (List.map group_code acc) \/ exists p, In p l /\ country_code p = c).
Proof.
  induction l as [|p r IH]; intros acc Hk Hd; cbn [fold_left].
  - split; [exact Hk|]. split; [exact Hd|]. split.
    + intros c. unfold members. simpl. rewrite app_nil_r. reflexivity.
    + intros c. split; [auto|]. intros [H|(p & [] & _)]. exact H.
  - destruct (add_to_group_facts (country_code p) (proxy_name p) acc Hk)
      as (H1 & H2 & H3 & H4).
    destruct (IH _ H1 (H4 Hd)) as (I1 & I2 & I3 & I4).
    split; [exact I1|]. split; [exact I2|]. split.
    + intros c. rewrite I3, H2. unfold members. cbn [List.filter].
      destruct (String.eqb (country_code p) c); cbn [List.map];
        rewrite <- ?app_assoc; reflexivity.
    + intros c. rewrite I4, H3. simpl. split.
      * intros [[H|H]|(q & Hq & Hc)]; eauto.
      * intros [H|(q & [<-|Hq] & Hc)]; eauto.
Qed.

Lemma names_under_member groups g :
  NoDup (List.map group_code groups) -> In g groups ->
  names_under (group_code g) groups = snd g.
Proof.
  induction groups as [|h rest IH]; intros Hd Hin; [destruct Hin|].
  cbn [List.map] in Hd. apply NoDup_cons in Hd. destruct Hd as [Hn Hd].
  cbn [names_under]. destruct Hin as [->|Hin].
  - rewrite String.eqb_refl. reflexivity.
  - destruct (String.eqb_spec (group_code h) (group_code g)) as [E|_]; [|apply IH; auto].
    exfalso. apply Hn. rewrite E. apply list_elem_of_In, in_map, Hin.
Qed.

Lemma group_by_country_spec l :
  Forall grouped l ->
  exists groups,
    Scanner.group_by_country l [] = Ok groups /\
    Forall keyed groups /\ NoDup (List.map group_code groups) /\
    forall g, In g groups <->
              exists p, In p l /\ g = (PStr (country_code p), members (country_code p) l).
Proof.
  intros Hl. rewrite (group_by_country_fold l [] Hl).
  destruct (fold_groups_facts l [] ltac:(constructor) ltac:(constructor))
    as (Hk & Hd & Hn & Hc).
  eexists. split; [reflexivity|]. split; [exact Hk|]. split; [exact Hd|].
  intros g. split.
  - intros Hg.
    assert (Hcode : In (group_code g) (List.map group_code
              (fold_left (fun g p => Scanner.add_to_group (PStr (country_code p))
                                       (proxy_name p) g) l [])))
      by (apply in_map, Hg).
    apply Hc in Hcode. destruct Hcode as [[]|(p & Hp & Hcp)].
    exists p. split; [exact Hp|].
    rewrite Forall_forall in Hk. pose proof (Hk g (proj2 (list_elem_of_In _ _) Hg)) as Hkg.
    pose proof (names_under_member _ g Hd Hg) as Hm. rewrite Hn in Hm. simpl in Hm.
    destruct g as [k names]. unfold keyed in Hkg. simpl in Hkg, Hm.
    rewrite Hkg, Hcp, <- Hm. reflexivity.
  - intros (p & Hp & ->).
    assert (Hcode : In (country_code p) (List.map group_code
              (fold_left (fun g p => Scanner.add_to_group (PStr (country_code p))
                                       (proxy_name p) g) l [])))
      by (apply Hc; right; eauto).
    apply in_map_iff in Hcode. destruct Hcode as (g & Hg & Hin).
    rewrite Forall_forall in Hk. pose proof (Hk g (proj2 (list_elem_of_In _ _) Hin)) as Hkg.
    pose proof (names_under_member _ g Hd Hin) as Hm. rewrite Hn, Hg in Hm. simpl in Hm.
    destruct g as [k names]. unfold keyed in Hkg. simpl in Hkg, Hm.
    rewrite Hg in Hkg. rewrite <- Hkg, Hm. exact Hin.
Qed.

Lemma item_key_compare (x y : pyval * list pyval) :
  keyed x -> keyed y -> group_code y <> group_code x ->
  py_lt (Scanner.item_key y) (Scanner.item_key x) =
  Ok (String.ltb (group_code y) (group_code x)).
Proof.
  destruct x as [kx nx], y as [ky ny]. unfold keyed, Scanner.item_key, group_code.
  cbn [fst snd].
  destruct kx as [| | |cx| |], ky as [| | |cy| |]; try discriminate.
  intros _ _ Hne. apply String.eqb_neq in Hne.
  cbn [py_lt py_eq]. rewrite Hne. reflexivity.
Qed.

Lemma by_country_groups_spec l :
  Forall grouped l ->
  exists groups,
    Scanner.by_country_groups l = Ok groups /\
    StronglySorted (fun a b => String.ltb (group_code a) (group_code b) = true) groups /\
    forall g, In g groups <->
              exists p, In p l /\ g = (PStr (country_code p), members (country_code p) l).
Proof.
  intros Hl. destruct (group_by_country_spec l Hl) as (groups & Hg & Hk & Hd & Hin).
  destruct (sort_by_text Scanner.item_key group_code keyed item_key_compare groups Hk Hd)
    as (sorted & Hs & Hp & Hss).
  exists sorted. unfold Scanner.by_country_groups. rewrite Hg.
  split; [exact Hs|]. split; [exact Hss|].
  intros g. rewrite <- Hin. rewrite <- !list_elem_of_In, Hp. reflexivity.
Qed.

(** *** Candidates from JSON *)

Lemma add_strings cr l : forall st : gset string,
  for_each (List.map PStr l)
    (fun item =>
       match item with
       | PDict _ => Collector.add_from_item cr item
       | PStr s => if contains ":" s then set_add (strip s) else mret tt
       | _ => mret tt
       end) st
  = (Ok tt, list_to_set (List.map strip (List.filter (contains ":") l)) ∪ st).
Proof.
  induction l as [|s r IH]; intros st; cbn [List.map List.filter for_each].
  - unfold ret_st. f_equal. symmetry. apply union_empty_l_L.
  - unfold bind_st. destruct (contains ":" s).
    + unfold set_add. rewrite IH. f_equal. cbn [List.map list_to_set].
      rewrite (assoc_L (∪)), (comm_L (∪) _ {[strip s]}). reflexivity.
    + unfold mret, M_ret, ret_st. apply IH.
Qed.

Lemma json_strings cr l :
  Collector.extract_proxies_from_json cr (PList (List.map PStr l)) None =
  list_to_set (List.map strip (List.filter (contains ":") l)).
Proof.
  unfold Collector.extract_proxies_from_json, Collector.read_json.
  unfold mtry, mbind, M_bind, bind_st, lift. rewrite add_strings.
  simpl. apply union_empty_r_L.
Qed.

Lemma json_path_followed cr data path data' :
  path <> "" -> Collector.navigate (split "." path) data = Ok data' ->
  Collector.extract_proxies_from_json cr data (Some path) =
  Collector.extract_proxies_from_json cr data' None.
Proof.
  intros Hp Hn. unfold Collector.extract_proxies_from_json, Collector.read_json.
  destruct path; [congruence|]. cbn [is_empty].
  unfold mtry, mbind, M_bind, bind_st, lift. rewrite Hn. reflexivity.
Qed.

Lemma json_path_lost cr data path e :
  path <> "" -> Collector.navigate (split "." path) data = Raise e ->
  Collector.extract_proxies_from_json cr data (Some path) = ∅.
Proof.
  intros Hp Hn. unfold Collector.extract_proxies_from_json, Collector.read_json.
  destruct path; [congruence|]. cbn [is_empty].
  unfold mtry, mbind, M_bind, bind_st, lift. rewrite Hn. reflexivity.
Qed.

Lemma json_not_a_list cr data :
  (forall items, data <> PList items) ->
  Collector.extract_proxies_from_json cr data None = ∅.
Proof.
  intros H. unfold Collector.extract_proxies_from_json, Collector.read_json.
  destruct data; try reflexivity. exfalso. apply (H l). reflexivity.
Qed.

(** *** The list of working proxies, in the order of completion *)

Lemma drain_in_order futures order :
  (forall i f, futures !! i = Some f ->
     exists v, f = Ok v /\
       match v with Some d => d !! "working" = Some (PBool true) | None => True end) ->
  forall w0,
    Tester.drain futures order w0 =
    Ok (w0 ++ omap (fun i => futures !! i ≫= delivered) order)%list.
Proof.
  intros Hf. induction order as [|i rest IH]; intros w0.
  - simpl. rewrite app_nil_r. reflexivity.
  - cbn [Tester.drain omap list_omap]. destruct (futures !! i) as [f|] eqn:Hi.
    + destruct (Hf i f Hi) as (v & -> & Hv).
      pose proof (collect_cases w0 (Ok v)) as Hc.
      unfold mbind at 1, res_bind, bind.
      destruct v as [d|].
      * rewrite Hv in Hc. rewrite Hc. cbn [truthy]. rewrite IH.
        cbn [mbind option_bind delivered]. rewrite <- app_assoc. reflexivity.
      * rewrite Hc, IH. reflexivity.
    + rewrite IH. reflexivity.
Qed.

Lemma tester_futures_deliver MY world proxies i f :
  Tester.submit_all MY world proxies !! i = Some f ->
  exists v, f = Ok v /\
    match v with Some d => d !! "working" = Some (PBool true) | None => True end.
Proof.
  intros Hf. apply tester_submit_lookup in Hf. destruct Hf as (p & _ & ->).
  destruct (tester_probe_total MY (world i) p) as [v Hv].
  exists v. split; [exact Hv|]. destruct v as [d|]; [|exact I].
  apply (tester_probe_fields _ _ _ _ Hv).
Qed.

Lemma scanner_futures_deliver MY world proxies i f :
  Scanner.submit_all MY world proxies !! i = Some f ->
  exists v, f = Ok v /\
    match v with Some d => d !! "working" = Some (PBool true) | None => True end.
Proof.
  intros Hf. apply scanner_submit_lookup in Hf. destruct Hf as (p & _ & ->).
  destruct (pysocks_probe_total MY (world i) p) as [v Hv].
  exists v. split; [exact Hv|]. destruct v as [d|]; [|exact I].
  apply (pysocks_probe_fields _ _ _ _ Hv).
Qed.

(** *** The Telegram link of a result *)

Lemma append_empty s : s ++ "" = s.
Proof. induction s; sapp; congruence. Qed.

Lemma telegram_url_of_result cr MY env proxy r :
  Tester.test_socks5_proxy MY env proxy = Ok (Some r) ->
  exists ip port user password,
    Tester.parse_parts proxy = Some (ip, port, user, password) /\
    Tester.generate_telegram_url cr r =
    Ok ("https://t.me/socks?server=" ++ ip ++ "&port=" ++ str_int port ++
        if truthy user && truthy password
        then "&user=" ++ Tester.quote (Tester.cred_str user)
             ++ "&pass=" ++ Tester.quote (Tester.cred_str password)
        else "").
Proof.
  intros Hr.
  destruct (tester_probe_endpoint _ _ _ _ Hr)
    as (ip & port & user & password & Hp & Hip & Hport & Hu & Hw & _).
  exists ip, port, user, password. split; [exact Hp|].
  unfold Tester.generate_telegram_url, dict_item, dict_get.
  rewrite Hip, Hport, Hu, Hw. unfold mbind, mret, res_bind, res_ret, bind.
  cbn [py_str].
  destruct (parse_parts_some _ _ _ _ _ Hp) as (_ & digits & _ & Hc).
  destruct Hc as [(_ & -> & ->)|(u & w & _ & -> & -> & _)].
  - cbn [truthy andb]. rewrite append_empty. reflexivity.
  - cbn [Tester.py_quote Tester.cred_str]. unfold raise.
    destruct (truthy (PStr u) && truthy (PStr w)); [reflexivity|].
    rewrite append_empty. reflexivity.
Qed.

(* ===================================================================== *)
(** ** The reference IP: the resolver and the run *)
(* ===================================================================== *)



(* ===================================================================== *)
(** ** Further properties: the extraction of candidates *)
(* ===================================================================== *)

(** X1.  Every candidate [extract_proxies_from_text] yields is written as
    four groups of one to three digits joined by dots, a colon, and two to
    five digits: nothing else of the text gets into a candidate. *)
Theorem extracted_candidate_shape (text x : string) :
  In x (Scanner.extract_proxies_from_text text) ->
  exists a b c d port,
    x = (a ++ "." ++ b ++ "." ++ c ++ "." ++ d) ++ ":" ++ port /\
    octet_text a /\ octet_text b /\ octet_text c /\ octet_text d /\ port_text port.
Proof.
  intros H. apply extract_shape in H.
  destruct H as (ip & port & n & -> & (a & b & c & d & -> & Ha & Hb & Hc & Hd) & Hp & _).
  exists a, b, c, d, port. auto 10.
Qed.

Lemma extracted_candidate_shape_witness :
  exists a b c d port,
    "5.6.7.8:1080" = (a ++ "." ++ b ++ "." ++ c ++ "." ++ d) ++ ":" ++ port /\
    octet_text a /\ octet_text b /\ octet_text c /\ octet_text d /\ port_text port.
Proof.
  apply (extracted_candidate_shape Sample.batch_text "5.6.7.8:1080").
  vm_compute. auto.
Defined.

(** X2.  A candidate is a piece of the text it was extracted from: both
    extractors copy, they do not normalise (leading zeros stay). *)
Theorem extracted_candidate_occurs (text x : string) :
  In x (Scanner.extract_proxies_from_text text) \/
  x ∈ Collector.extract_proxies_from_text text ->
  contains x text = true.
Proof.
  intros [H|H]; [|apply collector_extract_In in H];
    apply extract_shape in H;
    destruct H as (ip & port & n & _ & _ & _ & _ & _ & H); exact H.
Qed.

Lemma extracted_candidate_occurs_witness :
  contains "1.1.1.1:01080" (text Sample.two_spellings) = true.
Proof.
  apply (extracted_candidate_occurs (text Sample.two_spellings) "1.1.1.1:01080").
  left. vm_compute. auto.
Defined.

(** X3.  What the extraction yields, the probes accept: a candidate is kept
    unchanged by the loader of the tester, and the parsers of both scripts
    split it into the dotted quad and a port between 1 and 65535, without
    credentials.  No extracted candidate is dropped as unparsable. *)
Theorem extracted_candidate_parses (text x : string) :
  In x (Scanner.extract_proxies_from_text text) ->
  exists ip n,
    dotted_quad ip /\ 1 <= n <= 65535 /\
    Tester.append_lines [x] = [x] /\
    Tester.parse_parts x = Some (ip, n, PNone, PNone) /\
    Scanner.parse_pair x = Some (ip, n).
Proof. apply extract_accepted. Qed.

Lemma extracted_candidate_parses_witness :
  exists ip n,
    dotted_quad ip /\ 1 <= n <= 65535 /\
    Tester.append_lines ["1.2.3.4:8080"] = ["1.2.3.4:8080"] /\
    Tester.parse_parts "1.2.3.4:8080" = Some (ip, n, PNone, PNone) /\
    Scanner.parse_pair "1.2.3.4:8080" = Some (ip, n).
Proof.
  apply (extracted_candidate_parses Sample.batch_text "1.2.3.4:8080").
  vm_compute. auto.
Defined.

(** X4.  The collector and the scanner, each with its own copy of
    [extract_proxies_from_text], extract the same candidates from a text:
    the set the collector returns holds exactly the elements of the list
    the scanner returns, and equals the set made of that list. *)
Theorem collector_extracts_scanner_candidates (text : string) :
  Collector.extract_proxies_from_text text =
    list_to_set (Scanner.extract_proxies_from_text text) /\
  forall x, x ∈ Collector.extract_proxies_from_text text <->
            In x (Scanner.extract_proxies_from_text text).
Proof.
  split; [apply collector_extract_eq | intros x; apply collector_extract_In].
Qed.

(** X5.  Extraction is idempotent: a candidate that was extracted from
    any text is, taken as a text of its own, matched as a whole and yields
    itself and nothing else. *)
Theorem extraction_fixed_point (text x : string) :
  In x (Scanner.extract_proxies_from_text text) ->
  Scanner.extract_proxies_from_text x = [x] /\
  Collector.extract_proxies_from_text x = {[x]}.
Proof.
  intros H. pose proof (extract_fixed text x H) as Hx.
  split; [exact Hx|]. rewrite collector_extract_eq, Hx. simpl.
  apply union_empty_r_L.
Qed.

Lemma extraction_fixed_point_witness :
  Scanner.extract_proxies_from_text "1.1.1.1:01080" = ["1.1.1.1:01080"] /\
  Collector.extract_proxies_from_text "1.1.1.1:01080" = {["1.1.1.1:01080"]}.
Proof.
  apply (extraction_fixed_point (text Sample.two_spellings) "1.1.1.1:01080").
  vm_compute. auto.
Defined.


(* ===================================================================== *)
(** ** Further properties: the collector *)
(* ===================================================================== *)

(** X6.  What [fetch_from_source] returns is consistent: the count is the
    size of the set of candidates; the source counts as successful exactly
    when the request was answered with status 200, and exactly then no
    error text is recorded; a failed source has no candidates. *)
Theorem fetch_from_source_record (container_repr : pyval -> string)
    (net : network) (src : Collector.source) :
  let r := Collector.fetch_from_source container_repr net src in
  Collector.f_name r = Collector.name src /\
  Collector.f_url r = Collector.url src /\
  Collector.count r = size (Collector.proxies r) /\
  (Collector.success r = true <->
   exists resp, net (Collector.url src) None 30 = Ok resp /\ status_code resp = 200) /\
  (Collector.success r = true <-> Collector.error r = None) /\
  (Collector.success r = false -> Collector.proxies r = ∅).
Proof. apply fetch_cases. Qed.

Lemma fetch_from_source_record_witness :
  Collector.proxies
    (Collector.fetch_from_source Sample.no_repr Sample.offline
       (Collector.Source "OpenProxyList" "https://openproxylist.xyz/socks5.txt" "text" None))
  = ∅.
Proof.
  apply (proj2 (proj2 (proj2 (proj2 (proj2
           (fetch_from_source_record Sample.no_repr Sample.offline
              (Collector.Source "OpenProxyList" "https://openproxylist.xyz/socks5.txt"
                 "text" None))))))).
  reflexivity.
Defined.

(** X7.  [collect_all] returns the union of the candidates of the sources
    that succeeded, and one status entry per source, in the order of
    [PROXY_SOURCES]; a source that fails takes nothing away from what the
    others found. *)
Theorem collect_all_union (container_repr : pyval -> string) (net : network) :
  (forall x,
      x ∈ fst (Collector.collect_all container_repr net) <->
      exists src,
        In src Collector.PROXY_SOURCES /\
        Collector.success (Collector.fetch_from_source container_repr net src) = true /\
        x ∈ Collector.proxies (Collector.fetch_from_source container_repr net src)) /\
  snd (Collector.collect_all container_repr net) =
    List.map (fun src => Collector.status_of
                           (Collector.fetch_from_source container_repr net src))
      Collector.PROXY_SOURCES /\
  length (snd (Collector.collect_all container_repr net)) = 30%nat.
Proof.
  destruct (collect_all_spec container_repr net) as [Hx Hs].
  split; [exact Hx|]. split; [exact Hs|]. rewrite Hs, length_map. reflexivity.
Qed.

(** X8.  The lines [save_results] of the collector writes are the
    candidates of the set, each once, in strictly ascending order of their
    text; the sort cannot fail. *)
Theorem collector_output_sorted (proxies : gset string) :
  exists lines,
    Collector.save_results proxies = Ok lines /\
    (forall x, In x lines <-> x ∈ proxies) /\
    length lines = size proxies /\
    StronglySorted (fun a b => String.ltb a b = true) lines.
Proof.
  destruct (collector_save_spec proxies) as (lines & Hl & Hp & Hs).
  exists lines. split; [exact Hl|]. split; [|split; [|exact Hs]].
  - intros x. rewrite <- list_elem_of_In, <- Hp. apply elem_of_elements.
  - rewrite <- Hp. reflexivity.
Qed.

(** X9.  The top sources of the summary are the first ten entries of a
    ranking of the successful sources by descending count, in which
    sources with the same count keep the order of the source list. *)
Theorem top_sources_ranking (source_results : list Collector.status) :
  exists ranking,
    Collector.top_sources source_results = Ok (firstn 10 ranking) /\
    Permutation (List.filter Collector.s_success source_results) ranking /\
    StronglySorted (fun a b => (Collector.s_count b <= Collector.s_count a)%nat) ranking /\
    forall n,
      List.filter (fun s => Nat.eqb (Collector.s_count s) n) ranking =
      List.filter (fun s => Nat.eqb (Collector.s_count s) n)
        (List.filter Collector.s_success source_results).
Proof. apply top_sources_spec. Qed.

(** X10.  Every candidate the collector takes from a source that is not
    of type json comes from a response with status 200 and is a
    well-formed endpoint: the tester, which reads the collector's output
    file, parses it into a dotted quad and a port between 1 and 65535. *)
Theorem text_source_candidates_parse (container_repr : pyval -> string)
    (net : network) (src : Collector.source) (x : string) :
  Collector.type src <> "json" ->
  x ∈ Collector.proxies (Collector.fetch_from_source container_repr net src) ->
  exists resp ip n,
    net (Collector.url src) None 30 = Ok resp /\ status_code resp = 200 /\
    contains x (text resp) = true /\
    dotted_quad ip /\ 1 <= n <= 65535 /\
    Tester.append_lines [x] = [x] /\
    Tester.parse_parts x = Some (ip, n, PNone, PNone).
Proof.
  intros Ht Hx.
  destruct (fetch_text_source _ _ _ _ Ht Hx) as (resp & Hr & Hs & Hin).
  destruct (extract_accepted _ _ Hin) as (ip & n & Hq & Hn & Hk & Hp & _).
  apply extract_shape in Hin. destruct Hin as (? & ? & ? & _ & _ & _ & _ & _ & Hc).
  exists resp, ip, n. auto 10.
Qed.

Lemma text_source_candidates_parse_witness :
  exists resp ip n,
    Sample.always (Ok Sample.two_spellings) "https://openproxylist.xyz/socks5.txt" None 30
      = Ok resp /\ status_code resp = 200 /\
    contains "1.1.1.1:01080" (text resp) = true /\
    dotted_quad ip /\ 1 <= n <= 65535 /\
    Tester.append_lines ["1.1.1.1:01080"] = ["1.1.1.1:01080"] /\
    Tester.parse_parts "1.1.1.1:01080" = Some (ip, n, PNone, PNone).
Proof.
  apply (text_source_candidates_parse Sample.no_repr (Sample.always (Ok Sample.two_spellings))
           (Collector.Source "OpenProxyList" "https://openproxylist.xyz/socks5.txt"
              "text" None) "1.1.1.1:01080").
  - discriminate.
  - vm_compute. reflexivity.
Defined.


(* ===================================================================== *)
(** ** Further properties: the output of the tester *)
(* ===================================================================== *)

(** X11.  The line [save_results] writes for a result of a probe reads
    back as the same endpoint: parsed again, it gives the host and the port
    of the candidate the result came from, and the same proxy URL.  The
    credentials are written, and read back, when both are non-empty; else
    they are left out, as the probe left them out of its proxy URL. *)
Theorem working_line_round_trip (container_repr : pyval -> string) (MY : pyval)
    (env : Tester.probe_env) (proxy : string) (r : dict) :
  Tester.test_socks5_proxy MY env proxy = Ok (Some r) ->
  exists ip port user password line user' password',
    Tester.parse_parts proxy = Some (ip, port, user, password) /\
    Tester.working_line container_repr r = Ok line /\
    Tester.parse_parts line = Some (ip, port, user', password') /\
    Tester.proxy_url ip port user' password' = Tester.proxy_url ip port user password /\
    (truthy user && truthy password = true -> user' = user /\ password' = password).
Proof.
  intros Hr.
  destruct (tester_probe_endpoint _ _ _ _ Hr)
    as (ip & port & user & password & Hp & Hip & Hport & Hu & Hw & _).
  destruct (parse_parts_some _ _ _ _ _ Hp) as (Hi & digits & Hint & Hc).
  destruct (working_line_parse container_repr r ip digits port user password Hi Hint)
    as (line & user' & password' & Hl & Hpl & Hurl & Hsame); auto.
  - destruct Hc as [(_ & -> & ->)|(u & w & _ & -> & -> & Hnu & Hnw)]; [auto|].
    right. exists u, w. auto.
  - exists ip, port, user, password, line, user', password'. auto 10.
Qed.

Lemma working_line_round_trip_witness :
  let v := Tester.test_socks5_proxy PNone (Sample.tester_env (Ok (Sample.echo "1.1.1.1")))
             "1.2.3.4: 01080:u:p" in
  exists ip port user password line user' password',
    Tester.parse_parts "1.2.3.4: 01080:u:p" = Some (ip, port, user, password) /\
    Tester.working_line Sample.no_repr (returned v) = Ok line /\
    Tester.parse_parts line = Some (ip, port, user', password') /\
    Tester.proxy_url ip port user' password' = Tester.proxy_url ip port user password /\
    (truthy user && truthy password = true -> user' = user /\ password' = password).
Proof.
  intros v.
  apply (working_line_round_trip Sample.no_repr PNone
           (Sample.tester_env (Ok (Sample.echo "1.1.1.1"))) "1.2.3.4: 01080:u:p").
  apply (field_returned v "working" (PBool true)). vm_compute. reflexivity.
Defined.

(** X12.  [quote] leaves only unreserved characters, slashes and percent
    escapes: a quoted credential holds no [&], [=], [#], [?] or space, so it
    cannot break the query string of a Telegram link; a string made of
    unreserved characters and slashes is not changed. *)
Theorem quote_is_url_safe (s : string) :
  all_chars url_char (Tester.quote s) = true /\
  all_chars (fun c => negb (existsb (Ascii.eqb c) ["&"; "="; "#"; "?"; " "]%char))
    (Tester.quote s) = true /\
  (all_chars kept_char s = true -> Tester.quote s = s).
Proof.
  split; [apply quote_safe|]. split; [|apply quote_kept].
  apply (all_chars_impl url_char); [|apply quote_safe].
  intros c Hc. destruct c as [[] [] [] [] [] [] [] []]; vm_compute in Hc |- *; congruence.
Qed.

Lemma quote_is_url_safe_witness : Tester.quote "user-1/a.b" = "user-1/a.b".
Proof. apply (proj2 (proj2 (quote_is_url_safe "user-1/a.b"))). reflexivity. Defined.



(** X14.  The speed breakdown of the summary is a partition: with integer
    latencies every working proxy is counted in exactly one of the three
    classes, below 1000 ms, from 1000 ms to below 3000 ms, and from
    3000 ms on, and the three counts add up to the total. *)
Theorem summary_speed_classes (container_repr : pyval -> string) (working : list dict) :
  working <> [] -> Forall printable working ->
  exists s,
    Tester.print_summary container_repr working = Ok (Some s) /\
    Permutation working (Tester.fast s ++ Tester.medium s ++ Tester.slow s) /\
    (length (Tester.fast s) + length (Tester.medium s) + length (Tester.slow s))%nat
      = Tester.total_working s /\
    Forall (fun r => key_ms r < 1000) (Tester.fast s) /\
    Forall (fun r => 1000 <= key_ms r < 3000) (Tester.medium s) /\
    Forall (fun r => 3000 <= key_ms r) (Tester.slow s).
Proof.
  intros Hne Hp.
  destruct (print_summary_spec container_repr working Hne Hp)
    as (s & urls & Hs & Htot & Hf & Hm & Hsl & _).
  exists s. split; [exact Hs|]. rewrite Hf, Hm, Hsl, Htot.
  assert (Hperm : Permutation working
            (List.filter (fun r => key_ms r <? 1000) working ++
             List.filter (fun r => (key_ms r >=? 1000) && (key_ms r <? 3000)) working ++
             List.filter (fun r => key_ms r >=? 3000) working)).
  { apply filter_bands. intros x.
    destruct (Z.ltb_spec (key_ms x) 1000), (Z.geb_spec (key_ms x) 1000),
             (Z.ltb_spec (key_ms x) 3000), (Z.geb_spec (key_ms x) 3000);
      simpl; try lia; auto 10. }
  split; [exact Hperm|]. split.
  - pose proof (Permutation_length Hperm) as Hlen. rewrite !length_app in Hlen. lia.
  - split; [|split]; apply Forall_forall; intros r Hr;
      apply list_elem_of_In, filter_In in Hr; destruct Hr as [_ Hr].
    + apply Z.ltb_lt, Hr.
    + apply andb_true_iff in Hr. destruct Hr as [H1 H2].
      apply Z.geb_le in H1. apply Z.ltb_lt in H2. lia.
    + apply Z.geb_le in Hr. lia.
Qed.

Lemma summary_speed_classes_witness :
  let a := tester_base (Sample.tester_env (Ok (Sample.echo "1.1.1.1")))
             "1.2.3.4:1080" "1.2.3.4" 1080 PNone PNone in
  exists s,
    Tester.print_summary Sample.no_repr [a] = Ok (Some s) /\
    Permutation [a] (Tester.fast s ++ Tester.medium s ++ Tester.slow s) /\
    (length (Tester.fast s) + length (Tester.medium s) + length (Tester.slow s))%nat
      = Tester.total_working s /\
    Forall (fun r => key_ms r < 1000) (Tester.fast s) /\
    Forall (fun r => 1000 <= key_ms r < 3000) (Tester.medium s) /\
    Forall (fun r => 3000 <= key_ms r) (Tester.slow s).
Proof.
  intros a. apply (summary_speed_classes Sample.no_repr [a]); [discriminate|].
  repeat constructor.
  - eexists. vm_compute. reflexivity.
  - do 2 eexists. split; vm_compute; reflexivity.
  - intros H. vm_compute in H. discriminate.
Defined.

(** X15.  The latency statistics of the summary are taken over the
    latencies that are not zero (a latency of 0 ms is dropped by the test
    [if p.get('latency')]).  With no such latency nothing is shown; else
    the fastest and the slowest are latencies of the list that bound all
    others, and the average, rounded down, lies between them. *)
Theorem summary_statistics (container_repr : pyval -> string) (working : list dict) :
  working <> [] -> Forall printable working ->
  exists s,
    Tester.print_summary container_repr working = Ok (Some s) /\
    match counted working with
    | [] => Tester.average s = None /\ Tester.fastest s = None /\ Tester.slowest s = None
    | _ =>
        exists lo avg hi,
          Tester.fastest s = Some lo /\ Tester.average s = Some avg /\
          Tester.slowest s = Some hi /\
          In lo (counted working) /\ In hi (counted working) /\
          Forall (fun n => lo <= n <= hi) (counted working) /\
          lo <= avg <= hi /\ lo <> 0 /\ hi <> 0 /\
          avg = Tester.sum_of (counted working) / Z.of_nat (length (counted working))
    end.
Proof.
  intros Hne Hp.
  destruct (print_summary_spec container_repr working Hne Hp)
    as (s & urls & Hs & _ & _ & _ & _ & _ & _ & _ & Hst).
  exists s. split; [exact Hs|].
  pose proof (counted_nonzero working) as Hnz.
  destruct (counted working) as [|x r] eqn:E.
  - injection Hst as -> -> ->. auto.
  - injection Hst as Ha Hf Hl.
    destruct (min_of_spec r x) as [Hmin Hminall], (max_of_spec r x) as [Hmax Hmaxall].
    assert (Hb : Forall (fun n => Tester.min_of x r <= n <= Tester.max_of x r) (x :: r)).
    { apply Forall_forall. intros n Hn.
      rewrite Forall_forall in Hminall, Hmaxall. split; auto. }
    exists (Tester.min_of x r), (Tester.sum_of (x :: r) / Z.of_nat (length (x :: r))),
           (Tester.max_of x r).
    rewrite Forall_forall in Hnz.
    repeat split; auto.
    + apply (average_bounds (Tester.min_of x r) (Tester.max_of x r) (x :: r));
        [discriminate | exact Hb].
    + apply (average_bounds (Tester.min_of x r) (Tester.max_of x r) (x :: r));
        [discriminate | exact Hb].
    + apply Hnz, list_elem_of_In, Hmin.
    + apply Hnz, list_elem_of_In, Hmax.
Qed.

Lemma summary_statistics_witness :
  let a := tester_base (Sample.tester_env (Ok (Sample.echo "1.1.1.1")))
             "1.2.3.4:1080" "1.2.3.4" 1080 PNone PNone in
  exists s,
    Tester.print_summary Sample.no_repr [a] = Ok (Some s) /\
    match counted [a] with
    | [] => Tester.average s = None /\ Tester.fastest s = None /\ Tester.slowest s = None
    | _ =>
        exists lo avg hi,
          Tester.fastest s = Some lo /\ Tester.average s = Some avg /\
          Tester.slowest s = Some hi /\
          In lo (counted [a]) /\ In hi (counted [a]) /\
          Forall (fun n => lo <= n <= hi) (counted [a]) /\
          lo <= avg <= hi /\ lo <> 0 /\ hi <> 0 /\
          avg = Tester.sum_of (counted [a]) / Z.of_nat (length (counted [a]))
    end.
Proof.
  intros a. apply (summary_statistics Sample.no_repr [a]); [discriminate|].
  repeat constructor.
  - eexists. vm_compute. reflexivity.
  - do 2 eexists. split; vm_compute; reflexivity.
  - intros H. vm_compute in H. discriminate.
Defined.



(** X17.  Every line [load_proxies] returns is already in the form the
    loader keeps: stripped, not empty, holding a colon and not starting
    with the comment mark.  Loading what was loaded changes nothing.
    When [load_proxies] returns no list, it raises what reading the input
    file raised. *)
Theorem loaded_lines_normalised (INPUT_URL : option string) (net : network)
    (file : option (res (list string))) :
  match Tester.load_proxies INPUT_URL net file with
  | Ok proxies =>
      Tester.append_lines proxies = proxies /\
      Forall (fun line => strip line = line /\ Tester.keep_line line = true) proxies
  | Raise e => file = Some (Raise e)
  end.
Proof.
  assert (Hn : forall lines,
             Forall (fun line => strip line = line /\ Tester.keep_line line = true)
               (Tester.append_lines lines)).
  { intros lines. apply Forall_forall. intros line Hl.
    apply list_elem_of_In in Hl. unfold Tester.append_lines in Hl.
    apply filter_In in Hl. destruct Hl as [Hm Hk]. apply in_map_iff in Hm.
    destruct Hm as (raw & <- & _). split; [apply strip_idem | exact Hk]. }
  assert (Hcases :
    (exists lines, Tester.load_proxies INPUT_URL net file = Ok (Tester.append_lines lines)) \/
    (exists e, file = Some (Raise e) /\ Tester.load_proxies INPUT_URL net file = Raise e)).
  { unfold Tester.load_proxies.
    assert (Hf : (exists lines,
                    match file with
                    | Some reading => lines ← reading; mret (Tester.append_lines lines)
                    | None => Ok []
                    end = Ok (Tester.append_lines lines)) \/
                 (exists e, file = Some (Raise e) /\
                    match file with
                    | Some reading => lines ← reading; mret (Tester.append_lines lines)
                    | None => Ok []
                    end = Raise e)).
    { destruct file as [[l|e]|]; [left; exists l | right; exists e | left; exists []];
        auto. }
    destruct INPUT_URL as [url|]; [|exact Hf].
    destruct (is_empty url); [exact Hf|].
    destruct (net url None 30) as [resp|e]; [|exact Hf].
    destruct (status_code resp =? 200); [left; eexists; reflexivity | exact Hf]. }
  destruct Hcases as [(lines & ->)|(e & He & ->)]; [|exact He].
  split; [apply append_lines_idem | apply Hn].
Qed.


(* ===================================================================== *)
(** ** Further properties: the scanner *)
(* ===================================================================== *)

(** X18.  [collect_from_sources] gathers the union of what each source
    contributes on its own: a source neither removes a candidate nor
    depends on what the sources before it found.  A source that cannot be
    reached or answers a status other than 200 contributes nothing, one
    that answers 200 with a body that is not JSON contributes the
    candidates extracted from its text. *)
Theorem scanner_collection_union (container_repr : pyval -> string) (net : network) :
  (forall x,
      In x (Scanner.collect_from_sources container_repr net) <->
      exists url, In url Scanner.PROXY_SOURCES /\ x ∈ contribution container_repr net url) /\
  (forall url,
      match net url None 15 with
      | Raise _ => contribution container_repr net url = ∅
      | Ok resp =>
          (status_code resp <> 200 -> contribution container_repr net url = ∅) /\
          (status_code resp = 200 -> forall e, json resp = Raise e ->
           contribution container_repr net url =
             list_to_set (Scanner.extract_proxies_from_text (text resp)))
      end).
Proof.
  split.
  - intros x. unfold Scanner.collect_from_sources.
    rewrite <- list_elem_of_In, elem_of_elements. apply collected_union.
  - intros url. apply contribution_cases.
Qed.

Lemma scanner_collection_union_witness :
  contribution Sample.no_repr (Sample.always (Ok (Response 503 "1.2.3.4:1080" (Raise Sample.timeout))))
    "https://example.org/list.txt" = ∅.
Proof.
  apply (proj1 (proj2 (scanner_collection_union Sample.no_repr
           (Sample.always (Ok (Response 503 "1.2.3.4:1080" (Raise Sample.timeout)))))
           "https://example.org/list.txt")).
  discriminate.
Defined.

(** X19.  The parser of the scanner accepts exactly the candidates the
    parser of the tester accepts without credentials, with the same host
    and port.  A candidate with credentials, which the tester probes, is
    dropped by both probes of the scanner. *)
Theorem scanner_parses_plain_candidates (proxy ip : string) (port : Z) :
  (Scanner.parse_pair proxy = Some (ip, port) <->
   Tester.parse_parts proxy = Some (ip, port, PNone, PNone)) /\
  (forall user password MY env,
      Tester.parse_parts proxy = Some (ip, port, user, password) ->
      user <> PNone ->
      Scanner.test_socks5_with_pysocks MY env proxy = Ok None /\
      Scanner.test_socks5_connection MY env proxy = Ok None).
Proof.
  split; [apply parse_pair_parts|].
  intros user password MY env Hp Hu.
  pose proof (parse_pair_credentials _ _ _ _ _ Hp Hu) as Hn.
  unfold Scanner.test_socks5_with_pysocks, Scanner.test_socks5_connection.
  rewrite Hn. auto.
Qed.

Lemma scanner_parses_plain_candidates_witness :
  Scanner.test_socks5_with_pysocks PNone
    (Sample.scanner_env [5; 0] (Ok (Sample.echo "1.1.1.1"))) "1.2.3.4:1080:u:p" = Ok None /\
  Scanner.test_socks5_connection PNone
    (Sample.scanner_env [5; 0] (Ok (Sample.echo "1.1.1.1"))) "1.2.3.4:1080:u:p" = Ok None.
Proof.
  apply (proj2 (scanner_parses_plain_candidates "1.2.3.4:1080:u:p" "1.2.3.4" 1080)
           (PStr "u") (PStr "p")); [reflexivity | discriminate].
Defined.

(** X20.  [test_socks5_connection] returns a dictionary exactly when the
    candidate parses and the greeting is accepted: the socket connects, the
    greeting is sent, and the first two bytes of the answer are version 5
    and a method other than 0xFF.  Nothing the tunnelled request does can
    turn the result into [None]. *)
Theorem connection_result_iff_greeting (MY : pyval) (env : Scanner.probe_env)
    (proxy : string) :
  (exists r, Scanner.test_socks5_connection MY env proxy = Ok (Some r)) <->
  (exists ip port, Scanner.parse_pair proxy = Some (ip, port) /\ handshake_ok env ip port).
Proof.
  split.
  - intros [r Hr]. exact (connection_needs_handshake _ _ _ _ Hr).
  - intros (ip & port & Hp & Hh). rewrite (connection_cases MY env proxy ip port Hp Hh).
    destruct (Scanner.requests_get env _ _ _) as [resp|e]; [|eauto].
    destruct (status_code resp =? 200); eauto.
Qed.

(** X21.  The file of fast proxies is a prefix of the file of working
    proxies: with integer latencies, the entries below 2000 ms are the
    first entries of the sorted list, and every entry after them takes
    2000 ms or more. *)
Theorem fast_proxies_prefix (working : list dict) :
  Forall (fun x => exists n, x !! "latency" = Some (PInt n)) working ->
  exists sorted fast,
    Scanner.save_results working = Ok sorted /\
    Scanner.fast_proxies sorted = Ok fast /\
    fast = firstn (length fast) sorted /\
    Forall (fun x => key_ms x < 2000) fast /\
    Forall (fun x => 2000 <= key_ms x) (skipn (length fast) sorted).
Proof.
  intros Hk.
  assert (Hk' : Forall (fun x => Tester.latency_key x = PInt (key_ms x)) working).
  { eapply Forall_impl; [exact Hk|]. simpl. intros x [n Hn].
    unfold key_ms, Tester.latency_key, dict_get. rewrite Hn. reflexivity. }
  destruct (sort_by_key_int Tester.latency_key key_ms working Hk')
    as (sorted & Ho & Hp & _ & Hs).
  exists sorted, (List.filter (fun x => key_ms x <? 2000) sorted).
  split; [exact Ho|].
  split; [apply fast_proxies_filter, (Permutation_Forall Hp Hk')|].
  destruct (sorted_filter_prefix 2000 sorted Hs) as [H1 H2].
  split; [exact H1|]. split; [|exact H2].
  apply Forall_forall. intros x Hx. apply list_elem_of_In, filter_In in Hx.
  apply Z.ltb_lt, Hx.
Qed.

Lemma fast_proxies_prefix_witness :
  exists sorted fast,
    Scanner.save_results [Sample.slow; Sample.fast] = Ok sorted /\
    Scanner.fast_proxies sorted = Ok fast /\
    fast = firstn (length fast) sorted /\
    Forall (fun x => key_ms x < 2000) fast /\
    Forall (fun x => 2000 <= key_ms x) (skipn (length fast) sorted).
Proof.
  apply (fast_proxies_prefix [Sample.slow; Sample.fast]).
  repeat constructor; eexists; vm_compute; reflexivity.
Defined.

(** X22.  [enrich_with_country] runs through exactly when the address of
    every result (its exit IP when set, else its IP) is a string.  It then
    returns the results in their order, each changed in its country code
    only, which is looked up for the first comma-separated element of the
    address. *)
Theorem enrich_with_country_records (geo : nat -> network) (working : list dict) :
  ((exists enriched, Scanner.enrich_with_country geo working = Ok enriched) <->
   Forall addressable working) /\
  (forall enriched,
      Scanner.enrich_with_country geo working = Ok enriched ->
      length enriched = length working /\
      forall i p, working !! i = Some p ->
        enriched !! i = Some (<["country" := country_of (geo i) p]> p)).
Proof.
  unfold Scanner.enrich_with_country. split; [split|].
  - intros [l' H]. exact (enrich_from_inv _ _ _ _ H).
  - intros H. rewrite (enrich_from_spec geo working O H). eauto.
  - intros l' H. pose proof (enrich_from_inv _ _ _ _ H) as Ha.
    rewrite (enrich_from_spec geo working O Ha) in H. injection H as <-.
    split; [apply length_imap|].
    intros i p Hp. rewrite list_lookup_imap, Hp. reflexivity.
Qed.

Lemma enrich_with_country_records_witness :
  exists enriched,
    Scanner.enrich_with_country (fun _ => Sample.offline)
      [pysocks_base (Sample.scanner_env [5; 0] (Ok (Sample.echo "1.1.1.1")))
         "1.2.3.4:1080" "1.2.3.4" 1080] = Ok enriched.
Proof.
  apply (proj2 (proj1 (enrich_with_country_records (fun _ => Sample.offline)
           [pysocks_base (Sample.scanner_env [5; 0] (Ok (Sample.echo "1.1.1.1")))
              "1.2.3.4:1080" "1.2.3.4" 1080]))).
  repeat constructor. exists "1.2.3.4". vm_compute. reflexivity.
Defined.

(** X23.  A working result whose address is not a string stops the
    enrichment: when the echo service answered with an [origin] that is,
    say, a number, [enrich_with_country] raises [AttributeError] at that
    result, and the results after it are not looked up. *)
Theorem enrich_with_country_raises (geo : nat -> network)
    (before after : list dict) (p : dict) (v : pyval) :
  Forall addressable before ->
  lookup_address p = Some v -> (forall s, v <> PStr s) ->
  exists msg,
    Scanner.enrich_with_country geo (before ++ p :: after) =
    Raise (Exn AttributeError msg).
Proof.
  intros Hb Hv Hs. apply enrich_from_raises; eauto.
Qed.

Lemma enrich_with_country_raises_witness :
  exists msg,
    Scanner.enrich_with_country (fun _ => Sample.offline)
      ([] ++ <["exit_ip" := PInt 5]> Sample.fast :: [Sample.slow]) =
    Raise (Exn AttributeError msg).
Proof.
  apply (enrich_with_country_raises (fun _ => Sample.offline) [] [Sample.slow]
           (<["exit_ip" := PInt 5]> Sample.fast) (PInt 5)).
  - constructor.
  - vm_compute. reflexivity.
  - discriminate.
Defined.


(* ===================================================================== *)
(** ** Further properties: grouping, JSON sources and a run of the scanner *)
(* ===================================================================== *)

(** X24.  The file by country holds one group for every country code that
    occurs among the results, and no other: the group of a code lists the
    names of the results with that code, in the order of the sorted list,
    and the groups are written in strictly ascending order of their codes.
    A result without the key ['country'] is filed under XX. *)
Theorem by_country_file_groups (working : list dict) :
  Forall grouped working ->
  exists groups,
    Scanner.by_country_groups working = Ok groups /\
    StronglySorted (fun a b => String.ltb (group_code a) (group_code b) = true) groups /\
    forall g,
      In g groups <->
      exists p, In p working /\
                g = (PStr (country_code p), members (country_code p) working).
Proof. apply by_country_groups_spec. Qed.

Lemma by_country_file_groups_witness :
  exists groups,
    Scanner.by_country_groups [Sample.slow; <["country" := PStr "DE"]> Sample.fast]
      = Ok groups /\
    StronglySorted (fun a b => String.ltb (group_code a) (group_code b) = true) groups /\
    forall g,
      In g groups <->
      exists p, In p [Sample.slow; <["country" := PStr "DE"]> Sample.fast] /\
                g = (PStr (country_code p),
                     members (country_code p)
                       [Sample.slow; <["country" := PStr "DE"]> Sample.fast]).
Proof.
  apply (by_country_file_groups [Sample.slow; <["country" := PStr "DE"]> Sample.fast]).
  repeat constructor; eexists; vm_compute; reflexivity.
Defined.

(** X25.  What the collector takes from a JSON document is not checked:
    of a list of strings, every string that holds a colon becomes a
    candidate, stripped, whatever else it holds.  A path is followed key by
    key before the list is read; a path that cannot be followed, or a
    document that is not a list, gives no candidate and no exception. *)
Theorem json_candidates_unchecked (container_repr : pyval -> string) :
  (forall l,
      Collector.extract_proxies_from_json container_repr (PList (List.map PStr l)) None =
      list_to_set (List.map strip (List.filter (contains ":") l))) /\
  (forall data path data',
      path <> "" -> Collector.navigate (split "." path) data = Ok data' ->
      Collector.extract_proxies_from_json container_repr data (Some path) =
      Collector.extract_proxies_from_json container_repr data' None) /\
  (forall data path e,
      path <> "" -> Collector.navigate (split "." path) data = Raise e ->
      Collector.extract_proxies_from_json container_repr data (Some path) = ∅) /\
  (forall data,
      (forall items, data <> PList items) ->
      Collector.extract_proxies_from_json container_repr data None = ∅).
Proof.
  split; [apply json_strings|]. split; [apply json_path_followed|].
  split; [apply json_path_lost | apply json_not_a_list].
Qed.

Lemma json_candidates_unchecked_witness :
  Collector.extract_proxies_from_json Sample.no_repr
    (PDict [("data", PList [PStr " no address: here "])]) (Some "data") =
  Collector.extract_proxies_from_json Sample.no_repr
    (PList [PStr " no address: here "]) None.
Proof.
  apply (proj1 (proj2 (json_candidates_unchecked Sample.no_repr))
           (PDict [("data", PList [PStr " no address: here "])]) "data");
    [discriminate | reflexivity].
Defined.



(** X27.  [test_all_proxies] lists the working proxies in the order in
    which their probes complete.  Every future completes once, so the
    completions are a permutation of the submissions (an order that is
    such a permutation stands for itself).  The list is made of the
    dictionaries the completed futures deliver, in that order, and nothing
    else: a dictionary is in the list exactly when the probe of some
    candidate returned it, and a probe that returned [None] leaves no
    trace.  This holds for every completion order, for the tester (on a
    non-empty list of candidates) and for the scanner. *)
Theorem working_list_in_completion_order (MY : pyval) (order : list nat)
    (proxies : list string) :
  let completed := as_completed (length proxies) order in
  Permutation completed (seq 0 (length proxies)) /\
  (Permutation order (seq 0 (length proxies)) -> completed = order) /\
  (forall world,
      proxies <> [] ->
      Tester.test_all_proxies MY world order proxies =
      Ok (omap (fun i => Tester.submit_all MY world proxies !! i ≫= delivered) completed)) /\
  (forall world,
      Scanner.test_all_proxies MY world order proxies =
      Ok (omap (fun i => Scanner.submit_all MY world proxies !! i ≫= delivered) completed)) /\
  (forall world working,
      Tester.test_all_proxies MY world order proxies = Ok working ->
      forall r,
        In r working <->
        exists i p, proxies !! i = Some p /\
                    Tester.test_socks5_proxy MY (world i) p = Ok (Some r)) /\
  (forall world working,
      Scanner.test_all_proxies MY world order proxies = Ok working ->
      forall r,
        In r working <->
        exists i p, proxies !! i = Some p /\
                    Scanner.test_socks5_with_pysocks MY (world i) p = Ok (Some r)).
Proof.
  intros completed. subst completed.
  split; [apply as_completed_perm|].
  split; [apply as_completed_id|].
  split; [|split; [|split]].
  - intros world Hne. unfold Tester.test_all_proxies.
    rewrite (drain_in_order _ _ (tester_futures_deliver MY world proxies) []).
    destruct proxies; [congruence | reflexivity].
  - intros world. unfold Scanner.test_all_proxies. rewrite scanner_drain_eq.
    rewrite (drain_in_order _ _ (scanner_futures_deliver MY world proxies) []).
    reflexivity.
  - intros world working Hw r. apply tester_test_all_inv in Hw. split.
    + intros Hr. destruct (drain_source _ _ _ _ Hw r Hr) as [[]|(i & _ & Hi)].
      apply tester_submit_lookup in Hi. destruct Hi as (p & Hp & Hi).
      exists i, p. split; [exact Hp | symmetry; exact Hi].
    + intros (i & p & Hp & Hr). apply (drain_complete _ _ _ _ i r Hw).
      * apply as_completed_In. apply lookup_lt_Some in Hp. exact Hp.
      * unfold Tester.submit_all. rewrite list_lookup_imap, Hp. simpl.
        rewrite Hr. reflexivity.
      * apply (tester_probe_fields _ _ _ _ Hr).
  - intros world working Hw r. unfold Scanner.test_all_proxies in Hw.
    rewrite scanner_drain_eq in Hw. split.
    + intros Hr. destruct (drain_source _ _ _ _ Hw r Hr) as [[]|(i & _ & Hi)].
      apply scanner_submit_lookup in Hi. destruct Hi as (p & Hp & Hi).
      exists i, p. split; [exact Hp | symmetry; exact Hi].
    + intros (i & p & Hp & Hr). apply (drain_complete _ _ _ _ i r Hw).
      * apply as_completed_In. apply lookup_lt_Some in Hp. exact Hp.
      * unfold Scanner.submit_all. rewrite list_lookup_imap, Hp. simpl.
        rewrite Hr. reflexivity.
      * apply (pysocks_probe_fields _ _ _ _ Hr).
Qed.

(** The four candidates of the specification's batch, completing in the
    order 3, 0, 1, 2: the list starts with the result of the last
    candidate, and the candidate that does not parse leaves no trace. *)
Lemma working_list_in_completion_order_witness :
  as_completed 4 [3; 0; 1; 2]%nat = [3; 0; 1; 2]%nat /\
  Tester.test_all_proxies PNone Sample.even_world [3; 0; 1; 2]%nat Sample.batch =
  Ok (omap (fun i => Tester.submit_all PNone Sample.even_world Sample.batch !! i
                     ≫= delivered) (as_completed 4 [3; 0; 1; 2]%nat)) /\
  listing (fun r : dict => r !! "proxy")
    (Tester.test_all_proxies PNone Sample.even_world [3; 0; 1; 2]%nat Sample.batch)
  = Some [Some (PStr "5.6.7.8:1080"); Some (PStr "1.2.3.4:8080");
          Some (PStr "999.1.1.1:80")].
Proof.
  pose proof (working_list_in_completion_order PNone [3; 0; 1; 2]%nat Sample.batch)
    as (_ & Hid & Ht & _).
  split; [|split].
  - apply Hid. exact (Permutation_app_comm [3%nat] [0; 1; 2]%nat).
  - apply (Ht Sample.even_world). discriminate.
  - vm_compute. reflexivity.
Defined.

(** X28.  The Telegram link written for a result of a probe is made of
    the host and the port the candidate was parsed into; the credentials
    are appended, quoted, exactly when both are non-empty.  The fields the
    probe filled in (latency, exit IP, anonymity) do not get into it. *)
Theorem telegram_link_of_result (container_repr : pyval -> string) (MY : pyval)
    (env : Tester.probe_env) (proxy : string) (r : dict) :
  Tester.test_socks5_proxy MY env proxy = Ok (Some r) ->
  exists ip port user password,
    Tester.parse_parts proxy = Some (ip, port, user, password) /\
    Tester.generate_telegram_url container_repr r =
    Ok ("https://t.me/socks?server=" ++ ip ++ "&port=" ++ str_int port ++
        if truthy user && truthy password
        then "&user=" ++ Tester.quote (Tester.cred_str user)
             ++ "&pass=" ++ Tester.quote (Tester.cred_str password)
        else "").
Proof. apply telegram_url_of_result. Qed.

Lemma telegram_link_of_result_witness :
  let v := Tester.test_socks5_proxy PNone (Sample.tester_env (Ok (Sample.echo "1.1.1.1")))
             "1.2.3.4:1080:a b:p&q" in
  exists ip port user password,
    Tester.parse_parts "1.2.3.4:1080:a b:p&q" = Some (ip, port, user, password) /\
    Tester.generate_telegram_url Sample.no_repr (returned v) =
    Ok ("https://t.me/socks?server=" ++ ip ++ "&port=" ++ str_int port ++
        if truthy user && truthy password
        then "&user=" ++ Tester.quote (Tester.cred_str user)
             ++ "&pass=" ++ Tester.quote (Tester.cred_str password)
        else "").
Proof.
  intros v.
  apply (telegram_link_of_result Sample.no_repr PNone
           (Sample.tester_env (Ok (Sample.echo "1.1.1.1"))) "1.2.3.4:1080:a b:p&q").
  apply (field_returned v "working" (PBool true)). vm_compute. reflexivity.
Defined.
